(** * dashborg-go-sdk: the connection and request-dispatch engine

    A shallow embedding of the parts of [pkg/dash] and [pkg/dashcloud] that
    the specification's testable properties talk about, and the proofs that
    settle them.

    - [dashcloud]: [dbclient.go], the cloud client: connection guard, exit
      error latch, request fan-out, blob upload.
    - [dash]: [dash.go], the panel request with its response actions.
    - [runtime]: [runtime.go], the middleware chain of a registry.
    - [dashapp]: [dashapp.go], hashing a blob from a [ReadSeeker].

    Behind these come the parts of the code the properties do not name:

    - [runtime_facts]: the invariants of the registry, setting handlers,
      what a middleware can do to the chain, the linked runtime.
    - [dash_facts]: what the calls on a request do to it, the auth methods.
    - [dashcloud_facts]: the guard, connecting, the request stream and its
      loop, connecting and writing apps.
    - [dashapp_facts]: the app, its options, its handlers and its blobs.
    - [dashfs]: [dashfs.go] and [dashappclient.go], paths, files and links.
    - [dashlocal]: [dashlocal.go], the CSRF token and the actions sent to
      the page.

    Go values are modelled as the code has them: [error] is an optional
    error value ([None] is [nil]), [int64] is a [Z] with its wrap-around
    written out, [float64] is the kernel's binary64 [float], maps are
    [gmap]s, slices are lists (and, where aliasing matters, pointers into a
    store of backing arrays). Methods with a pointer receiver take the
    receiver's state and return the new one. *)

From Stdlib Require Import ZArith Floats Uint63 FunctionalExtensionality.
From stdpp Require Import base option list strings pretty gmap sorting.

Local Open Scope string_scope.
Local Open Scope list_scope.
Local Open Scope Z_scope.

(** ** Go's [error] and [int64] *)

(** The closed set of error codes of [dasherr]; [ErrCodeNone] stands for an
    error that is not a [dasherr] one ([fmt.Errorf], an [io] error). *)
Inductive ErrCode : Type :=
| ErrCodeNone
| ErrCodeEof
| ErrCodeRpc
| ErrCodeBadConnId
| ErrCodeNotConnected
| ErrCodeNoHandler
| ErrCodeLimit
| ErrCodeValidate
| ErrCodeJsonMarshal
| ErrCodeJsonUnmarshal
| ErrCodeTimeoutErr
| ErrCodeNoFeStream.

Record GoError : Type := mkErr { errCode : ErrCode; errMsg : string }.

(** A value of Go's interface type [error]: [None] is [nil]. *)
Abbreviation error := (option GoError).

Definition Errorf (msg : string) : GoError := mkErr ErrCodeNone msg.

(** What a Go call leaves behind: a returned value, or a panic. *)
Inductive outcome (A : Type) : Type :=
| Returned (a : A)
| Panicked (msg : string).
Arguments Returned {A} a.
Arguments Panicked {A} msg.

Definition int64_min : Z := - 2 ^ 63.
Definition int64_max : Z := 2 ^ 63 - 1.
Definition is_int64 (z : Z) : Prop := int64_min <= z <= int64_max.

(** Two's-complement wrap-around of an [int64] result. *)
Definition wrap64 (z : Z) : Z := (z + 2 ^ 63) mod 2 ^ 64 - 2 ^ 63.

Lemma wrap64_id z : is_int64 z -> wrap64 z = z.
Proof.
  unfold is_int64, int64_min, int64_max, wrap64. intros Hz.
  rewrite Z.mod_small; lia.
Qed.

(** ** [float64] comparisons *)

(** [a > b] on [float64]. *)
Definition fgt (a b : float) : bool := PrimFloat.ltb b a.

Definition notNaN (a : float) : Prop := PrimFloat.is_nan a = false.

Ltac compare_cases :=
  repeat match goal with
  | H : context [Pos.compare_cont Eq ?a ?b] |- _ =>
      change (Pos.compare_cont Eq a b) with (Pos.compare a b) in H
  | |- context [Pos.compare_cont Eq ?a ?b] =>
      change (Pos.compare_cont Eq a b) with (Pos.compare a b)
  end;
  repeat match goal with
  | H : context [Z.compare ?a ?b] |- _ => destruct (Z.compare_spec a b); simpl in H
  | |- context [Z.compare ?a ?b] => destruct (Z.compare_spec a b); simpl
  | H : context [Pos.compare ?a ?b] |- _ => destruct (Pos.compare_spec a b); simpl in H
  | |- context [Pos.compare ?a ?b] => destruct (Pos.compare_spec a b); simpl
  end;
  try discriminate; try reflexivity; try lia.

Lemma SFltb_irrefl x : SFltb x x = false.
Proof.
  unfold SFltb. destruct x as [[]|[]| |[] mx ex]; simpl; try reflexivity; compare_cases.
Qed.

Lemma SFltb_trans x y z : SFltb x y = true -> SFltb y z = true -> SFltb x z = true.
Proof.
  unfold SFltb.
  destruct x as [[]|[]| |[] mx ex], y as [[]|[]| |[] my ey], z as [[]|[]| |[] mz ez];
    simpl; try discriminate; try reflexivity; intros H1 H2; compare_cases.
Qed.

Lemma SFltb_negtrans x y z :
  x <> S754_nan -> y <> S754_nan -> z <> S754_nan ->
  SFltb x y = false -> SFltb y z = false -> SFltb x z = false.
Proof.
  unfold SFltb.
  destruct x as [[]|[]| |[] mx ex], y as [[]|[]| |[] my ey], z as [[]|[]| |[] mz ez];
    simpl; try discriminate; try reflexivity; try congruence; intros _ _ _ H1 H2;
    compare_cases.
Qed.

Lemma notNaN_Prim2SF x : notNaN x -> Prim2SF x <> S754_nan.
Proof.
  unfold notNaN, PrimFloat.is_nan. rewrite FloatAxioms.eqb_spec. unfold SFeqb.
  intros Hx Hn. rewrite Hn in Hx. discriminate.
Qed.

Lemma fgt_irrefl a : fgt a a = false.
Proof. unfold fgt. rewrite FloatAxioms.ltb_spec. apply SFltb_irrefl. Qed.

Lemma fgt_trans a b c : fgt a b = true -> fgt b c = true -> fgt a c = true.
Proof.
  unfold fgt. rewrite !FloatAxioms.ltb_spec. intros Hab Hbc.
  exact (SFltb_trans _ _ _ Hbc Hab).
Qed.

Lemma fgt_negtrans a b c :
  notNaN a -> notNaN b -> notNaN c ->
  fgt a b = false -> fgt b c = false -> fgt a c = false.
Proof.
  unfold fgt. rewrite !FloatAxioms.ltb_spec. intros Ha Hb Hc Hab Hbc.
  apply (SFltb_negtrans _ (Prim2SF b)); auto using notNaN_Prim2SF.
Qed.

Lemma SFltb_false_SFleb x y :
  x <> S754_nan -> y <> S754_nan -> SFltb x y = false -> SFleb y x = true.
Proof.
  unfold SFltb, SFleb.
  destruct x as [[]|[]| |[] mx ex], y as [[]|[]| |[] my ey];
    simpl; try discriminate; try reflexivity; try congruence; intros _ _ H1;
    compare_cases.
Qed.

(** Between two numbers, "not greater" is "less or equal". *)
Lemma fgt_false_leb a b : notNaN a -> notNaN b -> fgt b a = false -> PrimFloat.leb b a = true.
Proof.
  unfold fgt. rewrite FloatAxioms.ltb_spec, FloatAxioms.leb_spec. intros Ha Hb.
  apply SFltb_false_SFleb; auto using notNaN_Prim2SF.
Qed.

Lemma SFleb_SFltb_false x y : SFleb y x = true -> SFltb x y = false.
Proof.
  unfold SFltb, SFleb.
  destruct x as [[]|[]| |[] mx ex], y as [[]|[]| |[] my ey];
    simpl; try discriminate; try reflexivity; intros H1; compare_cases.
Qed.

Lemma leb_fgt_false a b : PrimFloat.leb b a = true -> fgt b a = false.
Proof.
  unfold fgt. rewrite FloatAxioms.ltb_spec, FloatAxioms.leb_spec.
  apply SFleb_SFltb_false.
Qed.

(** ** [pkg/dashcloud/dbclient.go] *)

Module dashcloud.

Definition mbConst : float := 1000000%float.

Definition NotConnectedErr : GoError :=
  mkErr ErrCodeNotConnected "DashborgCloudClient is not Connected".

(** *** Wire messages ([dashproto]), with the fields [dbclient.go] touches *)

Record RtnStatus : Type := mkRtnStatus {
  Success : bool;
  StatusError : string;
  StatusErrCode : ErrCode
}.

Record RequestMessage : Type := mkRequestMessage {
  Status : option RtnStatus;
  ReqId : string;
  RequestType : string;
  PanelName : string;
  FeClientId : string;
  Path : string;
  TimeoutMs : Z
}.

Record SendResponseMessage : Type := mkSendResponseMessage {
  srTs : Z;
  srReqId : string;
  srRequestType : string;
  srPanelName : string;
  srFeClientId : string;
  srActions : list string;
  ResponseDone : bool;
  srErr : string
}.

Record SetBlobMessage : Type := mkSetBlobMessage {
  sbTs : Z;
  sbAppName : string;
  sbAppVersion : string;
  BlobDataJson : string;
  BlobBytes : list Byte.byte
}.

Record StartStreamMessage : Type := mkStartStreamMessage {
  ssAppName : string;
  ExistingReqId : string
}.

Record AccInfoT : Type := mkAccInfo {
  AccType : string;
  BlobSizeLimitMB : float
}.

Record AppConfig : Type := mkAppConfig {
  AppName : string;
  AppVersion : string
}.

Record BlobData : Type := mkBlobData {
  BlobKey : string;
  MimeType : string;
  BlobSize : Z;
  Sha256 : string
}.

(** An outbound call on [pc.DBService], with the [dashborg-connid] metadata
    [ctxWithMd] attached to it. *)
Inductive RpcCall : Type :=
| CallConnectClient (connId : string)
| CallRequestStream (connId : string)
| CallSendResponse (connId : string) (m : SendResponseMessage)
| CallSetBlob (connId : string)
| CallRemoveApp (connId : string) (appName : string)
| CallBackendPush (connId : string) (panelName path : string)
| CallStartStream (connId : string) (m : StartStreamMessage).

(** What the transport hands back for a unary call: a transport error
    ([respErr]), or a response with its [Status]. *)
Inductive RpcReply (R : Type) : Type :=
| RpcFailed (respErr : GoError)
| RpcReplied (status : option RtnStatus) (resp : R).
Arguments RpcFailed {R} respErr.
Arguments RpcReplied {R} status resp.

(** [AppStruct]: the app runtime and its client; [appId] tells the
    registered apps apart. *)
Record AppStruct : Type := mkAppStruct { appId : nat }.

(** The client. [Config] and [Conn] are pointers of which only "is it
    [nil]" is read here; [ConnId] is the string held by the atomic value;
    [DoneCh] is a channel that is only ever closed. *)
Record DashCloudClient : Type := mkClient {
  ConfigSet : bool;
  ConnSet : bool;
  ConnId : string;
  AppMap : gmap string AppStruct;
  DoneChClosed : bool;
  PermErr : bool;
  ExitErr : error;
  AccInfo : option AccInfoT
}.

(** The world a client method runs in: the client, the clock behind
    [dashutil.Ts()], and two logs kept for the proofs: the calls made on the
    transport and the requests handed to an app's [DispatchRequest] (the only
    way into user handlers). *)
Record World : Type := mkWorld {
  pc : DashCloudClient;
  nowMs : Z;
  rpcs : list RpcCall;
  dispatched : list (string * Z * RequestMessage)
}.

Definition logRpc (c : RpcCall) (w : World) : World :=
  mkWorld (pc w) (nowMs w) (rpcs w ++ [c]) (dispatched w).

Definition logDispatch (app : string) (timeout : Z) (m : RequestMessage) (w : World) : World :=
  mkWorld (pc w) (nowMs w) (rpcs w) (dispatched w ++ [(app, timeout, m)]).

(** The collaborators of [dbclient.go] that live outside it: the server
    behind [DBService], [dasherr], [dashutil.MarshalJson], the [io.Reader]
    of a blob, and the app client's [DispatchRequest]. *)
Class Collaborators : Type := {
  replySendResponse : string -> SendResponseMessage -> RpcReply Z;
  replyRemoveApp : string -> string -> RpcReply unit;
  replyBackendPush : string -> string -> string -> RpcReply unit;
  replyStartStream : string -> StartStreamMessage -> RpcReply string;
  openSetBlob : string -> error;
  sendSetBlob : SetBlobMessage -> error;
  closeSetBlob : SetBlobMessage -> RpcReply unit;
  RpcErr : string -> GoError -> GoError;
  FromRtnStatus : string -> option RtnStatus -> error;
  LimitErr : string -> string -> float -> GoError;
  MarshalJsonBlob : BlobData -> string + GoError;
  DispatchRequest : AppStruct -> Z -> RequestMessage -> World -> World
}.

Section Client.
Context `{Collaborators}.

(** [handleStatusErrors], without its logging. *)
Definition handleStatusErrors {R} (fnName : string) (reply : RpcReply R) : error :=
  match reply with
  | RpcFailed respErr => Some (RpcErr fnName respErr)
  | RpcReplied status _ => FromRtnStatus fnName status
  end.

(** [setExitError]: the first error stays. *)
Definition setExitError (err : error) (c : DashCloudClient) : DashCloudClient :=
  match ExitErr c with
  | None =>
      mkClient (ConfigSet c) (ConnSet c) (ConnId c) (AppMap c) (DoneChClosed c)
               (PermErr c) err (AccInfo c)
  | Some _ => c
  end.

Definition GetExitError (c : DashCloudClient) : error := ExitErr c.

(** [WaitForShutdown] blocks on [DoneCh]: [None] while the channel is open,
    the exit error once it is closed. *)
Definition WaitForShutdown (c : DashCloudClient) : option error :=
  if DoneChClosed c then Some (GetExitError c) else None.

(** [IsConnected]; a [nil] receiver is the [None] client. *)
Definition IsConnected (oc : option DashCloudClient) : bool :=
  match oc with
  | None => false
  | Some c =>
      if negb (ConfigSet c) then false
      else if bool_decide (ExitErr c <> None) then false
      else if negb (ConnSet c) then false
      else if bool_decide (ConnId c = "") then false
      else true
  end.

(** *** The per-request goroutine of [runRequestStream] *)

(** The clamp on the server's [timeoutMs]. *)
Definition requestTimeoutMs (timeoutMs : Z) : Z :=
  if (timeoutMs =? 0) || (60000 <? timeoutMs) then 60000 else timeoutMs.

Definition Millisecond : Z := 1000000.

(** [time.Duration(timeoutMs) * time.Millisecond], an [int64] count of
    nanoseconds. *)
Definition requestTimeout (timeoutMs : Z) : Z :=
  wrap64 (requestTimeoutMs timeoutMs * Millisecond).

Definition sendNoAppResponse (reqMsg : RequestMessage) (w : World) : World :=
  let m := mkSendResponseMessage (nowMs w) (ReqId reqMsg) (RequestType reqMsg)
             (PanelName reqMsg) (FeClientId reqMsg) [] true "No App Found" in
  logRpc (CallSendResponse (ConnId (pc w)) m) w.

(** The body of the goroutine started for a request frame ([reqCounter],
    which it increments, is read nowhere). *)
Definition requestGoroutine (reqMsg : RequestMessage) (w : World) : World :=
  let timeout := requestTimeout (TimeoutMs reqMsg) in
  let appName := PanelName reqMsg in
  match AppMap (pc w) !! appName with
  | None => sendNoAppResponse reqMsg w
  | Some appClient =>
      DispatchRequest appClient timeout reqMsg (logDispatch appName timeout reqMsg w)
  end.


(** *** Calls guarded by [IsConnected] *)

Definition RemoveApp (appName : string) (w : World) : error * World :=
  if negb (IsConnected (Some (pc w))) then (Some NotConnectedErr, w)
  else
    let connId := ConnId (pc w) in
    (handleStatusErrors "RemoveApp" (replyRemoveApp connId appName),
     logRpc (CallRemoveApp connId appName) w).

Definition BackendPush (panelName path : string) (w : World) : error * World :=
  if negb (IsConnected (Some (pc w))) then (Some NotConnectedErr, w)
  else
    let connId := ConnId (pc w) in
    (handleStatusErrors "BackendPush" (replyBackendPush connId panelName path),
     logRpc (CallBackendPush connId panelName path) w).

(** [StartStreamProtoRpc] returns [(reqId, err)]. *)
Definition StartStreamProtoRpc (m : StartStreamMessage) (w : World)
  : (string * error) * World :=
  if negb (IsConnected (Some (pc w))) then (("", Some NotConnectedErr), w)
  else
    let connId := ConnId (pc w) in
    let w1 := logRpc (CallStartStream connId m) w in
    let reply := replyStartStream connId m in
    match handleStatusErrors "StartStream" reply with
    | Some dashErr => (("", Some dashErr), w1)
    | None =>
        let reqId := match reply with RpcReplied _ reqId => reqId | RpcFailed _ => "" end in
        if negb (bool_decide (ExistingReqId m = "")) && negb (bool_decide (ExistingReqId m = reqId))
        then (("", Some (Errorf "Dashborg startStream returned reqid does not match existing reqid")), w1)
        else ((reqId, None), w1)
    end.

(** [SendResponseProtoRpc] returns [(numStreamClients, err)]. *)
Definition SendResponseProtoRpc (m : SendResponseMessage) (w : World)
  : (Z * error) * World :=
  if negb (IsConnected (Some (pc w))) then ((0, Some NotConnectedErr), w)
  else
    let connId := ConnId (pc w) in
    let w1 := logRpc (CallSendResponse connId m) w in
    let reply := replySendResponse connId m in
    match handleStatusErrors "SendResponse" reply with
    | Some dashErr => ((0, Some dashErr), w1)
    | None =>
        ((match reply with RpcReplied _ n => n | RpcFailed _ => 0 end, None), w1)
    end.

(** *** Blob upload *)

(** The [io.Reader] of a blob, as [ioutil.ReadAll] sees it: the bytes it
    yields, and the error it ends with if it is not [io.EOF]. *)
Record Reader : Type := mkReader { rdBytes : list Byte.byte; rdErr : error }.

Definition ReadAll (r : Reader) : list Byte.byte + GoError :=
  match rdErr r with
  | Some err => inr err
  | None => inl (rdBytes r)
  end.

(** [float64(len(barr))]. *)
Definition float64_of_len (n : nat) : float :=
  PrimFloat.of_uint63 (Uint63.of_Z (Z.of_nat n)).

(** [float64(len(barr)) > pc.AccInfo.BlobSizeLimitMB*mbConst]. *)
Definition exceedsBlobLimit (n : nat) (acc : AccInfoT) : bool :=
  PrimFloat.ltb (PrimFloat.mul (BlobSizeLimitMB acc) mbConst) (float64_of_len n).

Definition SetBlobData (acfg : AppConfig) (blob : BlobData) (r : Reader) (w : World)
  : outcome error * World :=
  if negb (IsConnected (Some (pc w))) then (Returned (Some NotConnectedErr), w)
  else
    match MarshalJsonBlob blob with
    | inr err => (Returned (Some err), w)
    | inl blobJson =>
        match ReadAll r with
        | inr err => (Returned (Some err), w)
        | inl barr =>
            match AccInfo (pc w) with
            | None => (Panicked "invalid memory address or nil pointer dereference", w)
            | Some acc =>
                if exceedsBlobLimit (length barr) acc then
                  (Returned (Some (LimitErr "Cannot upload BLOB" "AppBlobs.MaxSizeMB"
                                            (BlobSizeLimitMB acc))), w)
                else
                  let m := mkSetBlobMessage (nowMs w) (AppName acfg) (AppVersion acfg)
                             blobJson barr in
                  let connId := ConnId (pc w) in
                  let w1 := logRpc (CallSetBlob connId) w in
                  match openSetBlob connId with
                  | Some err => (Returned (Some err), w1)
                  | None =>
                      match sendSetBlob m with
                      | Some err => (Returned (Some err), w1)
                      | None =>
                          (Returned (handleStatusErrors "SetBlobData" (closeSetBlob m)), w1)
                      end
                  end
            end
        end
    end.

(** The [SetBlob] call was made between [w] and [w']. *)
Definition setBlobAttempted (w w' : World) : Prop :=
  rpcs w' = rpcs w ++ [CallSetBlob (ConnId (pc w))].

End Client.

(** A server that answers every call with success, for running the client on
    concrete inputs. *)
Definition okStatus : option RtnStatus := Some (mkRtnStatus true "" ErrCodeNone).

Definition demoCollaborators : Collaborators := {|
  replySendResponse := fun _ _ => RpcReplied okStatus 0;
  replyRemoveApp := fun _ _ => RpcReplied okStatus tt;
  replyBackendPush := fun _ _ _ => RpcReplied okStatus tt;
  replyStartStream := fun _ m => RpcReplied okStatus (ExistingReqId m);
  openSetBlob := fun _ => None;
  sendSetBlob := fun _ => None;
  closeSetBlob := fun _ => RpcReplied okStatus tt;
  RpcErr := fun fnName respErr => mkErr ErrCodeRpc (fnName +:+ ": " +:+ errMsg respErr);
  FromRtnStatus := fun fnName status =>
    match status with
    | None => Some (mkErr ErrCodeRpc (fnName +:+ ": no status"))
    | Some st => if Success st then None else Some (mkErr (StatusErrCode st) (StatusError st))
    end;
  LimitErr := fun msg limitName _ => mkErr ErrCodeLimit (msg +:+ " " +:+ limitName);
  MarshalJsonBlob := fun blob => inl (BlobKey blob);
  DispatchRequest := fun _ _ _ w => w
|}.

Definition demoClient (connId : string) (apps : gmap string AppStruct) : DashCloudClient :=
  mkClient true true connId apps false false None (Some (mkAccInfo "anon" 1%float)).

Definition demoWorld (connId : string) (apps : gmap string AppStruct) : World :=
  mkWorld (demoClient connId apps) 1700000000000 [] [].

Definition demoRequest (app : string) : RequestMessage :=
  mkRequestMessage None "r1" "handler" app "fe1" "/" 500.


(** [close(pc.DoneCh)], deferred by [runRequestStreamLoop]. *)
Definition closeDoneCh (c : DashCloudClient) : DashCloudClient :=
  mkClient (ConfigSet c) (ConnSet c) (ConnId c) (AppMap c) true
           (PermErr c) (ExitErr c) (AccInfo c).

(** A run of [setExitError] calls, in the order the lock lets them in. *)
Definition setExitErrors (errs : list error) (c : DashCloudClient) : DashCloudClient :=
  foldl (fun c err => setExitError err c) c errs.

(** The first non-[nil] error of a list. *)
Fixpoint firstError (errs : list error) : error :=
  match errs with
  | [] => None
  | Some e :: _ => Some e
  | None :: rest => firstError rest
  end.

(** The response [sendNoAppResponse] builds for a request. *)
Definition noAppResponse (ts : Z) (reqMsg : RequestMessage) : SendResponseMessage :=
  mkSendResponseMessage ts (ReqId reqMsg) (RequestType reqMsg) (PanelName reqMsg)
    (FeClientId reqMsg) [] true "No App Found".

(** *** Facts about the client *)

Section ClientFacts.
Context `{Collaborators}.

Lemma setExitError_latched c e err :
  ExitErr c = Some e -> setExitError err c = c.
Proof. unfold setExitError. intros ->. reflexivity. Qed.

Lemma setExitErrors_latched errs c e :
  ExitErr c = Some e -> setExitErrors errs c = c.
Proof.
  revert c. induction errs as [|err errs IH]; intros c Hc; simpl.
  - reflexivity.
  - rewrite (setExitError_latched c e err Hc). apply IH, Hc.
Qed.

Lemma setExitErrors_fresh errs c :
  ExitErr c = None -> ExitErr (setExitErrors errs c) = firstError errs.
Proof.
  revert c. induction errs as [|[e|] errs IH]; intros c Hc; simpl.
  - exact Hc.
  - rewrite (setExitErrors_latched errs _ e).
    + unfold setExitError. rewrite Hc. reflexivity.
    + unfold setExitError. rewrite Hc. reflexivity.
  - apply IH. unfold setExitError. rewrite Hc. reflexivity.
Qed.

Lemma setExitErrors_DoneCh errs c :
  DoneChClosed (setExitErrors errs c) = DoneChClosed c.
Proof.
  revert c. induction errs as [|err errs IH]; intros c; simpl; [reflexivity|].
  rewrite IH. unfold setExitError. destruct (ExitErr c); reflexivity.
Qed.

(** C10. The exit error is a first-error-wins latch: after a non-nil error
    has been recorded no later [setExitError] changes the client, and after
    any run of [setExitError] calls [GetExitError] and, once [DoneCh] is
    closed, [WaitForShutdown] return the error the client already held or
    else the first non-nil error of the run. *)
Theorem exit_error_first_wins (c : DashCloudClient) (e : GoError) (err : error)
    (errs : list error) :
  let first := match ExitErr c with Some e0 => Some e0 | None => firstError errs end in
  setExitError err (setExitError (Some e) c) = setExitError (Some e) c /\
  GetExitError (setExitError err (setExitError (Some e) c))
    = match ExitErr c with Some e0 => Some e0 | None => Some e end /\
  GetExitError (setExitErrors errs c) = first /\
  WaitForShutdown (closeDoneCh (setExitErrors errs c)) = Some first.
Proof.
  intros first. subst first.
  assert (Hget : ExitErr (setExitErrors errs c)
                 = match ExitErr c with Some e0 => Some e0 | None => firstError errs end).
  { destruct (ExitErr c) as [e0|] eqn:Hc.
    - rewrite (setExitErrors_latched errs c e0 Hc). exact Hc.
    - apply setExitErrors_fresh, Hc. }
  repeat split.
  - destruct (ExitErr c) as [e0|] eqn:Hc.
    + rewrite (setExitError_latched c e0 (Some e) Hc).
      apply (setExitError_latched c e0 err Hc).
    + apply (setExitError_latched _ e). unfold setExitError. rewrite Hc. reflexivity.
  - unfold GetExitError, setExitError.
    destruct (ExitErr c) as [e0|] eqn:Hc; simpl; rewrite ?Hc; reflexivity.
  - exact Hget.
  - unfold WaitForShutdown, GetExitError, closeDoneCh. simpl. rewrite Hget. reflexivity.
Qed.

Lemma requestTimeoutMs_spec (t : Z) :
  requestTimeoutMs t = if t =? 0 then 60000 else Z.min t 60000.
Proof.
  unfold requestTimeoutMs.
  destruct (Z.eqb_spec t 0) as [->|Hne]; simpl; [reflexivity|].
  destruct (Z.ltb_spec 60000 t); lia.
Qed.

Lemma requestTimeoutMs_range (t : Z) :
  -9223372036854 <= t -> -9223372036854 <= requestTimeoutMs t <= 60000.
Proof. rewrite requestTimeoutMs_spec. destruct (Z.eqb_spec t 0); lia. Qed.

(** C4, as the code has it. The clamp leaves [min(timeoutMs, 60000)]
    milliseconds in [timeoutMs], zero counting as 60000; a [timeoutMs] of
    zero or above 60000 gives a deadline of exactly 60000 ms; and for every
    [timeoutMs] from -9223372036854 up the deadline handed to
    [context.WithTimeout] is [min(timeoutMs, 60000)] ms, the [int64] product
    with [time.Millisecond] being exact there; below that bound the product
    wraps. *)
Theorem request_deadline_clamped (t : Z) :
  requestTimeoutMs t = (if t =? 0 then 60000 else Z.min t 60000) /\
  (t = 0 \/ 60000 < t ->
     requestTimeoutMs t = 60000 /\ requestTimeout t = 60000 * Millisecond) /\
  (-9223372036854 <= t ->
     requestTimeout t = (if t =? 0 then 60000 else Z.min t 60000) * Millisecond).
Proof.
  split; [apply requestTimeoutMs_spec|]. split.
  - intros Ht. assert (Hms : requestTimeoutMs t = 60000).
    { rewrite requestTimeoutMs_spec. destruct (Z.eqb_spec t 0); lia. }
    split; [exact Hms|]. unfold requestTimeout. rewrite Hms. reflexivity.
  - intros Ht. unfold requestTimeout. rewrite <- requestTimeoutMs_spec.
    apply wrap64_id. pose proof (requestTimeoutMs_range t Ht).
    unfold is_int64, int64_min, int64_max, Millisecond. lia.
Qed.

Lemma IsConnected_empty_connId c : ConnId c = "" -> IsConnected (Some c) = false.
Proof.
  intros Hc. unfold IsConnected. rewrite Hc.
  destruct (negb (ConfigSet c)); [reflexivity|].
  destruct (bool_decide (ExitErr c <> None)); [reflexivity|].
  destruct (negb (ConnSet c)); reflexivity.
Qed.

(** The calls that go through [IsConnected] fail fast: with no connection
    identity each returns [NotConnectedErr] and reaches no transport. *)
Lemma guarded_calls_fail_fast w appName panelName path ssm srm acfg blob r :
  ConnId (pc w) = "" ->
  RemoveApp appName w = (Some NotConnectedErr, w) /\
  BackendPush panelName path w = (Some NotConnectedErr, w) /\
  StartStreamProtoRpc ssm w = (("", Some NotConnectedErr), w) /\
  SendResponseProtoRpc srm w = ((0, Some NotConnectedErr), w) /\
  SetBlobData acfg blob r w = (Returned (Some NotConnectedErr), w).
Proof.
  intros Hc. apply IsConnected_empty_connId in Hc.
  unfold RemoveApp, BackendPush, StartStreamProtoRpc, SendResponseProtoRpc, SetBlobData.
  rewrite Hc. simpl. repeat split.
Qed.

Lemma app_one_neq {A} (l : list A) (x : A) : l <> l ++ [x].
Proof.
  intros Heq. apply (f_equal length) in Heq. rewrite length_app in Heq. simpl in Heq.
  apply (f_equal Z.of_nat) in Heq. lia.
Qed.

(** Between numbers, "the length is not above the limit" is "the length is
    at most the limit". *)
Lemma exceedsBlobLimit_leb n acc :
  notNaN (float64_of_len n) -> notNaN (PrimFloat.mul (BlobSizeLimitMB acc) mbConst) ->
  (exceedsBlobLimit n acc = false
   <-> PrimFloat.leb (float64_of_len n) (PrimFloat.mul (BlobSizeLimitMB acc) mbConst) = true).
Proof.
  intros Hn Hl. unfold exceedsBlobLimit. split.
  - apply (fgt_false_leb _ _ Hl Hn).
  - apply leb_fgt_false.
Qed.

(** C6, as the code has it. For a connected client whose blob description
    marshals and whose reader is read to its end, the [SetBlob] call is made
    if and only if [float64(len(bytes)) > BlobSizeLimitMB * 1000000] is
    false, which for a limit that is a number says that the length is at
    most the limit; when the length is above the limit the client returns
    the [Limit] error and makes no call at all. *)
Theorem blob_upload_iff_within_limit acfg blob r w blobJson barr acc :
  IsConnected (Some (pc w)) = true ->
  MarshalJsonBlob blob = inl blobJson ->
  ReadAll r = inl barr ->
  AccInfo (pc w) = Some acc ->
  (setBlobAttempted w (SetBlobData acfg blob r w).2
     <-> exceedsBlobLimit (length barr) acc = false) /\
  (notNaN (float64_of_len (length barr)) ->
   notNaN (PrimFloat.mul (BlobSizeLimitMB acc) mbConst) ->
     (setBlobAttempted w (SetBlobData acfg blob r w).2
      <-> PrimFloat.leb (float64_of_len (length barr))
            (PrimFloat.mul (BlobSizeLimitMB acc) mbConst) = true)) /\
  (exceedsBlobLimit (length barr) acc = true ->
     SetBlobData acfg blob r w
       = (Returned (Some (LimitErr "Cannot upload BLOB" "AppBlobs.MaxSizeMB"
                                   (BlobSizeLimitMB acc))), w)).
Proof.
  intros Hconn Hjson Hread Hacc.
  assert (Hiff : setBlobAttempted w (SetBlobData acfg blob r w).2
                 <-> exceedsBlobLimit (length barr) acc = false).
  { unfold SetBlobData, setBlobAttempted. rewrite Hconn, Hjson, Hread, Hacc. simpl.
    destruct (exceedsBlobLimit (length barr) acc) eqn:Hlim.
    - simpl. split; [|discriminate].
      intros Heq. exfalso. exact (app_one_neq _ _ Heq).
    - split; [reflexivity|]. intros _.
      destruct (openSetBlob (ConnId (pc w))); [reflexivity|].
      destruct (sendSetBlob _); reflexivity. }
  split; [exact Hiff|]. split.
  - intros Hn Hl. rewrite Hiff. apply exceedsBlobLimit_leb; assumption.
  - intros Hlim. unfold SetBlobData. rewrite Hconn, Hjson, Hread, Hacc. simpl.
    rewrite Hlim. reflexivity.
Qed.

(** C7. A request whose app is not in [AppMap] gets exactly one call on the
    transport, a [SendResponse] for its [ReqId] with [ResponseDone] set and
    [Err] "No App Found", and is never handed to an app's
    [DispatchRequest], so no user handler runs for it. *)
Theorem no_app_found_response reqMsg w :
  AppMap (pc w) !! PanelName reqMsg = None ->
  let w' := requestGoroutine reqMsg w in
  rpcs w' = rpcs w ++ [CallSendResponse (ConnId (pc w)) (noAppResponse (nowMs w) reqMsg)] /\
  srReqId (noAppResponse (nowMs w) reqMsg) = ReqId reqMsg /\
  ResponseDone (noAppResponse (nowMs w) reqMsg) = true /\
  srErr (noAppResponse (nowMs w) reqMsg) = "No App Found" /\
  dispatched w' = dispatched w /\
  pc w' = pc w.
Proof.
  intros Habsent w'. subst w'. unfold requestGoroutine. rewrite Habsent.
  unfold sendNoAppResponse, logRpc, noAppResponse. simpl. repeat split.
Qed.

(** With the app present the request does reach [DispatchRequest], under the
    clamped timeout. *)
Lemma app_found_dispatch reqMsg w app :
  AppMap (pc w) !! PanelName reqMsg = Some app ->
  requestGoroutine reqMsg w
    = DispatchRequest app (requestTimeout (TimeoutMs reqMsg)) reqMsg
        (logDispatch (PanelName reqMsg) (requestTimeout (TimeoutMs reqMsg)) reqMsg w).
Proof. intros Hpresent. unfold requestGoroutine. rewrite Hpresent. reflexivity. Qed.

End ClientFacts.

(** C4 as stated fails below -9223372036854: a frame whose [timeoutMs] is
    -9223372036855 passes the clamp unchanged, the [int64] product with
    [time.Millisecond] wraps, and the deadline handed to
    [context.WithTimeout] is 9223372036854551616 ns, some 292 years: it is
    not [min(timeoutMs, 60000)] ms, and it is above 60000 ms. *)
Lemma requestTimeout_wraps :
  is_int64 (-9223372036855) /\
  requestTimeoutMs (-9223372036855) = -9223372036855 /\
  requestTimeout (-9223372036855) = 9223372036854551616 /\
  requestTimeout (-9223372036855) <> Z.min (-9223372036855) 60000 * Millisecond /\
  60000 * Millisecond < requestTimeout (-9223372036855).
Proof.
  split; [unfold is_int64, int64_min, int64_max; lia|].
  split; [reflexivity|]. split; [reflexivity|]. split; [discriminate|reflexivity].
Qed.

(** The boundary cases of the specification: a server timeout of 70000 ms,
    and scenario S3's 500 ms. *)
Lemma request_deadline_clamped_witness :
  (requestTimeoutMs 70000 = 60000 /\ requestTimeout 70000 = 60000 * Millisecond) /\
  requestTimeout 500 = 500 * Millisecond.
Proof.
  split.
  - apply (request_deadline_clamped 70000). right. reflexivity.
  - apply (request_deadline_clamped 500). discriminate.
Defined.

(** Scenario S2 of the specification: a request for the app "zzz", which
    is not in the table. *)
Lemma no_app_found_response_witness :
  rpcs (requestGoroutine (H := demoCollaborators) (demoRequest "zzz") (demoWorld "conn-1" ∅))
    = [] ++ [CallSendResponse "conn-1" (noAppResponse 1700000000000 (demoRequest "zzz"))] /\
  srReqId (noAppResponse 1700000000000 (demoRequest "zzz")) = "r1" /\
  ResponseDone (noAppResponse 1700000000000 (demoRequest "zzz")) = true /\
  srErr (noAppResponse 1700000000000 (demoRequest "zzz")) = "No App Found" /\
  dispatched (requestGoroutine (H := demoCollaborators) (demoRequest "zzz") (demoWorld "conn-1" ∅))
    = [] /\
  pc (requestGoroutine (H := demoCollaborators) (demoRequest "zzz") (demoWorld "conn-1" ∅))
    = demoClient "conn-1" ∅.
Proof.
  exact (no_app_found_response (H := demoCollaborators) (demoRequest "zzz")
           (demoWorld "conn-1" ∅) eq_refl).
Defined.

(** C5 fails on [sendNoAppResponse]: with an empty connection identity,
    where [IsConnected] is false and [SendResponseProtoRpc] refuses to send,
    it still makes the [SendResponse] call. *)
Theorem sendNoAppResponse_ignores_connection :
  let w := demoWorld "" ∅ in
  ConnId (pc w) = "" /\
  IsConnected (Some (pc w)) = false /\
  SendResponseProtoRpc (H := demoCollaborators) (noAppResponse (nowMs w) (demoRequest "zzz")) w
    = ((0, Some NotConnectedErr), w) /\
  rpcs (requestGoroutine (H := demoCollaborators) (demoRequest "zzz") w)
    = [CallSendResponse "" (noAppResponse (nowMs w) (demoRequest "zzz"))].
Proof. vm_compute. repeat split. Qed.

Definition demoBlob : BlobData := mkBlobData "html:root" "text/html" 3 "".
Definition demoConfig : AppConfig := mkAppConfig "a" "v1".
Definition demoReader (n : nat) : Reader := mkReader (repeat Byte.x61 n) None.

(** C6 as stated fails for a client that is not connected: a three-byte
    blob is within the 1 MB limit, yet no [SetBlob] call is made. *)
Lemma blob_upload_needs_connection :
  let w := demoWorld "" ∅ in
  exceedsBlobLimit (length (rdBytes (demoReader 3))) (mkAccInfo "anon" 1%float) = false /\
  SetBlobData (H := demoCollaborators) demoConfig demoBlob (demoReader 3) w
    = (Returned (Some NotConnectedErr), w) /\
  ~ setBlobAttempted w (SetBlobData (H := demoCollaborators) demoConfig demoBlob (demoReader 3) w).2.
Proof.
  split; [vm_compute; reflexivity|]. split; [vm_compute; reflexivity|].
  unfold setBlobAttempted. vm_compute. discriminate.
Qed.

Lemma blob_upload_iff_within_limit_witness :
  (setBlobAttempted (demoWorld "conn-1" ∅)
     (SetBlobData (H := demoCollaborators) demoConfig demoBlob (demoReader 3)
        (demoWorld "conn-1" ∅)).2
   <-> exceedsBlobLimit (length (repeat Byte.x61 3)) (mkAccInfo "anon" 1%float) = false) /\
  (notNaN (float64_of_len (length (repeat Byte.x61 3))) ->
   notNaN (PrimFloat.mul (BlobSizeLimitMB (mkAccInfo "anon" 1%float)) mbConst) ->
     (setBlobAttempted (demoWorld "conn-1" ∅)
        (SetBlobData (H := demoCollaborators) demoConfig demoBlob (demoReader 3)
           (demoWorld "conn-1" ∅)).2
      <-> PrimFloat.leb (float64_of_len (length (repeat Byte.x61 3)))
            (PrimFloat.mul (BlobSizeLimitMB (mkAccInfo "anon" 1%float)) mbConst) = true)) /\
  (exceedsBlobLimit (length (repeat Byte.x61 3)) (mkAccInfo "anon" 1%float) = true ->
   SetBlobData (H := demoCollaborators) demoConfig demoBlob (demoReader 3) (demoWorld "conn-1" ∅)
   = (Returned (Some (LimitErr (Collaborators := demoCollaborators) "Cannot upload BLOB"
                        "AppBlobs.MaxSizeMB" 1%float)), demoWorld "conn-1" ∅)).
Proof.
  exact (blob_upload_iff_within_limit (H := demoCollaborators) demoConfig demoBlob
           (demoReader 3) (demoWorld "conn-1" ∅) "html:root" (repeat Byte.x61 3)
           (mkAccInfo "anon" 1%float) eq_refl eq_refl eq_refl eq_refl).
Defined.

(** Scenario S6: a limit of 1 MB and 2 000 000 bytes. *)
Example blob_limit_S6 :
  SetBlobData (H := demoCollaborators) demoConfig demoBlob (demoReader (Z.to_nat 2000000))
    (demoWorld "conn-1" ∅)
  = (Returned (Some (mkErr ErrCodeLimit "Cannot upload BLOB AppBlobs.MaxSizeMB")),
     demoWorld "conn-1" ∅).
Proof. vm_compute. reflexivity. Qed.

End dashcloud.

(** ** [pkg/dash/dash.go] *)

Module dash.

(** *** Data *)

Record RRAction : Type := mkRRAction {
  Ts : Z;
  ActionType : string;
  Selector : string;
  EventType : string;
  JsonData : string;
  Html : string
}.

Record authAtom : Type := mkAuthAtom {
  Scope : string;
  AtomType : string;
  Auto : bool;
  AtomTs : Z;
  Id : string;
  Role : string;
  AtomData : option string
}.

Record challengeField : Type := mkChallengeField {
  Label : string;
  Name : string;
  FieldType : string
}.

Record authChallenge : Type := mkAuthChallenge {
  AllowedAuth : string;
  ChallengeMessage : string;
  ChallengeError : string;
  ChallengeFields : list challengeField
}.

Record SendResponseMessage : Type := mkSendResponseMessage {
  srReqId : string;
  srRequestType : string;
  srPanelName : string;
  srFeClientId : string;
  Actions : list RRAction;
  ResponseDone : bool
}.

(** What lies outside [dash.go]: the values of [interface{}] a handler
    passes and their JSON encoding ([marshalJson], [json.Marshal]), the
    decoding of challenge data ([mapstructure.Decode] into a fresh
    [challengeData]: the [ChallengeData] map the call leaves in the
    variable, which may hold entries also when the call fails, and the
    error it returns), and the answer of the transport to a
    [SendResponse]. *)
Class Externals : Type := {
  Value : Type;
  marshalJson : Value -> string + GoError;
  jsonMarshalAuthAtom : authAtom -> string;
  jsonMarshalChallenge : authChallenge -> string;
  decodeChallengeData : Value -> gmap string string * error;
  replySendResponse : SendResponseMessage -> error
}.

Section Request.
Context `{Externals}.

Record PanelRequest : Type := mkPanelRequest {
  PanelName : string;
  ReqId : string;
  RequestType : string;
  FeClientId : string;
  Path : string;
  Data : Value;
  AuthData : list authAtom;
  RRActions : list RRAction;
  Err : error;
  IsDone : bool;
  AuthImpl : bool
}.

(** The world around a request: the millisecond clock behind
    [dashutil.Ts], a function of another package ([clock n] is the [int64]
    its [n]-th call returns; [ticks] counts the calls so far), and the
    [SendResponse] messages put on the wire. *)
Record World : Type := mkWorld {
  clock : nat -> Z;
  ticks : nat;
  wire : list SendResponseMessage
}.

(** *** Methods as state transformers over the request and the world *)

Definition M (A : Type) : Type := PanelRequest -> World -> A * PanelRequest * World.

Definition ret {A} (a : A) : M A := fun req w => (a, req, w).

Definition bind {A B} (c : M A) (k : A -> M B) : M B :=
  fun req w => let '(a, req1, w1) := c req w in k a req1 w1.

Notation "x <- c ;; k" := (bind c (fun x => k))
  (at level 63, c at next level, right associativity).
Notation "c ;;; k" := (bind c (fun _ => k))
  (at level 63, right associativity).

Definition getReq : M PanelRequest := fun req w => (req, req, w).

Definition setRRActions (acts : list RRAction) (req : PanelRequest) : PanelRequest :=
  mkPanelRequest (PanelName req) (ReqId req) (RequestType req) (FeClientId req) (Path req)
    (Data req) (AuthData req) acts (Err req) (IsDone req) (AuthImpl req).

Definition setIsDone (b : bool) (req : PanelRequest) : PanelRequest :=
  mkPanelRequest (PanelName req) (ReqId req) (RequestType req) (FeClientId req) (Path req)
    (Data req) (AuthData req) (RRActions req) (Err req) b (AuthImpl req).

Definition setAuthImpl (b : bool) (req : PanelRequest) : PanelRequest :=
  mkPanelRequest (PanelName req) (ReqId req) (RequestType req) (FeClientId req) (Path req)
    (Data req) (AuthData req) (RRActions req) (Err req) (IsDone req) b.

(** [dashutil.Ts()]: the next reading of the clock. *)
Definition dashutil_Ts : M Z :=
  fun req w => (clock w (ticks w), req, mkWorld (clock w) (S (ticks w)) (wire w)).

(** The reading the [k]-th next call of [dashutil.Ts] returns. *)
Definition tsAt (w : World) (k : nat) : Z := clock w (ticks w + k)%nat.

Definition tick (k : nat) (w : World) : World :=
  mkWorld (clock w) (ticks w + k)%nat (wire w).

Definition appendRR (rrAction : RRAction) : M unit :=
  fun req w => (tt, setRRActions (RRActions req ++ [rrAction]) req, w).

Definition SetData (path : string) (data : Value) : M error :=
  req <- getReq ;;
  if IsDone req then
    ret (Some (Errorf ("Cannot call SetData(), path=" +:+ path +:+ ", PanelRequest is already done")))
  else
    match marshalJson data with
    | inr err =>
        ret (Some (Errorf ("Error marshaling json for SetData, path:" +:+ path +:+ ", err:" +:+ errMsg err)))
    | inl jsonData =>
        ts <- dashutil_Ts ;;
        appendRR (mkRRAction ts "setdata" path "" jsonData "") ;;;
        ret None
    end.

Definition SetHtml (html : string) : M error :=
  ts <- dashutil_Ts ;;
  appendRR (mkRRAction ts "html" "" "" "" html) ;;;
  ret None.

Definition isRootReq (req : PanelRequest) : bool :=
  bool_decide (RequestType req = "handler")
  && negb (bool_decide (PanelName req = ""))
  && bool_decide (Path req = "/").

Definition appendPanelAuthRRAction (authType role : string) : M unit :=
  expiry <- dashutil_Ts ;;
  let data := mkAuthAtom "" authType true (wrap64 (expiry + 24 * 60 * 60 * 1000)) "" role None in
  let jsonData := jsonMarshalAuthAtom data in
  ts <- dashutil_Ts ;;
  appendRR (mkRRAction ts "panelauth" "" "" jsonData "").

Definition appendPanelAuthChallenge (ch : authChallenge) : M unit :=
  let challengeJson := jsonMarshalChallenge ch in
  ts <- dashutil_Ts ;;
  appendRR (mkRRAction ts "panelauthchallenge" "" "" challengeJson "").

(** [mapstructure.Decode] of the atoms into a slice of atoms: decoding a
    value into a variable of its own type copies it. *)
Definition mapstructureDecodeAtoms (atoms : list authAtom) : option (list authAtom) :=
  Some atoms.

Definition getRawAuthData (req : PanelRequest) : list authAtom :=
  match AuthData req with
  | [] => []
  | atoms =>
      match mapstructureDecodeAtoms atoms with
      | None => []
      | Some rawAuth => rawAuth
      end
  end.

Definition isAuthenticated (req : PanelRequest) : bool :=
  bool_decide (0 < length (getRawAuthData req))%nat.

Definition NoAuth : M unit :=
  (fun req w => (tt, setAuthImpl true req, w)) ;;;
  req <- getReq ;;
  if negb (isAuthenticated req) then appendPanelAuthRRAction "noauth" "user" else ret tt.

(** [err := mapstructure.Decode(req.Data, &challengeData)]: whether [err]
    is nil, and the [ChallengeData] map now in the variable. The code reads
    the map whether or not the decoding failed; a key that is absent, or a
    nil map, reads as the empty string. *)
Definition challengeDataOf (req : PanelRequest) : bool * gmap string string :=
  let '(cd, err) := decodeChallengeData (Data req) in
  (match err with None => true | Some _ => false end, cd).

Definition PasswordAuth (pw : string) : M (bool * error) :=
  (fun req w => (tt, setAuthImpl true req, w)) ;;;
  req <- getReq ;;
  if isAuthenticated req then ret (true, None)
  else
    let '(decoded, cd) := challengeDataOf req in
    if decoded && bool_decide (default "" (cd !! "password") = pw) then
      appendPanelAuthRRAction "password" "user" ;;;
      ret (true, None)
    else
      let chErr :=
        if bool_decide (default "" (cd !! "submitted") = "1") then
          if bool_decide (default "" (cd !! "password") = "") then "Password cannot be blank"
          else "Invalid password"
        else "" in
      appendPanelAuthChallenge
        (mkAuthChallenge "challenge,dashborg" "" chErr
           [mkChallengeField "Panel Password" "password" "password"]) ;;;
      ret (false, Some (Errorf "Not Authorized | Sending Password Challenge")).

Definition DashborgAuth : M (bool * error) :=
  (fun req w => (tt, setAuthImpl true req, w)) ;;;
  req <- getReq ;;
  if isAuthenticated req then ret (true, None)
  else
    appendPanelAuthChallenge (mkAuthChallenge "dashborg" "" "" []) ;;;
    ret (false, Some (Errorf "Not Authorized | Dashborg Auth")).

Definition InvalidateData (path : string) : M error :=
  req <- getReq ;;
  if IsDone req then
    ret (Some (Errorf ("Cannot call InvalidateData(), path=" +:+ path +:+ ", PanelRequest is already done")))
  else
    ts <- dashutil_Ts ;;
    appendRR (mkRRAction ts "invalidate" path "" "" "") ;;;
    ret None.

Definition sendEvent (selector eventType : string) (data : Value) : M error :=
  req <- getReq ;;
  if IsDone req then
    ret (Some (Errorf ("Cannot call SendEvent(), selector=" +:+ selector +:+ ", event=" +:+ eventType
                       +:+ ", PanelRequest is already done")))
  else
    match marshalJson data with
    | inr err =>
        ret (Some (Errorf ("Error marshaling json for SendEvent, selector:" +:+ selector +:+ ", event:"
                           +:+ eventType +:+ ", err:" +:+ errMsg err)))
    | inl jsonData =>
        ts <- dashutil_Ts ;;
        appendRR (mkRRAction ts "event" selector eventType jsonData "") ;;;
        ret None
    end.

(** The message [sendRequestResponse] puts on the wire for a request. *)
Definition responseMessage (req : PanelRequest) (done : bool) : SendResponseMessage :=
  mkSendResponseMessage (ReqId req) (RequestType req) (PanelName req) (FeClientId req)
    (RRActions req) done.

(** Modelled from the spec: [globalClient.sendRequestResponse] is not under
    src/. Section 4.5: flush sends the accumulated actions with
    [responseDone=false], the buffer is cleared with the send and the
    request stays open; done sends them with [responseDone=true] and the
    request becomes done. The error is the transport's. *)
Definition sendRequestResponse (done : bool) : M error :=
  fun req w =>
    let m := responseMessage req done in
    (replySendResponse m,
     setIsDone (IsDone req || done) (setRRActions [] req),
     mkWorld (clock w) (ticks w) (wire w ++ [m])).

Definition flush : M error :=
  req <- getReq ;;
  if IsDone req then ret (Some (Errorf "Cannot Flush(), PanelRequest is already done"))
  else sendRequestResponse false.

Definition Done : M error :=
  req <- getReq ;;
  if IsDone req then ret None
  else
    (if negb (AuthImpl req) && isRootReq req then NoAuth else ret tt) ;;;
    sendRequestResponse true.


(** The default auth atom [Done] synthesises in world [w]: [noauth] for
    role [user], expiring 24 hours after the next reading of the clock (an
    [int64] sum). *)
Definition defaultNoAuthAtom (w : World) : authAtom :=
  mkAuthAtom "" "noauth" true (wrap64 (tsAt w 0 + 24 * 60 * 60 * 1000)) "" "user" None.

(** The [panelauth] action that carries it, stamped with the reading after
    that. *)
Definition defaultNoAuthAction (w : World) : RRAction :=
  mkRRAction (tsAt w 1) "panelauth" "" "" (jsonMarshalAuthAtom (defaultNoAuthAtom w)) "".

(** *** Facts about the request *)

Lemma tsAt_0 w : tsAt w 0 = clock w (ticks w).
Proof. unfold tsAt. rewrite Nat.add_0_r. reflexivity. Qed.

Lemma tsAt_1 w : tsAt w 1 = clock w (S (ticks w)).
Proof. unfold tsAt. rewrite Nat.add_1_r. reflexivity. Qed.

(** The expiry is the reading plus 86 400 000 ms when that sum is an
    [int64], as it is for every millisecond timestamp of this era. *)
Lemma defaultNoAuthAtom_expiry w :
  is_int64 (tsAt w 0 + 86400000) -> AtomTs (defaultNoAuthAtom w) = tsAt w 0 + 86400000.
Proof. intros Hr. unfold defaultNoAuthAtom. simpl. apply wrap64_id. exact Hr. Qed.

Lemma appendPanelAuthRRAction_noauth req w :
  appendPanelAuthRRAction "noauth" "user" req w
  = (tt, setRRActions (RRActions req ++ [defaultNoAuthAction w]) req, tick 2 w).
Proof.
  unfold appendPanelAuthRRAction, defaultNoAuthAction, defaultNoAuthAtom, bind, dashutil_Ts,
    appendRR, tick. simpl.
  rewrite <- tsAt_0, <- tsAt_1. rewrite Nat.add_comm. reflexivity.
Qed.

(** The appends that look at [IsDone], and [flush], refuse a done request
    and leave it, and the world, as they were. *)
Lemma guarded_appends_refused req w path data selector eventType :
  IsDone req = true ->
  (exists e, SetData path data req w = (Some e, req, w)) /\
  (exists e, InvalidateData path req w = (Some e, req, w)) /\
  (exists e, sendEvent selector eventType data req w = (Some e, req, w)) /\
  (exists e, flush req w = (Some e, req, w)).
Proof.
  intros Hdone. unfold SetData, InvalidateData, sendEvent, flush, bind, getReq, ret.
  rewrite Hdone. repeat split; eexists; reflexivity.
Qed.

(** [SetHtml] never looks at [IsDone]: it always appends and returns [nil]. *)
Lemma SetHtml_always_appends html req w :
  SetHtml html req w
  = (None, setRRActions (RRActions req ++ [mkRRAction (tsAt w 0) "html" "" "" "" html]) req,
     tick 1 w).
Proof.
  unfold SetHtml, bind, dashutil_Ts, appendRR, ret, tick. simpl.
  rewrite <- tsAt_0, Nat.add_comm. reflexivity.
Qed.

(** C2, as the code has it. [Done] on a request that is not done yet: if it
    is a root handler request whose handler called no auth method and which
    carries no auth atoms, exactly one [panelauth] action (type [noauth],
    role [user], expiring 86 400 000 ms after the reading [dashutil.Ts]
    gives, the sum being an [int64]) is appended before the terminal
    response is sent; if the handler called an auth method, or the request
    is not a root handler request, or it already carries auth atoms, the
    terminal response is sent with the accumulated actions and nothing
    else. *)
Theorem Done_default_noauth req w :
  IsDone req = false ->
  (AuthImpl req = false -> isRootReq req = true -> isAuthenticated req = false ->
     Done req w
       = sendRequestResponse true
           (setRRActions (RRActions req ++ [defaultNoAuthAction w]) (setAuthImpl true req))
           (tick 2 w) /\
     wire (Done req w).2
       = wire w ++ [mkSendResponseMessage (ReqId req) (RequestType req) (PanelName req)
                      (FeClientId req) (RRActions req ++ [defaultNoAuthAction w]) true] /\
     IsDone (Done req w).1.2 = true /\
     JsonData (defaultNoAuthAction w) = jsonMarshalAuthAtom (defaultNoAuthAtom w) /\
     AtomType (defaultNoAuthAtom w) = "noauth" /\
     Role (defaultNoAuthAtom w) = "user" /\
     (is_int64 (tsAt w 0 + 86400000) ->
        AtomTs (defaultNoAuthAtom w) = tsAt w 0 + 86400000)) /\
  (AuthImpl req = true \/ isRootReq req = false \/ isAuthenticated req = true ->
     (exists req', RRActions req' = RRActions req /\
                   Done req w = sendRequestResponse true req' w) /\
     wire (Done req w).2
       = wire w ++ [mkSendResponseMessage (ReqId req) (RequestType req) (PanelName req)
                      (FeClientId req) (RRActions req) true] /\
     IsDone (Done req w).1.2 = true).
Proof.
  intros Hdone. split.
  - intros Himpl Hroot Hauth.
    assert (Hrun : Done req w
                   = sendRequestResponse true
                       (setRRActions (RRActions req ++ [defaultNoAuthAction w])
                          (setAuthImpl true req)) (tick 2 w)).
    { unfold Done, bind, getReq. rewrite Hdone, Himpl, Hroot. simpl.
      unfold NoAuth, bind, getReq. simpl.
      replace (isAuthenticated (setAuthImpl true req)) with (isAuthenticated req) by reflexivity.
      rewrite Hauth. cbn [negb]. rewrite appendPanelAuthRRAction_noauth. reflexivity. }
    split; [exact Hrun|]. rewrite Hrun.
    unfold sendRequestResponse, responseMessage. simpl. rewrite Hdone.
    do 5 (split; [reflexivity|]). apply defaultNoAuthAtom_expiry.
  - intros Hcase.
    assert (Hrun : exists req', RRActions req' = RRActions req /\
                                ReqId req' = ReqId req /\ RequestType req' = RequestType req /\
                                PanelName req' = PanelName req /\ FeClientId req' = FeClientId req /\
                                IsDone req' = false /\
                                Done req w = sendRequestResponse true req' w).
    { unfold Done, bind, getReq. rewrite Hdone.
      destruct (negb (AuthImpl req) && isRootReq req) eqn:Hguard.
      - apply andb_true_iff in Hguard as [Himpl Hroot].
        apply negb_true_iff in Himpl.
        destruct Hcase as [Hc|[Hc|Hc]]; [congruence|congruence|].
        exists (setAuthImpl true req). do 5 (split; [reflexivity|]).
        split; [exact Hdone|].
        unfold NoAuth, bind, getReq. simpl.
        replace (isAuthenticated (setAuthImpl true req)) with (isAuthenticated req) by reflexivity.
        rewrite Hc. reflexivity.
      - exists req. do 5 (split; [reflexivity|]). split; [exact Hdone|reflexivity]. }
    destruct Hrun as (req' & Hacts & Hid & Hty & Hpanel & Hfe & Hd & Hrun).
    split; [exists req'; split; assumption|]. rewrite Hrun.
    unfold sendRequestResponse, responseMessage. simpl.
    rewrite Hacts, Hid, Hty, Hpanel, Hfe, Hd. split; reflexivity.
Qed.

(** [Done] on a done request does nothing. *)
Lemma Done_idempotent req w : IsDone req = true -> Done req w = (None, req, w).
Proof. intros Hdone. unfold Done, bind, getReq, ret. rewrite Hdone. reflexivity. Qed.

End Request.

Definition dquote : string := String (Ascii.ascii_of_nat 34) EmptyString.

Definition jsonField (name value : string) : string :=
  dquote +:+ name +:+ dquote +:+ ":" +:+ value.

Definition jsonString (s : string) : string := dquote +:+ s +:+ dquote.

(** A JSON encoder for atoms, writing what [encoding/json] writes for the
    struct when its strings need no escaping. *)
Definition demoAtomJson (a : authAtom) : string :=
  "{" +:+ jsonField "scope" (jsonString (Scope a))
  +:+ "," +:+ jsonField "type" (jsonString (AtomType a))
  +:+ (if Auto a then "," +:+ jsonField "auto" "true" else "")
  +:+ (if AtomTs a =? 0 then "" else "," +:+ jsonField "ts" (pretty (AtomTs a)))
  +:+ (if bool_decide (Id a = "") then "" else "," +:+ jsonField "id" (jsonString (Id a)))
  +:+ "," +:+ jsonField "role" (jsonString (Role a)) +:+ "}".

(** Handler values are strings already in JSON; the transport always
    succeeds. *)
Definition demoExternals : Externals := {|
  Value := string;
  marshalJson := fun v => inl v;
  jsonMarshalAuthAtom := demoAtomJson;
  jsonMarshalChallenge := fun ch => "{" +:+ jsonField "allowedauth" (jsonString (AllowedAuth ch)) +:+ "}";
  decodeChallengeData := fun _ => (∅, None);
  replySendResponse := fun _ => None
|}.

Definition demoRequest (authData : list authAtom) (acts : list RRAction) (done : bool)
  : PanelRequest (H := demoExternals) :=
  mkPanelRequest (H := demoExternals) "a" "r1" "handler" "fe1" "/" "null" authData acts None done false.

(** A clock that shows 1 700 000 000 000 ms and advances 1 ms per look. *)
Definition demoWorld : World :=
  mkWorld (fun n => 1700000000000 + Z.of_nat n) 0 [].

Definition setdataX : RRAction := mkRRAction 1699999999999 "setdata" "$.x" "" "42" "".

(** Scenario S1 of the specification: the terminal response carries the
    handler's [setdata] and the default [noauth] action. *)
Lemma Done_default_noauth_witness :
  Done (demoRequest [] [setdataX] false) demoWorld
  = sendRequestResponse true
      (setRRActions ([setdataX] ++ [defaultNoAuthAction (H := demoExternals) demoWorld])
         (setAuthImpl true (demoRequest [] [setdataX] false)))
      (tick 2 demoWorld) /\
  wire (Done (demoRequest [] [setdataX] false) demoWorld).2
  = [] ++ [mkSendResponseMessage "r1" "handler" "a" "fe1"
             ([setdataX] ++ [defaultNoAuthAction (H := demoExternals) demoWorld]) true] /\
  IsDone (Done (demoRequest [] [setdataX] false) demoWorld).1.2 = true /\
  JsonData (defaultNoAuthAction (H := demoExternals) demoWorld)
  = demoAtomJson (defaultNoAuthAtom demoWorld) /\
  AtomType (defaultNoAuthAtom demoWorld) = "noauth" /\
  Role (defaultNoAuthAtom demoWorld) = "user" /\
  (is_int64 (tsAt demoWorld 0 + 86400000) ->
   AtomTs (defaultNoAuthAtom demoWorld) = tsAt demoWorld 0 + 86400000).
Proof.
  apply (Done_default_noauth (H := demoExternals) (demoRequest [] [setdataX] false) demoWorld
           eq_refl); reflexivity.
Defined.

Example default_noauth_json :
  JsonData (defaultNoAuthAction (H := demoExternals) demoWorld)
  = demoAtomJson (mkAuthAtom "" "noauth" true 1700086400000 "" "user" None).
Proof. reflexivity. Qed.

Definition userAtom : authAtom := mkAuthAtom "panel" "password" false 1700000500000 "u1" "user" None.

(** C2 as stated fails for a request that arrives authenticated: it is a
    root handler request, its handler called no auth method, and [Done]
    sends the terminal response with no [panelauth] action. *)
Lemma Done_authenticated_no_noauth :
  isRootReq (demoRequest [userAtom] [setdataX] false) = true /\
  AuthImpl (demoRequest [userAtom] [setdataX] false) = false /\
  wire (Done (demoRequest [userAtom] [setdataX] false) demoWorld).2
  = [mkSendResponseMessage "r1" "handler" "a" "fe1" [setdataX] true].
Proof. repeat split. Qed.

(** C1 fails on [SetHtml]: on a done request, where [SetData] returns an
    error and appends nothing, it returns [nil] and appends an [html]
    action. *)
Theorem SetHtml_appends_after_done :
  IsDone (demoRequest [] [] true) = true /\
  SetData (H := demoExternals) "$.x" "42" (demoRequest [] [] true) demoWorld
    = (Some (Errorf "Cannot call SetData(), path=$.x, PanelRequest is already done"),
       demoRequest [] [] true, demoWorld) /\
  SetHtml "<p>late</p>" (demoRequest [] [] true) demoWorld
    = (None,
       demoRequest [] [mkRRAction 1700000000000 "html" "" "" "" "<p>late</p>"] true,
       tick 1 demoWorld).
Proof. repeat split. Qed.

End dash.

(** ** [pkg/dash/dashapp.go] and [pkg/dash/dashfs.go]: hashing a blob *)

Module dashapp.

Record BlobData : Type := mkBlobData {
  BlobKey : string;
  MimeType : string;
  Size : Z;
  Sha256 : string;
  UpdateTs : Z;
  Metadata : option string;
  Removed : bool
}.

(** The zero value [BlobData{}]. *)
Definition zeroBlobData : BlobData := mkBlobData "" "" 0 "" 0 None false.

Record FileOpts : Type := mkFileOpts {
  FileType : string;
  foSha256 : string;
  foSize : Z;
  foMimeType : string
}.

Definition FileTypeStatic : string := "static".

(** An [io.ReadSeeker], as much of it as the two functions drive: the bytes
    behind it, the position, what the coming [Seek] calls answer (past the
    end of the list they succeed), and the error a [Read] at the end gives
    in place of [io.EOF]. *)
Record ReadSeeker : Type := mkReadSeeker {
  content : list Byte.byte;
  offset : nat;
  seekErrs : list error;
  readErr : error
}.

(** [r.Seek(0, 0)]. *)
Definition Seek0 (r : ReadSeeker) : error * ReadSeeker :=
  match seekErrs r with
  | Some err :: rest => (Some err, mkReadSeeker (content r) (offset r) rest (readErr r))
  | None :: rest => (None, mkReadSeeker (content r) 0 rest (readErr r))
  | [] => (None, mkReadSeeker (content r) 0 [] (readErr r))
  end.

(** [io.Copy(h, r)]: the bytes written to the hash, and the error. *)
Definition ioCopy (r : ReadSeeker) : (list Byte.byte * error) * ReadSeeker :=
  ((drop (offset r) (content r), readErr r),
   mkReadSeeker (content r) (length (content r)) (seekErrs r) (readErr r)).

(** [crypto/sha256] and [encoding/base64]. *)
Class Hashing : Type := {
  sha256Sum : list Byte.byte -> list Byte.byte;
  base64Encode : list Byte.byte -> string
}.

Section Blob.
Context `{Hashing}.

Definition BlobDataFromReadSeeker (key mimeType : string) (r : ReadSeeker)
  : (BlobData * error) * ReadSeeker :=
  match Seek0 r with
  | (Some err, r1) => ((zeroBlobData, None), r1)
  | (None, r1) =>
      match ioCopy r1 with
      | ((_, Some err), r2) => ((zeroBlobData, Some err), r2)
      | ((copied, None), r2) =>
          let hashValStr := base64Encode (sha256Sum copied) in
          match Seek0 r2 with
          | (Some err, r3) => ((zeroBlobData, Some err), r3)
          | (None, r3) =>
              ((mkBlobData key mimeType (Z.of_nat (length copied)) hashValStr 0 None false,
                None), r3)
          end
      end
  end.

(** [UpdateFileOptsFromReadSeeker] of [dashfs.go], the same steps over a
    [FileOpts]; [None] for [fileOpts] is the [nil] pointer. *)
Definition UpdateFileOptsFromReadSeeker (r : ReadSeeker) (fileOpts : option FileOpts)
  : (error * option FileOpts) * ReadSeeker :=
  match fileOpts with
  | None =>
      ((Some (mkErr ErrCodeValidate "Must pass non-nil FileOpts (set at least MimeType)"), None), r)
  | Some opts =>
      match Seek0 r with
      | (Some err, r1) => ((Some err, fileOpts), r1)
      | (None, r1) =>
          match ioCopy r1 with
          | ((_, Some err), r2) => ((Some err, fileOpts), r2)
          | ((copied, None), r2) =>
              let hashValStr := base64Encode (sha256Sum copied) in
              match Seek0 r2 with
              | (Some err, r3) => ((Some err, fileOpts), r3)
              | (None, r3) =>
                  ((None, Some (mkFileOpts FileTypeStatic hashValStr
                                  (Z.of_nat (length copied)) (foMimeType opts))), r3)
              end
          end
      end
  end.

(** *** Facts *)

(** A failing first [Seek] is swallowed: the zero [BlobData] comes back with
    a [nil] error. *)
Lemma first_seek_failure_swallowed key mimeType r err rest :
  seekErrs r = Some err :: rest ->
  (BlobDataFromReadSeeker key mimeType r).1 = (zeroBlobData, None).
Proof. intros Hs. unfold BlobDataFromReadSeeker, Seek0. rewrite Hs. reflexivity. Qed.

(** A failing second [Seek] is returned. *)
Lemma second_seek_failure_returned key mimeType r err rest :
  seekErrs r = None :: Some err :: rest -> readErr r = None ->
  (BlobDataFromReadSeeker key mimeType r).1 = (zeroBlobData, Some err).
Proof.
  intros Hs Hr. unfold BlobDataFromReadSeeker, Seek0, ioCopy. rewrite Hs. simpl.
  rewrite Hr. reflexivity.
Qed.

(** The sibling in [dashfs.go] returns the error of either [Seek]. *)
Lemma UpdateFileOpts_seek_failure_returned r opts err rest :
  (seekErrs r = Some err :: rest \/ (seekErrs r = None :: Some err :: rest /\ readErr r = None)) ->
  (UpdateFileOptsFromReadSeeker r (Some opts)).1.1 = Some err.
Proof.
  intros [Hs|[Hs Hr]]; unfold UpdateFileOptsFromReadSeeker, Seek0, ioCopy; rewrite Hs; simpl.
  - reflexivity.
  - rewrite Hr. reflexivity.
Qed.

(** With both seeks and the copy succeeding the blob is described by its
    size and hash, and the reader is back at its beginning. *)
Lemma BlobDataFromReadSeeker_ok key mimeType r :
  seekErrs r = [] -> readErr r = None ->
  BlobDataFromReadSeeker key mimeType r
  = ((mkBlobData key mimeType (Z.of_nat (length (content r)))
        (base64Encode (sha256Sum (content r))) 0 None false, None),
     mkReadSeeker (content r) 0 [] None).
Proof.
  intros Hs Hr. unfold BlobDataFromReadSeeker, Seek0, ioCopy. rewrite Hs. simpl.
  rewrite Hr. simpl. reflexivity.
Qed.

End Blob.

(** Stand-ins for the hash and the encoding, to run the functions. *)
Definition demoHashing : Hashing := {|
  sha256Sum := fun bs => bs;
  base64Encode := fun bs => String.string_of_list_ascii (map Ascii.ascii_of_byte bs)
|}.

Definition seekFails : GoError := Errorf "seek: file already closed".

(** A reader over three bytes whose first [Seek] fails. *)
Definition brokenReader : ReadSeeker :=
  mkReadSeeker [Byte.x61; Byte.x62; Byte.x63] 0 [Some seekFails] None.

(** C8 fails on the first [Seek]: when it fails, [BlobDataFromReadSeeker]
    returns the zero [BlobData] with a [nil] error, where
    [UpdateFileOptsFromReadSeeker] returns the error. *)
Theorem BlobDataFromReadSeeker_swallows_first_seek :
  (Seek0 brokenReader).1 = Some seekFails /\
  (BlobDataFromReadSeeker (H := demoHashing) "html:root" "text/html" brokenReader).1
    = (zeroBlobData, None) /\
  (UpdateFileOptsFromReadSeeker (H := demoHashing) brokenReader
     (Some (mkFileOpts "" "" 0 "text/html"))).1.1 = Some seekFails.
Proof. repeat split. Qed.

End dashapp.

(** ** [pkg/dash/runtime.go]: the middleware chain of a registry *)

Module runtime.

(** *** [sort.Slice] *)

(** [less] is a strict weak ordering on the elements of [l]: what
    [sort.Slice] asks of the function it is given. *)
Definition StrictWeakOn {A} (less : A -> A -> bool) (l : list A) : Prop :=
  (forall x, x ∈ l -> less x x = false) /\
  (forall x y z, x ∈ l -> y ∈ l -> z ∈ l ->
     less x y = true -> less y z = true -> less x z = true) /\
  (forall x y z, x ∈ l -> y ∈ l -> z ∈ l ->
     less x y = false -> less y z = false -> less x z = false).

(** [l] is sorted by [less]: no element is less than one before it. *)
Definition sortedBy {A} (less : A -> A -> bool) (l : list A) : Prop :=
  StronglySorted (fun a b => less b a = false) l.

(** [sort.Slice] of Go's standard library, by its documented contract: it
    sorts the slice by [less], and "the sort is not guaranteed to be
    stable". The function gives the slice's contents after the call. *)
Class SliceSorter : Type := {
  sortSlice : forall {A : Type}, (A -> A -> bool) -> list A -> list A;
  sortSlice_perm : forall (A : Type) (less : A -> A -> bool) (l : list A),
    sortSlice less l ≡ₚ l;
  sortSlice_sorted : forall (A : Type) (less : A -> A -> bool) (l : list A),
    StrictWeakOn less l -> sortedBy less (sortSlice less l)
}.

Section InsertionSort.
Context {A : Type} (less : A -> A -> bool).

(** One round of [insertionSort_func]: the element [x] at index [i] moves
    down past each predecessor it is less than. [rp] is the prefix before
    it, nearest element first. *)
Fixpoint insertBack (x : A) (rp : list A) : list A :=
  match rp with
  | [] => [x]
  | y :: rp' => if less x y then y :: insertBack x rp' else x :: rp
  end.

(** [insertionSort_func] over the whole slice. *)
Definition insertionSort (l : list A) : list A :=
  reverse (foldl (fun rp x => insertBack x rp) [] l).

(** The pass [quickSort_func] of Go 1.18 and before makes over a slice of at
    most 12 elements ahead of the insertion sort:
    [for i := a + 6; i < b; i++ { if less(i, i-6) { swap(i, i-6) } }]. *)
Definition gapSwap (l : list A) (i : nat) : list A :=
  match l !! i, l !! (i - 6)%nat with
  | Some x, Some y => if less x y then <[i := y]> (<[(i - 6)%nat := x]> l) else l
  | _, _ => l
  end.

Definition gapPass (l : list A) : list A :=
  foldl gapSwap l (seq 6 (length l - 6)).

Definition legacySort (l : list A) : list A := insertionSort (gapPass l).

Lemma insertBack_perm x rp : insertBack x rp ≡ₚ x :: rp.
Proof.
  induction rp as [|y rp IH]; simpl; [reflexivity|].
  destruct (less x y); [|reflexivity].
  rewrite IH. apply Permutation_swap.
Qed.

Lemma foldl_insertBack_perm l acc :
  foldl (fun rp x => insertBack x rp) acc l ≡ₚ l ++ acc.
Proof.
  revert acc. induction l as [|x l IH]; intros acc; simpl; [reflexivity|].
  rewrite IH, insertBack_perm. symmetry. apply Permutation_middle.
Qed.

Lemma insertionSort_perm l : insertionSort l ≡ₚ l.
Proof.
  unfold insertionSort. rewrite reverse_Permutation, foldl_insertBack_perm.
  rewrite app_nil_r. reflexivity.
Qed.

Lemma gapSwap_perm l i : gapSwap l i ≡ₚ l.
Proof.
  unfold gapSwap. destruct (l !! i) as [x|] eqn:Hi; [|reflexivity].
  destruct (l !! (i - 6)%nat) as [y|] eqn:Hj; [|reflexivity].
  destruct (less x y); [|reflexivity].
  apply Permutation_insert_swap; assumption.
Qed.

Lemma foldl_gapSwap_perm idxs l : foldl gapSwap l idxs ≡ₚ l.
Proof.
  revert l. induction idxs as [|i idxs IH]; intros l; simpl; [reflexivity|].
  rewrite IH. apply gapSwap_perm.
Qed.

Lemma gapPass_perm l : gapPass l ≡ₚ l.
Proof. apply foldl_gapSwap_perm. Qed.

Lemma legacySort_perm l : legacySort l ≡ₚ l.
Proof. unfold legacySort. rewrite insertionSort_perm. apply gapPass_perm. Qed.

(** The prefix, read backwards, is sorted: no element is less than one that
    stands before it in the slice. *)
Definition backSorted (rp : list A) : Prop :=
  StronglySorted (fun a b => less a b = false) rp.

Lemma insertBack_sorted x rp :
  StrictWeakOn less (x :: rp) -> backSorted rp -> backSorted (insertBack x rp).
Proof.
  intros (Hirr & Htr & Hneg). induction rp as [|y rp IH]; intros Hs; simpl.
  - repeat constructor.
  - apply StronglySorted_inv in Hs as [Hs Hy].
    assert (Hsub : forall z, z ∈ x :: rp -> z ∈ x :: y :: rp).
    { intros z Hz. apply elem_of_cons in Hz as [->|Hz]; set_solver. }
    destruct (less x y) eqn:Hxy.
    + constructor.
      * apply IH; [intros; apply Hirr; auto | | | exact Hs].
        -- intros a b c Ha Hb Hc. apply Htr; auto.
        -- intros a b c Ha Hb Hc. apply Hneg; auto.
      * rewrite Forall_forall. intros z Hz.
        rewrite insertBack_perm in Hz. apply elem_of_cons in Hz as [->|Hz].
        -- destruct (less y x) eqn:Hyx; [|reflexivity].
           rewrite <- (Hirr x) by set_solver.
           symmetry. apply (Htr x y x); set_solver.
        -- rewrite Forall_forall in Hy. apply Hy, Hz.
    + constructor; [constructor; assumption|].
      constructor; [exact Hxy|].
      rewrite Forall_forall in Hy |- *. intros z Hz.
      apply (Hneg x y z); [set_solver|set_solver|set_solver|exact Hxy|apply Hy, Hz].
Qed.

Lemma StrictWeakOn_perm (l l' : list A) :
  l ≡ₚ l' -> StrictWeakOn less l -> StrictWeakOn less l'.
Proof.
  intros Hp (Hirr & Htr & Hneg). repeat split.
  - intros x Hx. apply Hirr. rewrite Hp. exact Hx.
  - intros x y z Hx Hy Hz. apply Htr; rewrite Hp; assumption.
  - intros x y z Hx Hy Hz. apply Hneg; rewrite Hp; assumption.
Qed.

Lemma StrictWeakOn_sub (l l' : list A) :
  (forall x, x ∈ l' -> x ∈ l) -> StrictWeakOn less l -> StrictWeakOn less l'.
Proof.
  intros Hsub (Hirr & Htr & Hneg). repeat split.
  - intros x Hx. apply Hirr, Hsub, Hx.
  - intros x y z Hx Hy Hz. apply Htr; apply Hsub; assumption.
  - intros x y z Hx Hy Hz. apply Hneg; apply Hsub; assumption.
Qed.

Lemma foldl_insertBack_sorted l acc :
  StrictWeakOn less (l ++ acc) -> backSorted acc ->
  backSorted (foldl (fun rp x => insertBack x rp) acc l).
Proof.
  revert acc. induction l as [|x l IH]; intros acc Hswo Hacc; simpl; [exact Hacc|].
  apply IH.
  - apply (StrictWeakOn_perm ((x :: l) ++ acc)); [|exact Hswo].
    rewrite insertBack_perm. simpl. apply Permutation_middle.
  - apply insertBack_sorted; [|exact Hacc].
    apply (StrictWeakOn_sub ((x :: l) ++ acc)); [|exact Hswo].
    intros z Hz. simpl. rewrite elem_of_cons, elem_of_app.
    apply elem_of_cons in Hz as [->|Hz]; auto.
Qed.

Lemma backSorted_reverse rp : backSorted rp -> sortedBy less (reverse rp).
Proof.
  unfold backSorted, sortedBy. induction 1 as [|y rp Hs IH Hy]; [constructor|].
  rewrite reverse_cons. apply StronglySorted_app_2; [|exact IH|repeat constructor].
  intros a b Ha Hb. apply list_elem_of_singleton in Hb as ->.
  rewrite Forall_forall in Hy. apply Hy. rewrite elem_of_reverse in Ha. exact Ha.
Qed.

Lemma insertionSort_sorted l : StrictWeakOn less l -> sortedBy less (insertionSort l).
Proof.
  intros Hswo. apply backSorted_reverse, foldl_insertBack_sorted; [|constructor].
  rewrite app_nil_r. exact Hswo.
Qed.

Lemma legacySort_sorted l : StrictWeakOn less l -> sortedBy less (legacySort l).
Proof.
  intros Hswo. apply insertionSort_sorted.
  apply (StrictWeakOn_perm l); [symmetry; apply gapPass_perm | exact Hswo].
Qed.

End InsertionSort.

(** Two sorts that meet the contract. [insertionSorter] is what
    [sort.Slice] of Go 1.19 and later does to a slice of at most 12
    elements; [legacySorter] is what [sort.Slice] of Go 1.18 and before does
    to one. *)
Definition insertionSorter : SliceSorter := {|
  sortSlice := @insertionSort;
  sortSlice_perm := @insertionSort_perm;
  sortSlice_sorted := @insertionSort_sorted
|}.

Definition legacySorter : SliceSorter := {|
  sortSlice := @legacySort;
  sortSlice_perm := @legacySort_perm;
  sortSlice_sorted := @legacySort_sorted
|}.


(** *** Requests, handlers and middleware *)

(** User code (handlers and middleware functions) runs over a state of its
    own, of type [U], and may panic. *)
Section Registry.
Context {U : Type}.

Definition Run (A : Type) : Type := U -> outcome A * U.

Record AppRequest : Type := mkAppRequest {
  PathFrag : string;
  FullPath : string
}.

(** The [(interface{}, error)] a handler returns. *)
Definition Reply : Type := option string * error.

(** [MiddlewareNextFuncType]; the request it is passed may be [nil]. *)
Definition MiddlewareNextFuncType : Type := option AppRequest -> Run Reply.

Definition MiddlewareFuncType : Type := AppRequest -> MiddlewareNextFuncType -> Run Reply.

Record middlewareType : Type := mkMiddleware {
  Name : string;
  Fn : MiddlewareFuncType;
  Priority : float
}.

Record appHandlerType : Type := mkAppHandler {
  HandlerFn : AppRequest -> Run Reply
}.

(** [mw1.Priority > mw2.Priority], the [less] given to [sort.Slice]. *)
Definition higherPriority (mw1 mw2 : middlewareType) : bool :=
  fgt (Priority mw1) (Priority mw2).

Context `{SliceSorter}.

Definition addMiddlewares (mws : list middlewareType) (mw : middlewareType)
  : list middlewareType :=
  let newmws := mws ++ [mw] in
  sortSlice higherPriority newmws.

Fixpoint removeMiddleware (mws : list middlewareType) (name : string)
  : list middlewareType :=
  match mws with
  | [] => []
  | mw :: rest =>
      if bool_decide (Name mw = name) then removeMiddleware rest name
      else mw :: removeMiddleware rest name
  end.

(** [mwAppHelper], from position [mwPos] on: [rest] is [mws[mwPos:]]. *)
Fixpoint mwAppHelperFrom (hval : appHandlerType) (rest : list middlewareType)
    (outerReq : AppRequest) : Run Reply :=
  match rest with
  | [] => HandlerFn hval outerReq
  | mw :: rest' =>
      Fn mw outerReq (fun innerReq =>
        match innerReq with
        | None => fun u => (Panicked "No Request Passed to middleware nextFn", u)
        | Some req => mwAppHelperFrom hval rest' req
        end)
  end.

Definition mwAppHelper (outerReq : AppRequest) (hval : appHandlerType)
    (mws : list middlewareType) (mwPos : nat) : Run Reply :=
  mwAppHelperFrom hval (drop mwPos mws) outerReq.

(** The [nextFn] that [mwAppHelper] at [mwPos] hands to the middleware. *)
Definition nextFn (hval : appHandlerType) (mws : list middlewareType) (mwPos : nat)
  : MiddlewareNextFuncType :=
  fun innerReq =>
    match innerReq with
    | None => fun u => (Panicked "No Request Passed to middleware nextFn", u)
    | Some req => mwAppHelper req hval mws (S mwPos)
    end.

(** *** The registry and the memory its slices live in *)

(** A slice header: the address of a backing array, and a length. *)
Record slice : Type := mkSlice { ptr : nat; len : nat }.

(** Backing arrays by address. [make] takes the next free address. *)
Definition Heap : Type := list (list middlewareType).

(** [AppRuntimeImpl]; [None] for [middlewares] is the [nil] slice. *)
Record AppRuntimeImpl : Type := mkAppRuntime {
  handlers : gmap string appHandlerType;
  middlewares : option slice
}.

Definition Store : Type := AppRuntimeImpl * Heap.

(** The elements a slice header shows in a heap. *)
Definition elems (h : Heap) (s : option slice) : list middlewareType :=
  match s with
  | None => []
  | Some sl => take (len sl) (default [] (h !! ptr sl))
  end.

(** A new backing array holding [mws], and the slice over it. *)
Definition alloc (h : Heap) (mws : list middlewareType) : slice * Heap :=
  (mkSlice (length h) (length mws), h ++ [mws]).

Definition MakeAppRuntime : Store := (mkAppRuntime ∅ None, []).

Definition setHandler (path : string) (handler : appHandlerType) (st : Store) : Store :=
  (mkAppRuntime (<[path := handler]> (handlers st.1)) (middlewares st.1), st.2).

(** What one holder of the registry's lock does to [apprt.middlewares]:
    [RemoveMiddleware], or the locked part of [AddRawMiddleware]. Both build
    their result in an array of their own ([make]) and then store the new
    slice. *)
Inductive RegistryStep : Type :=
| DoRemove (name : string)
| DoAdd (newmw : middlewareType).

Definition stepRegistry (s : RegistryStep) (st : Store) : Store :=
  let mws := elems st.2 (middlewares st.1) in
  let newmws :=
    match s with
    | DoRemove name => removeMiddleware mws name
    | DoAdd newmw => addMiddlewares mws newmw
    end in
  let '(sl, h) := alloc st.2 newmws in
  (mkAppRuntime (handlers st.1) (Some sl), h).

Definition RemoveMiddleware (name : string) (st : Store) : Store :=
  stepRegistry (DoRemove name) st.

Definition AddRawMiddleware (name : string) (mwFunc : MiddlewareFuncType) (priority : float)
    (st : Store) : Store :=
  stepRegistry (DoAdd (mkMiddleware name mwFunc priority)) (RemoveMiddleware name st).

Definition runSteps (steps : list RegistryStep) (st : Store) : Store :=
  foldl (fun st s => stepRegistry s st) st steps.

(** The middleware list of the registry. *)
Definition registryMiddlewares (st : Store) : list middlewareType :=
  elems st.2 (middlewares st.1).

(** [RunHandler]: the handler and the slice are read under the lock, the
    chain runs outside it. *)
Definition RunHandler (req : AppRequest) (st : Store) : Run Reply :=
  if bool_decide (PathFrag req = "") then
    fun u => (Returned (None, Some (mkErr ErrCodeValidate "PathFrag cannot be empty for linked request")), u)
  else
    let mws := middlewares st.1 in
    match handlers st.1 !! PathFrag req with
    | None => fun u => (Returned (None, Some (Errorf ("No handler found for " +:+ FullPath req))), u)
    | Some hval =>
        fun u =>
          match mwAppHelper req hval (elems st.2 mws) 0 u with
          | (Returned (_, Some err), u') => (Returned (None, Some err), u')
          | res => res
          end
    end.

(** *** A dispatch with the registry changing under it *)

(** A dispatch in flight holds the slice header it read at its start and
    the position in the chain; [invoked] records the entries whose function
    it has called. *)
Record Dispatch : Type := mkDispatch {
  snap : option slice;
  mwPos : nat;
  invoked : list middlewareType
}.

Definition startDispatch (st : Store) : Dispatch :=
  mkDispatch (middlewares st.1) 0 [].

(** [mwAppHelper] at [mwPos] reads [mws[mwPos]] from memory as it is then
    and calls it; past the end of the slice the handler is called. *)
Definition invokeNext (h : Heap) (d : Dispatch) : Dispatch :=
  match elems h (snap d) !! mwPos d with
  | Some mw => mkDispatch (snap d) (S (mwPos d)) (invoked d ++ [mw])
  | None => d
  end.

(** What happens while a request is dispatched: another goroutine takes the
    lock and changes the registry, or the dispatch moves on by one. *)
Inductive Event : Type :=
| EvRegistry (s : RegistryStep)
| EvInvoke.

Fixpoint runEvents (evs : list Event) (st : Store) (d : Dispatch) : Store * Dispatch :=
  match evs with
  | [] => (st, d)
  | EvRegistry s :: evs' => runEvents evs' (stepRegistry s st) d
  | EvInvoke :: evs' => runEvents evs' st (invokeNext st.2 d)
  end.

Fixpoint invocations (evs : list Event) : nat :=
  match evs with
  | [] => 0
  | EvRegistry _ :: evs' => invocations evs'
  | EvInvoke :: evs' => S (invocations evs')
  end.


(** A slice header points into the heap. *)
Definition validSlice (h : Heap) (s : option slice) : Prop :=
  match s with
  | None => True
  | Some sl => (ptr sl < length h)%nat
  end.

(** A registry step that adds no entry with a NaN priority. *)
Definition stepNotNaN (s : RegistryStep) : Prop :=
  match s with
  | DoRemove _ => True
  | DoAdd newmw => notNaN (Priority newmw)
  end.

(** No two different entries of [l] have priorities neither of which is
    greater than the other. *)
Definition NoTies (l : list middlewareType) : Prop :=
  forall x y, x ∈ l -> y ∈ l ->
    higherPriority x y = false -> higherPriority y x = false -> x = y.

(** *** Facts about the registry *)

Lemma removeMiddleware_filter mws name :
  removeMiddleware mws name = filter (fun mw => Name mw <> name) mws.
Proof.
  induction mws as [|mw rest IH]; simpl; [reflexivity|].
  rewrite filter_cons. case_bool_decide as Hn.
  - rewrite decide_False by (intros Hne; exact (Hne Hn)). exact IH.
  - rewrite decide_True by exact Hn. rewrite IH. reflexivity.
Qed.

Lemma removeMiddleware_perm mws mws' name :
  mws ≡ₚ mws' -> removeMiddleware mws name ≡ₚ removeMiddleware mws' name.
Proof. intros Hp. rewrite !removeMiddleware_filter. rewrite Hp. reflexivity. Qed.

Lemma removeMiddleware_app mws mws' name :
  removeMiddleware (mws ++ mws') name
  = removeMiddleware mws name ++ removeMiddleware mws' name.
Proof. rewrite !removeMiddleware_filter. apply filter_app. Qed.

Lemma removeMiddleware_idem mws name :
  removeMiddleware (removeMiddleware mws name) name = removeMiddleware mws name.
Proof.
  induction mws as [|mw rest IH]; simpl; [reflexivity|].
  case_bool_decide as Hn; [exact IH|]. simpl.
  rewrite bool_decide_eq_false_2 by exact Hn. rewrite IH. reflexivity.
Qed.

Lemma removeMiddleware_named mws name :
  filter (fun mw => Name mw = name) (removeMiddleware mws name) = [].
Proof.
  induction mws as [|mw rest IH]; simpl; [reflexivity|].
  case_bool_decide as Hn; [exact IH|].
  rewrite filter_cons, decide_False by exact Hn. exact IH.
Qed.

Lemma removeMiddleware_elem mws name mw :
  mw ∈ removeMiddleware mws name -> mw ∈ mws.
Proof. rewrite removeMiddleware_filter, list_elem_of_filter. tauto. Qed.

Lemma removeMiddleware_sorted mws name :
  sortedBy higherPriority mws -> sortedBy higherPriority (removeMiddleware mws name).
Proof.
  unfold sortedBy. induction 1 as [|mw rest Hs IH Hmw]; simpl; [constructor|].
  case_bool_decide; [exact IH|]. constructor; [exact IH|].
  rewrite Forall_forall in Hmw |- *. intros x Hx. apply Hmw.
  exact (removeMiddleware_elem _ _ _ Hx).
Qed.

Lemma addMiddlewares_perm mws mw : addMiddlewares mws mw ≡ₚ mws ++ [mw].
Proof. apply sortSlice_perm. Qed.

Lemma higherPriority_StrictWeakOn l :
  Forall (fun mw => notNaN (Priority mw)) l -> StrictWeakOn higherPriority l.
Proof.
  rewrite Forall_forall. intros Hl. unfold higherPriority. repeat split.
  - intros x _. apply fgt_irrefl.
  - intros x y z _ _ _. apply fgt_trans.
  - intros x y z Hx Hy Hz. apply fgt_negtrans; auto.
Qed.

Lemma addMiddlewares_sorted mws mw :
  Forall (fun mw => notNaN (Priority mw)) (mws ++ [mw]) ->
  sortedBy higherPriority (addMiddlewares mws mw).
Proof. intros Hl. apply sortSlice_sorted, higherPriority_StrictWeakOn, Hl. Qed.

Lemma elems_alloc h mws : elems (alloc h mws).2 (Some (alloc h mws).1) = mws.
Proof.
  unfold elems, alloc, Heap in *. cbn [fst snd ptr len].
  rewrite lookup_app_r, Nat.sub_diag by lia. simpl. apply firstn_all.
Qed.

Lemma elems_grow h h' s : validSlice h s -> elems (h ++ h') s = elems h s.
Proof.
  unfold elems, validSlice, Heap in *. destruct s as [sl|]; [|reflexivity]. intros Hv.
  rewrite lookup_app_l by exact Hv. reflexivity.
Qed.

Lemma stepRegistry_heap s st : exists arr, (stepRegistry s st).2 = st.2 ++ [arr].
Proof. unfold stepRegistry, alloc. destruct s; simpl; eexists; reflexivity. Qed.

Lemma stepRegistry_valid s st : validSlice (stepRegistry s st).2 (middlewares (stepRegistry s st).1).
Proof.
  unfold stepRegistry, alloc. destruct s; simpl; rewrite length_app; simpl; lia.
Qed.

Lemma registryMiddlewares_step s st :
  registryMiddlewares (stepRegistry s st)
  = match s with
    | DoRemove name => removeMiddleware (registryMiddlewares st) name
    | DoAdd newmw => addMiddlewares (registryMiddlewares st) newmw
    end.
Proof.
  unfold registryMiddlewares, stepRegistry.
  destruct s as [name|newmw]; simpl.
  - apply (elems_alloc st.2 (removeMiddleware (elems st.2 (middlewares st.1)) name)).
  - apply (elems_alloc st.2 (addMiddlewares (elems st.2 (middlewares st.1)) newmw)).
Qed.

Lemma registryMiddlewares_AddRaw name mwFunc priority st :
  registryMiddlewares (AddRawMiddleware name mwFunc priority st)
  = addMiddlewares (removeMiddleware (registryMiddlewares st) name)
      (mkMiddleware name mwFunc priority).
Proof.
  unfold AddRawMiddleware, RemoveMiddleware. rewrite !registryMiddlewares_step. reflexivity.
Qed.

Lemma runSteps_valid steps st :
  validSlice st.2 (middlewares st.1) ->
  validSlice (runSteps steps st).2 (middlewares (runSteps steps st).1).
Proof.
  revert st. induction steps as [|s steps IH]; intros st Hv; simpl; [exact Hv|].
  apply IH, stepRegistry_valid.
Qed.

(** The registry's list is sorted, and free of NaN, as long as no entry was
    added with a NaN priority. *)
Lemma runSteps_sorted steps st :
  Forall stepNotNaN steps ->
  Forall (fun mw => notNaN (Priority mw)) (registryMiddlewares st) ->
  sortedBy higherPriority (registryMiddlewares st) ->
  Forall (fun mw => notNaN (Priority mw)) (registryMiddlewares (runSteps steps st)) /\
  sortedBy higherPriority (registryMiddlewares (runSteps steps st)).
Proof.
  intros Hsteps. revert st.
  induction Hsteps as [|s steps Hs Hsteps IH]; intros st Hnan Hsorted; simpl; [auto|].
  apply IH; rewrite registryMiddlewares_step; destruct s as [name|newmw]; simpl in Hs.
  - rewrite Forall_forall in Hnan |- *. intros x Hx.
    apply Hnan, (removeMiddleware_elem _ _ _ Hx).
  - rewrite addMiddlewares_perm. apply Forall_app. split; [exact Hnan|].
    constructor; [exact Hs|constructor].
  - apply removeMiddleware_sorted, Hsorted.
  - apply addMiddlewares_sorted, Forall_app. split; [exact Hnan|].
    constructor; [exact Hs|constructor].
Qed.

(** A dispatch reads the entries its slice showed when it started, however
    the registry is changed meanwhile. *)
Lemma runEvents_invoked evs st d :
  validSlice st.2 (snap d) ->
  invoked (runEvents evs st d).2
  = invoked d ++ take (invocations evs) (drop (mwPos d) (elems st.2 (snap d))).
Proof.
  revert st d. induction evs as [|[s|] evs IH]; intros st d Hv; simpl.
  - rewrite take_0, app_nil_r. reflexivity.
  - destruct (stepRegistry_heap s st) as [arr Harr].
    rewrite IH; rewrite Harr.
    + rewrite elems_grow by exact Hv. reflexivity.
    + destruct (snap d) as [sl|]; simpl in *; [|exact I].
      rewrite length_app. lia.
  - rewrite IH; unfold invokeNext.
    + destruct (elems st.2 (snap d) !! mwPos d) as [mw|] eqn:Hlook; simpl.
      * rewrite (drop_S _ _ _ Hlook). simpl. rewrite <- app_assoc. reflexivity.
      * apply lookup_ge_None in Hlook. rewrite !drop_ge by lia.
        rewrite !take_nil. reflexivity.
    + destruct (elems st.2 (snap d) !! mwPos d); exact Hv.
Qed.

Lemma mwAppHelper_end outerReq hval mws mwPos :
  (length mws <= mwPos)%nat -> mwAppHelper outerReq hval mws mwPos = HandlerFn hval outerReq.
Proof. intros Hge. unfold mwAppHelper. rewrite drop_ge by exact Hge. reflexivity. Qed.

Lemma mwAppHelper_step outerReq hval mws mwPos mw :
  mws !! mwPos = Some mw ->
  mwAppHelper outerReq hval mws mwPos = Fn mw outerReq (nextFn hval mws mwPos).
Proof.
  intros Hlook. unfold mwAppHelper, nextFn. rewrite (drop_S _ _ _ Hlook). reflexivity.
Qed.


(** The list is in descending priority order: an entry's priority is at
    least that of every entry after it. *)
Definition Descending (l : list middlewareType) : Prop :=
  forall i j mi mj, (i < j)%nat -> l !! i = Some mi -> l !! j = Some mj ->
    PrimFloat.leb (Priority mj) (Priority mi) = true.

Lemma sortedBy_lookup l i j mi mj :
  sortedBy higherPriority l -> (i < j)%nat -> l !! i = Some mi -> l !! j = Some mj ->
  higherPriority mj mi = false.
Proof.
  unfold sortedBy. intros Hs. revert i j.
  induction Hs as [|x l Hs IH Hx]; intros i j Hij Hi Hj; [rewrite lookup_nil in Hi; discriminate|].
  destruct j as [|j]; [lia|]. simpl in Hj. destruct i as [|i]; simpl in Hi.
  - injection Hi as ->. rewrite Forall_forall in Hx. apply Hx.
    apply list_elem_of_lookup. eauto.
  - apply (IH i j); [lia|exact Hi|exact Hj].
Qed.

Lemma sortedBy_Descending l :
  Forall (fun mw => notNaN (Priority mw)) l -> sortedBy higherPriority l -> Descending l.
Proof.
  rewrite Forall_forall. intros Hnan Hs i j mi mj Hij Hi Hj.
  apply fgt_false_leb.
  - apply Hnan, list_elem_of_lookup. eauto.
  - apply Hnan, list_elem_of_lookup. eauto.
  - exact (sortedBy_lookup l i j mi mj Hs Hij Hi Hj).
Qed.

(** C3, as the code has it. For a registry built from [MakeAppRuntime] by
    any sequence of adds and removes, and a dispatch that starts on it: the
    entries the dispatch invokes are the first entries of the list its slice
    showed at the start, one per step of the chain, whatever adds and
    removes other goroutines make meanwhile; position [pos] of the chain
    calls the function of entry [pos] with a [nextFn] that goes on at
    [pos + 1], and past the last entry the handler; and if no entry was
    added with a NaN priority that list is in descending priority order.
    Nothing is said of the order among equal priorities. *)
Theorem middleware_chain_snapshot (history : list RegistryStep) (evs : list Event)
    (req : AppRequest) (hval : appHandlerType) :
  let st := runSteps history MakeAppRuntime in
  let mws := registryMiddlewares st in
  invoked (runEvents evs st (startDispatch st)).2 = take (invocations evs) mws /\
  (forall pos mw, mws !! pos = Some mw ->
     mwAppHelper req hval mws pos = Fn mw req (nextFn hval mws pos)) /\
  (forall pos, (length mws <= pos)%nat ->
     mwAppHelper req hval mws pos = HandlerFn hval req) /\
  (Forall stepNotNaN history -> sortedBy higherPriority mws /\ Descending mws).
Proof.
  intros st mws. split; [|split; [|split]].
  - rewrite runEvents_invoked.
    + simpl. rewrite drop_0. reflexivity.
    + apply runSteps_valid. exact I.
  - intros pos mw. apply mwAppHelper_step.
  - intros pos. apply mwAppHelper_end.
  - intros Hhistory.
    destruct (runSteps_sorted history MakeAppRuntime Hhistory) as [Hnan Hs];
      [constructor|constructor|].
    split; [exact Hs|]. apply sortedBy_Descending; assumption.
Qed.

(** C9, as the code has it. Adding a middleware twice under one name leaves
    the registry with the entries a single add of the second call leaves
    (the same list up to order), among them exactly one entry of that name,
    carrying the function and priority of the second call; both lists are
    sorted by priority when no priority is NaN, and they are the same list
    when moreover no two entries tie on priority. *)
Theorem AddRawMiddleware_last_write_wins (name : string) (f1 f2 : MiddlewareFuncType)
    (p1 p2 : float) (st : Store) :
  let once := registryMiddlewares (AddRawMiddleware name f2 p2 st) in
  let twice := registryMiddlewares (AddRawMiddleware name f2 p2 (AddRawMiddleware name f1 p1 st)) in
  twice ≡ₚ once /\
  filter (fun mw => Name mw = name) twice = [mkMiddleware name f2 p2] /\
  filter (fun mw => Name mw <> name) twice
    ≡ₚ filter (fun mw => Name mw <> name) (registryMiddlewares st) /\
  (Forall (fun mw => notNaN (Priority mw)) once ->
     sortedBy higherPriority once /\ sortedBy higherPriority twice /\
     (NoTies once -> twice = once)).
Proof.
  intros once twice. subst once twice. rewrite !registryMiddlewares_AddRaw.
  set (R := registryMiddlewares st).
  set (m1 := mkMiddleware name f1 p1). set (m2 := mkMiddleware name f2 p2).
  assert (Hrm : removeMiddleware (addMiddlewares (removeMiddleware R name) m1) name
                ≡ₚ removeMiddleware R name).
  { rewrite (removeMiddleware_perm _ _ name (addMiddlewares_perm _ m1)).
    rewrite removeMiddleware_app, removeMiddleware_idem. simpl.
    rewrite bool_decide_eq_true_2 by reflexivity. rewrite app_nil_r. reflexivity. }
  assert (Hperm : addMiddlewares (removeMiddleware (addMiddlewares (removeMiddleware R name) m1) name) m2
                  ≡ₚ addMiddlewares (removeMiddleware R name) m2).
  { etransitivity; [apply addMiddlewares_perm|].
    etransitivity; [|symmetry; apply addMiddlewares_perm].
    rewrite Hrm. reflexivity. }
  split; [exact Hperm|]. split; [|split].
  - apply Permutation_singleton_r.
    rewrite Hperm, addMiddlewares_perm, filter_app, removeMiddleware_named. simpl.
    rewrite filter_cons, decide_True by reflexivity. reflexivity.
  - rewrite Hperm, addMiddlewares_perm, filter_app. simpl.
    rewrite filter_cons, decide_False by (intros Hne; apply Hne; reflexivity).
    rewrite filter_nil, app_nil_r, <- removeMiddleware_filter, removeMiddleware_idem.
    rewrite removeMiddleware_filter. reflexivity.
  - intros Hnan.
    assert (Hs1 : sortedBy higherPriority (addMiddlewares (removeMiddleware R name) m2)).
    { apply addMiddlewares_sorted. rewrite <- addMiddlewares_perm. exact Hnan. }
    assert (Hs2 : sortedBy higherPriority
              (addMiddlewares (removeMiddleware (addMiddlewares (removeMiddleware R name) m1) name) m2)).
    { apply addMiddlewares_sorted. rewrite <- addMiddlewares_perm, Hperm. exact Hnan. }
    split; [exact Hs1|]. split; [exact Hs2|].
    intros Hties. apply (StronglySorted_unique_strong (fun a b => higherPriority b a = false));
      [|exact Hs2|exact Hs1|exact Hperm].
    intros x1 x2 Hx1 Hx2 H12 H21. apply Hties; [|exact Hx2|exact H21|exact H12].
    rewrite <- Hperm. exact Hx1.
Qed.

End Registry.

(** *** Running the chain *)

(** A middleware that writes its name to the log and calls [nextFn] with
    the request it was given, and a handler that writes "handler". *)
Definition tracing (name : string) : MiddlewareFuncType (U := list string) :=
  fun req next u => next (Some req) (u ++ [name]).

Definition tracingHandler : appHandlerType (U := list string) :=
  mkAppHandler (fun req u => (Returned (Some "ok", None), u ++ ["handler"])).

Definition addTracing `{SliceSorter} (name : string) (priority : float)
    (st : Store (U := list string)) : Store :=
  AddRawMiddleware name (tracing name) priority st.

Definition rootRequest : AppRequest := mkAppRequest "@default" "/@app/a:@default".

Definition emptyRuntime : Store (U := list string) :=
  setHandler "@default" tracingHandler MakeAppRuntime.

(** The log of a dispatch on [st]. *)
Definition dispatchLog (st : Store (U := list string)) : list string :=
  (RunHandler rootRequest st []).2.

(** A chain of middlewares that all pass the request on calls them in the
    order of the slice, and then the handler. *)
Lemma tracing_chain_order (mws : list (middlewareType (U := list string)))
    (req : AppRequest) (u : list string) :
  Forall (fun mw => Fn mw = tracing (Name mw)) mws ->
  (mwAppHelper req tracingHandler mws 0 u).2 = u ++ map Name mws ++ ["handler"].
Proof.
  unfold mwAppHelper. rewrite drop_0. intros Hall. revert u.
  induction Hall as [|mw rest Hmw Hrest IH]; intros u; simpl.
  - reflexivity.
  - rewrite Hmw. unfold tracing at 1. rewrite IH, <- app_assoc. reflexivity.
Qed.

(** Scenario S5 of the specification, under either sort: A (10), B (5),
    C (7) run as A, C, B, handler. *)
Example middleware_order_S5 :
  dispatchLog (addTracing (H := insertionSorter) "C" 7
                 (addTracing (H := insertionSorter) "B" 5
                    (addTracing (H := insertionSorter) "A" 10 emptyRuntime)))
    = ["A"; "C"; "B"; "handler"] /\
  dispatchLog (addTracing (H := legacySorter) "C" 7
                 (addTracing (H := legacySorter) "B" 5
                    (addTracing (H := legacySorter) "A" 10 emptyRuntime)))
    = ["A"; "C"; "B"; "handler"].
Proof. split; vm_compute; reflexivity. Qed.

(** Six middlewares of priority 1, added in the order a1 ... a6. *)
Definition sixTied `{SliceSorter} : Store (U := list string) :=
  addTracing "a6" 1 (addTracing "a5" 1 (addTracing "a4" 1
    (addTracing "a3" 1 (addTracing "a2" 1 (addTracing "a1" 1 emptyRuntime))))).

(** C3 as stated fails on ties: with the [sort.Slice] of Go 1.18, adding
    "b" at priority 2 to the six moves "a1" behind "a2" ... "a6", and the
    dispatch calls them in that order. *)
Lemma ties_not_kept_stable :
  map Name (registryMiddlewares (sixTied (H := legacySorter)))
    = ["a1"; "a2"; "a3"; "a4"; "a5"; "a6"] /\
  map Name (registryMiddlewares (addTracing (H := legacySorter) "b" 2 (sixTied (H := legacySorter))))
    = ["b"; "a2"; "a3"; "a4"; "a5"; "a6"; "a1"] /\
  dispatchLog (addTracing (H := legacySorter) "b" 2 (sixTied (H := legacySorter)))
    = ["b"; "a2"; "a3"; "a4"; "a5"; "a6"; "a1"; "handler"].
Proof. repeat split; vm_compute; reflexivity. Qed.

(** C9 as stated fails on ties: with the [sort.Slice] of Go 1.18, adding
    "m" at priority 2 and then again at priority 0 leaves the six in another
    order than adding it once at priority 0. *)
Lemma double_add_reorders_ties :
  map Name (registryMiddlewares
              (addTracing (H := legacySorter) "m" 0
                 (addTracing (H := legacySorter) "m" 2 (sixTied (H := legacySorter)))))
    = ["a2"; "a3"; "a4"; "a5"; "a6"; "a1"; "m"] /\
  map Name (registryMiddlewares
              (addTracing (H := legacySorter) "m" 0 (sixTied (H := legacySorter))))
    = ["a1"; "a2"; "a3"; "a4"; "a5"; "a6"; "m"] /\
  registryMiddlewares
    (addTracing (H := legacySorter) "m" 0
       (addTracing (H := legacySorter) "m" 2 (sixTied (H := legacySorter))))
  <> registryMiddlewares (addTracing (H := legacySorter) "m" 0 (sixTied (H := legacySorter))).
Proof.
  split; [vm_compute; reflexivity|]. split; [vm_compute; reflexivity|].
  intros Heq. apply (f_equal (map Name)) in Heq. vm_compute in Heq. discriminate.
Qed.


(** The registry of scenario S5, as the steps that built it. *)
Definition historyS5 : list (RegistryStep (U := list string)) :=
  [DoRemove "A"; DoAdd (mkMiddleware "A" (tracing "A") 10);
   DoRemove "B"; DoAdd (mkMiddleware "B" (tracing "B") 5);
   DoRemove "C"; DoAdd (mkMiddleware "C" (tracing "C") 7)].

Lemma middleware_chain_snapshot_witness :
  sortedBy higherPriority
    (registryMiddlewares (runSteps (H := insertionSorter) historyS5 MakeAppRuntime)) /\
  Descending (registryMiddlewares (runSteps (H := insertionSorter) historyS5 MakeAppRuntime)).
Proof.
  apply (middleware_chain_snapshot (H := insertionSorter) historyS5 [] rootRequest tracingHandler).
  repeat constructor.
Defined.

(** A (10) and C (7), then B added at 20 and again at 5, against B added
    once at 5. *)
Definition registryAC : Store (U := list string) :=
  addTracing (H := insertionSorter) "C" 7 (addTracing (H := insertionSorter) "A" 10 emptyRuntime).

Lemma AddRawMiddleware_last_write_wins_witness :
  registryMiddlewares
    (AddRawMiddleware (H := insertionSorter) "B" (tracing "B") 5
       (AddRawMiddleware (H := insertionSorter) "B" (tracing "B") 20 registryAC))
  = registryMiddlewares (AddRawMiddleware (H := insertionSorter) "B" (tracing "B") 5 registryAC).
Proof.
  assert (Honce : registryMiddlewares
                    (AddRawMiddleware (H := insertionSorter) "B" (tracing "B") 5 registryAC)
                  = [mkMiddleware "A" (tracing "A") 10; mkMiddleware "C" (tracing "C") 7;
                     mkMiddleware "B" (tracing "B") 5])
    by (vm_compute; reflexivity).
  destruct (AddRawMiddleware_last_write_wins (H := insertionSorter) "B" (tracing "B")
              (tracing "B") 20 5 registryAC) as (_ & _ & _ & Hsorted).
  rewrite Honce in Hsorted.
  destruct Hsorted as (_ & _ & Hsame); [repeat constructor|].
  rewrite Honce. apply Hsame.
  intros x y Hx Hy Hxy Hyx.
  repeat (apply elem_of_cons in Hx as [->|Hx]); try (apply elem_of_nil in Hx; contradiction);
    repeat (apply elem_of_cons in Hy as [->|Hy]); try (apply elem_of_nil in Hy; contradiction);
    try reflexivity; vm_compute in Hxy, Hyx; discriminate.
Defined.

End runtime.


(** * More of [runtime.go]: the registry's invariants and the chain *)

Module runtime_facts.
Import runtime.

Section RegistryFacts.
Context {U : Type} `{SliceSorter}.

(** [SetRawHandler]. [dashutil.IsPathFragValid] is a function of the name
    alone. *)
Definition SetRawHandler (IsPathFragValid : string -> bool) (handlerName : string)
    (handlerFn : AppRequest -> Run (U := U) Reply) (st : Store) : error * Store :=
  if negb (IsPathFragValid handlerName) then (Some (Errorf "Invalid handler name"), st)
  else (None, setHandler handlerName (mkAppHandler handlerFn) st).

(** The calls of the registry's interface, each made to its end before the
    next. *)
Inductive RegistryCall : Type :=
| CallAdd (name : string) (mwFunc : MiddlewareFuncType (U := U)) (priority : float)
| CallRemove (name : string)
| CallSetHandler (path : string) (handler : appHandlerType (U := U)).

Definition applyCall (c : RegistryCall) (st : Store) : Store :=
  match c with
  | CallAdd name mwFunc priority => AddRawMiddleware name mwFunc priority st
  | CallRemove name => RemoveMiddleware name st
  | CallSetHandler path handler => setHandler path handler st
  end.

Definition applyCalls (cs : list RegistryCall) (st : Store) : Store :=
  foldl (fun st c => applyCall c st) st cs.

(** [LinkRuntimeImpl.RunHandler]. A [LinkRuntimeImpl] has the handlers and
    the middlewares of an [AppRuntimeImpl]; [requestType] and [path] are the
    [RequestType] and [Path] of [req.RequestInfo()], and [requestTypePath]
    is the constant of that name. *)
Definition LinkRuntimeImpl_RunHandler (requestTypePath requestType path : string)
    (req : AppRequest) (st : Store) : Run (U := U) Reply :=
  if bool_decide (requestType <> requestTypePath) then
    fun u => (Returned (None, Some (mkErr ErrCodeValidate "Invalid RequestType for linked runtime")), u)
  else if bool_decide (PathFrag req = "") then
    fun u => (Returned (None, Some (mkErr ErrCodeValidate "PathFrag cannot be empty for linked request")), u)
  else
    let mws := middlewares st.1 in
    match handlers st.1 !! PathFrag req with
    | None =>
        fun u => (Returned (None, Some (mkErr ErrCodeNoHandler
                                          ("No handler found for " +:+ path +:+ ":" +:+ PathFrag req))), u)
    | Some hval =>
        fun u =>
          match mwAppHelper req hval (elems st.2 mws) 0 u with
          | (Returned (_, Some err), u') => (Returned (None, Some err), u')
          | res => res
          end
    end.

(** [return nil, err] at the end of [RunHandler]. *)
Definition dropValueOnError (res : outcome Reply * U) : outcome Reply * U :=
  match res with
  | (Returned (_, Some err), u') => (Returned (None, Some err), u')
  | res => res
  end.

(** A middleware whose function never looks at the [nextFn] it is given. *)
Definition ignoresNext (mw : middlewareType (U := U)) : Prop :=
  forall req next1 next2, Fn mw req next1 = Fn mw req next2.

(** A middleware function that passes on another request than its own. *)
Definition rewriting (f : AppRequest -> AppRequest) : MiddlewareFuncType (U := U) :=
  fun req next => next (Some (f req)).

Lemma removeMiddleware_names (mws : list (middlewareType (U := U))) name :
  map Name (removeMiddleware mws name) = filter (fun n => n <> name) (map Name mws).
Proof.
  induction mws as [|mw rest IH]; simpl; [reflexivity|].
  rewrite filter_cons. case_bool_decide as Hn.
  - destruct (decide (Name mw <> name)); [contradiction|]. exact IH.
  - destruct (decide (Name mw <> name)); [|contradiction]. simpl. by rewrite IH.
Qed.

Lemma names_step_NoDup (s : RegistryStep (U := U)) (st : Store (U := U)) :
  match s with
  | DoRemove _ => True
  | DoAdd newmw => Name newmw ∉ map Name (registryMiddlewares st)
  end ->
  NoDup (map Name (registryMiddlewares st)) ->
  NoDup (map Name (registryMiddlewares (stepRegistry s st))).
Proof.
  intros Hfresh Hnd. rewrite registryMiddlewares_step. destruct s as [name|newmw].
  - rewrite removeMiddleware_names. by apply NoDup_filter.
  - rewrite (Permutation_map (@Name U) (addMiddlewares_perm _ _)), map_app. simpl.
    apply NoDup_app. split; [exact Hnd|]. split; [|apply NoDup_singleton].
    intros x Hx Hx'. apply list_elem_of_singleton in Hx'. by subst.
Qed.

Lemma applyCall_NoDup (c : RegistryCall) (st : Store (U := U)) :
  NoDup (map Name (registryMiddlewares st)) ->
  NoDup (map Name (registryMiddlewares (applyCall c st))).
Proof.
  intros Hnd. destruct c as [name mwFunc priority|name|path handler]; simpl.
  - unfold AddRawMiddleware. apply names_step_NoDup.
    + simpl. unfold RemoveMiddleware. rewrite registryMiddlewares_step, removeMiddleware_names.
      intros Hin. apply list_elem_of_filter in Hin as [Hne _]. by apply Hne.
    + by apply names_step_NoDup.
  - by apply names_step_NoDup.
  - exact Hnd.
Qed.

(** X1. Whatever calls of [AddRawMiddleware], [RemoveMiddleware] and
    [setHandler] built a registry from [MakeAppRuntime], no two of its
    middlewares share a name. *)
Theorem middleware_names_unique (cs : list RegistryCall) :
  NoDup (map Name (registryMiddlewares (applyCalls cs MakeAppRuntime))).
Proof.
  unfold applyCalls.
  assert (Hgen : forall st : Store (U := U), NoDup (map Name (registryMiddlewares st)) ->
            NoDup (map Name (registryMiddlewares (foldl (fun st c => applyCall c st) st cs)))).
  { induction cs as [|c cs IH]; intros st Hnd; simpl; [exact Hnd|].
    apply IH. by apply applyCall_NoDup. }
  apply Hgen. apply NoDup_nil_2.
Qed.

(** X2. [RemoveMiddleware] takes out every middleware of that name and
    nothing else: what is left is the other middlewares in the order they
    had, the handlers are untouched, a name that is not registered changes
    nothing, and a second removal changes nothing. *)
Theorem RemoveMiddleware_removes_name (name : string) (st : Store (U := U)) :
  let before := registryMiddlewares st in
  let after := registryMiddlewares (RemoveMiddleware name st) in
  after = filter (fun mw => Name mw <> name) before /\
  (name ∉ map Name after) /\
  (after `sublist_of` before) /\
  (name ∉ map Name before -> after = before) /\
  registryMiddlewares (RemoveMiddleware name (RemoveMiddleware name st)) = after /\
  handlers (RemoveMiddleware name st).1 = handlers st.1.
Proof.
  simpl. unfold RemoveMiddleware. rewrite !registryMiddlewares_step.
  rewrite removeMiddleware_idem, removeMiddleware_filter.
  split; [reflexivity|]. split.
  { rewrite <- removeMiddleware_filter, removeMiddleware_names.
    intros Hin. apply list_elem_of_filter in Hin as [Hne _]. by apply Hne. }
  split; [apply sublist_filter|]. split; [|split; [reflexivity|]].
  - intros Hnot. induction (registryMiddlewares st) as [|mw rest IH]; [reflexivity|].
    rewrite filter_cons. simpl in Hnot. apply not_elem_of_cons in Hnot as [Hne Hrest].
    destruct (decide (Name mw <> name)) as [_|Hn]; [by rewrite IH|].
    exfalso. apply Hn. congruence.
  - unfold stepRegistry, alloc. reflexivity.
Qed.

(** X3. A request with an empty path fragment, or for a path fragment
    with no handler, is answered with an error and a [nil] value, and no
    user code runs: the state of the handlers and middlewares is as it was,
    whatever middlewares are registered. *)
Theorem RunHandler_without_handler (req : AppRequest) (st : Store (U := U)) (u : U) :
  PathFrag req = "" \/ handlers st.1 !! PathFrag req = None ->
  RunHandler req st u =
    (Returned (None, Some (if bool_decide (PathFrag req = "")
                           then mkErr ErrCodeValidate "PathFrag cannot be empty for linked request"
                           else Errorf ("No handler found for " +:+ FullPath req))), u).
Proof.
  intros Hcase. unfold RunHandler. case_bool_decide as Hfrag; [reflexivity|].
  destruct Hcase as [Hempty|Hnone]; [contradiction|]. by rewrite Hnone.
Qed.

(** X4. A handler set with [SetRawHandler] under a valid name is the one a
    request for that path fragment reaches, behind the registered
    middlewares; the middlewares and the requests for other path fragments
    are not affected. An invalid name is refused and changes nothing. *)
Theorem SetRawHandler_then_RunHandler (IsPathFragValid : string -> bool) (name : string)
    (fn : AppRequest -> Run (U := U) Reply) (st : Store (U := U)) (req : AppRequest) (u : U) :
  PathFrag req = name -> name <> "" ->
  let res := SetRawHandler IsPathFragValid name fn st in
  if IsPathFragValid name then
    res.1 = None /\
    registryMiddlewares res.2 = registryMiddlewares st /\
    RunHandler req res.2 u
      = dropValueOnError (mwAppHelper req (mkAppHandler fn) (registryMiddlewares st) 0 u) /\
    (forall req2, PathFrag req2 <> name -> RunHandler req2 res.2 = RunHandler req2 st)
  else
    res = (Some (Errorf "Invalid handler name"), st).
Proof.
  intros Hfrag Hne. unfold SetRawHandler. destruct (IsPathFragValid name); simpl; [|reflexivity].
  split; [reflexivity|]. split; [reflexivity|]. split.
  - unfold RunHandler. rewrite Hfrag. rewrite bool_decide_eq_false_2 by exact Hne.
    simpl. rewrite lookup_insert_eq. unfold dropValueOnError, registryMiddlewares.
    destruct (mwAppHelper req _ _ 0 u) as [[[v [e|]]|msg] u']; reflexivity.
  - intros req2 Hother. unfold RunHandler. simpl.
    rewrite lookup_insert_ne by congruence. reflexivity.
Qed.

(** X5. A middleware that does not call [nextFn] ends the chain: the
    middlewares behind it and the handler have no part in the outcome. *)
Theorem middleware_short_circuit (pre rest rest' : list (middlewareType (U := U)))
    (mw : middlewareType) (hval hval' : appHandlerType) (req : AppRequest) :
  ignoresNext mw ->
  mwAppHelper req hval (pre ++ mw :: rest) 0 = mwAppHelper req hval' (pre ++ mw :: rest') 0.
Proof.
  intros Hign. unfold mwAppHelper. rewrite !drop_0. revert req.
  induction pre as [|p pre IH]; intros req; simpl.
  - apply Hign.
  - f_equal. apply functional_extensionality. intros [r|]; [apply IH|reflexivity].
Qed.

(** The request a middleware passes to [nextFn] is the one the rest of
    the chain sees: behind middlewares that each pass on a rewritten
    request, the handler is called with the request rewritten by all of
    them, first to last. *)
Theorem substituted_request_reaches_handler (fs : list (AppRequest -> AppRequest))
    (mws : list (middlewareType (U := U))) (hval : appHandlerType) (req : AppRequest) :
  Forall2 (fun f mw => Fn mw = rewriting f) fs mws ->
  mwAppHelper req hval mws 0 = HandlerFn hval (foldl (fun r f => f r) req fs).
Proof.
  unfold mwAppHelper. rewrite drop_0. intros Hall. revert req.
  induction Hall as [|f mw fs mws Hmw Hrest IH]; intros req; simpl; [reflexivity|].
  rewrite Hmw. unfold rewriting at 1. apply IH.
Qed.

(** [RunHandler] never returns a value together with an error. *)
Theorem RunHandler_error_has_no_value (req : AppRequest) (st : Store (U := U)) (u u' : U)
    (v : option string) (err : GoError) :
  RunHandler req st u = (Returned (v, Some err), u') -> v = None.
Proof.
  unfold RunHandler. case_bool_decide; [intros [= <- _ _]; reflexivity|].
  destruct (handlers st.1 !! PathFrag req) as [hval|]; [|intros [= <- _ _]; reflexivity].
  destruct (mwAppHelper req hval (elems st.2 (middlewares st.1)) 0 u) as [[[v0 [e0|]]|msg] u0];
    intros [= <- _ _] || intros [=]; reflexivity.
Qed.

(** A linked runtime refuses a request that is not of type path before
    it looks at anything else; for a path request it answers as the app
    runtime does, except that a missing handler is reported with the error
    code [NoHandler]. *)
Theorem LinkRuntimeImpl_RunHandler_cases (requestTypePath requestType path : string)
    (req : AppRequest) (st : Store (U := U)) (u : U) :
  let res := LinkRuntimeImpl_RunHandler requestTypePath requestType path req st u in
  (requestType <> requestTypePath ->
     res = (Returned (None, Some (mkErr ErrCodeValidate "Invalid RequestType for linked runtime")), u)) /\
  (requestType = requestTypePath ->
     PathFrag req = "" \/ is_Some (handlers st.1 !! PathFrag req) ->
     res = RunHandler req st u) /\
  (requestType = requestTypePath ->
     PathFrag req <> "" -> handlers st.1 !! PathFrag req = None ->
     res = (Returned (None, Some (mkErr ErrCodeNoHandler
                                    ("No handler found for " +:+ path +:+ ":" +:+ PathFrag req))), u)).
Proof.
  simpl. unfold LinkRuntimeImpl_RunHandler, RunHandler. split; [|split].
  - intros Hty. by rewrite bool_decide_eq_true_2.
  - intros Hty Hcase. rewrite bool_decide_eq_false_2 by (intros Hn; by apply Hn).
    case_bool_decide; [reflexivity|].
    destruct Hcase as [Hempty|[hval Hsome]]; [contradiction|]. by rewrite Hsome.
  - intros Hty Hfrag Hnone. rewrite bool_decide_eq_false_2 by (intros Hn; by apply Hn).
    rewrite bool_decide_eq_false_2 by exact Hfrag. by rewrite Hnone.
Qed.

End RegistryFacts.

(** *** The facts at work *)

(** A middleware that refuses every request, and a handler that fails. *)
Definition denying : MiddlewareFuncType (U := list string) :=
  fun req next u => (Returned (None, Some (mkErr ErrCodeValidate "denied")), u ++ ["deny"]).

Definition failingHandler : appHandlerType (U := list string) :=
  mkAppHandler (fun req u => (Returned (Some "partial", Some (Errorf "boom")), u ++ ["handler"])).

Definition toHtml (req : AppRequest) : AppRequest := mkAppRequest "@html" (FullPath req).

Definition nonEmpty (s : string) : bool := negb (bool_decide (s = "")).

Lemma RunHandler_without_handler_witness :
  RunHandler (mkAppRequest "missing" "/@app/a:missing")
             (addTracing (H := insertionSorter) "A" 10 emptyRuntime) []
  = (Returned (None, Some (Errorf "No handler found for /@app/a:missing")), []).
Proof.
  apply (RunHandler_without_handler (mkAppRequest "missing" "/@app/a:missing")
           (addTracing (H := insertionSorter) "A" 10 emptyRuntime) []).
  right. reflexivity.
Defined.

Lemma SetRawHandler_then_RunHandler_witness :
  (RunHandler (mkAppRequest "save" "/@app/a:save")
     (SetRawHandler nonEmpty "save" (HandlerFn tracingHandler) registryAC).2 []).2
  = ["A"; "C"; "handler"].
Proof.
  destruct (SetRawHandler_then_RunHandler nonEmpty "save" (HandlerFn tracingHandler) registryAC
              (mkAppRequest "save" "/@app/a:save") []) as (_ & _ & Hrun & _);
    [reflexivity|discriminate|].
  rewrite Hrun. vm_compute. reflexivity.
Defined.

Lemma middleware_short_circuit_witness :
  mwAppHelper rootRequest tracingHandler
    ([mkMiddleware "A" (tracing "A") 10] ++ mkMiddleware "deny" denying 5
       :: [mkMiddleware "B" (tracing "B") 1]) 0
  = mwAppHelper rootRequest failingHandler
      ([mkMiddleware "A" (tracing "A") 10] ++ mkMiddleware "deny" denying 5 :: []) 0.
Proof.
  apply (middleware_short_circuit [mkMiddleware "A" (tracing "A") 10]).
  intros req next1 next2. reflexivity.
Defined.

Lemma substituted_request_reaches_handler_witness :
  mwAppHelper rootRequest tracingHandler [mkMiddleware "html" (rewriting toHtml) 1] 0
  = HandlerFn tracingHandler (foldl (fun r f => f r) rootRequest [toHtml]).
Proof.
  apply (substituted_request_reaches_handler [toHtml]).
  repeat constructor.
Defined.

Lemma RunHandler_error_has_no_value_witness :
  RunHandler rootRequest (setHandler "@default" failingHandler MakeAppRuntime) []
    = (Returned (None, Some (Errorf "boom")), ["handler"]) /\
  (None : option string) = None.
Proof.
  split; [reflexivity|].
  apply (RunHandler_error_has_no_value rootRequest
           (setHandler "@default" failingHandler MakeAppRuntime) [] ["handler"] None (Errorf "boom")).
  reflexivity.
Defined.

Lemma LinkRuntimeImpl_RunHandler_cases_witness :
  LinkRuntimeImpl_RunHandler "path" "data" "/mylink" rootRequest emptyRuntime []
  = (Returned (None, Some (mkErr ErrCodeValidate "Invalid RequestType for linked runtime")), []).
Proof.
  apply (LinkRuntimeImpl_RunHandler_cases "path" "data" "/mylink" rootRequest emptyRuntime []).
  discriminate.
Defined.

(** Middlewares that each pass their request on are called in the
    order of the slice, each once, and the handler after the last of them
    with the request as it came in. *)
Theorem passthrough_chain_order (mws : list (middlewareType (U := list string)))
    (hval : appHandlerType) (req : AppRequest) (u : list string) :
  Forall (fun mw => Fn mw = tracing (Name mw)) mws ->
  mwAppHelper req hval mws 0 u = HandlerFn hval req (u ++ map Name mws).
Proof.
  unfold mwAppHelper. rewrite drop_0. intros Hall. revert u.
  induction Hall as [|mw rest Hmw Hrest IH]; intros u; simpl.
  - by rewrite app_nil_r.
  - rewrite Hmw. unfold tracing at 1. rewrite IH, <- app_assoc. reflexivity.
Qed.

Lemma passthrough_chain_order_witness :
  mwAppHelper rootRequest failingHandler
    [mkMiddleware "A" (tracing "A") 10; mkMiddleware "C" (tracing "C") 7] 0 []
  = (Returned (Some "partial", Some (Errorf "boom")), ["A"; "C"; "handler"]).
Proof.
  apply (passthrough_chain_order
           [mkMiddleware "A" (tracing "A") 10; mkMiddleware "C" (tracing "C") 7]
           failingHandler rootRequest []).
  repeat constructor.
Defined.

End runtime_facts.


(** * More of [dash.go]: what the calls on a request do to it *)

Module dash_facts.
Import dash.

Section RequestFacts.
Context `{Externals}.

(** [os.Open] followed by [ioutil.ReadAll], as the file system answers
    them for a file name. *)
Variable openFile : string -> dashcloud.Reader + GoError.

Definition SetHtmlFromFile (fileName : string) : M error :=
  match openFile fileName with
  | inr err => ret (Some err)
  | inl fd =>
      match dashcloud.ReadAll fd with
      | inr err => ret (Some err)
      | inl htmlBytes =>
          bind dashutil_Ts (fun ts =>
          bind (appendRR (mkRRAction ts "html" "" "" "" (String.string_of_list_byte htmlBytes))) (fun _ =>
          ret None))
      end
  end.

(** The calls a handler can make on its request before [Done]. *)
Inductive RequestCall : Type :=
| CallSetData (path : string) (data : Value)
| CallSetHtml (html : string)
| CallSetHtmlFromFile (fileName : string)
| CallInvalidateData (path : string)
| CallSendEvent (selector eventType : string) (data : Value)
| CallNoAuth
| CallPasswordAuth (pw : string)
| CallDashborgAuth.

Definition forget {A} (c : M A) : M unit := bind c (fun _ => ret tt).

Definition runCall (c : RequestCall) : M unit :=
  match c with
  | CallSetData path data => forget (SetData path data)
  | CallSetHtml html => forget (SetHtml html)
  | CallSetHtmlFromFile fileName => forget (SetHtmlFromFile fileName)
  | CallInvalidateData path => forget (InvalidateData path)
  | CallSendEvent selector eventType data => forget (sendEvent selector eventType data)
  | CallNoAuth => NoAuth
  | CallPasswordAuth pw => forget (PasswordAuth pw)
  | CallDashborgAuth => forget DashborgAuth
  end.

Fixpoint runCalls (cs : list RequestCall) : M unit :=
  match cs with
  | [] => ret tt
  | c :: cs' => bind (runCall c) (fun _ => runCalls cs')
  end.

(** What a call may change of a request and the world: it may append
    actions, at most [n] of them, set [AuthImpl] and read the clock. *)
Definition onlyAppends (n : nat) (req : PanelRequest) (w : World) (req' : PanelRequest)
    (w' : World) : Prop :=
  (exists added, RRActions req' = RRActions req ++ added /\ (length added <= n)%nat) /\
  IsDone req' = IsDone req /\
  (AuthImpl req = true -> AuthImpl req' = true) /\
  (PanelName req', ReqId req', RequestType req', FeClientId req', Path req', Data req',
   AuthData req', Err req')
  = (PanelName req, ReqId req, RequestType req, FeClientId req, Path req, Data req,
     AuthData req, Err req) /\
  wire w' = wire w /\ clock w' = clock w /\ (ticks w <= ticks w')%nat.

Lemma onlyAppends_refl (req : PanelRequest) (w : World) : onlyAppends 0 req w req w.
Proof.
  repeat split; auto. exists []. by rewrite app_nil_r.
Qed.

Lemma onlyAppends_trans n m req w req1 w1 req2 w2 :
  onlyAppends n req w req1 w1 -> onlyAppends m req1 w1 req2 w2 ->
  onlyAppends (n + m) req w req2 w2.
Proof.
  intros ((a1 & Ha1 & Hl1) & Hd1 & Hi1 & Hf1 & Hw1 & Hc1 & Ht1)
         ((a2 & Ha2 & Hl2) & Hd2 & Hi2 & Hf2 & Hw2 & Hc2 & Ht2).
  repeat split; try congruence; try lia; auto.
  exists (a1 ++ a2). rewrite Ha2, Ha1, <- app_assoc, length_app. split; [reflexivity|lia].
Qed.

Lemma onlyAppends_weaken n m req w req' w' :
  (n <= m)%nat -> onlyAppends n req w req' w' -> onlyAppends m req w req' w'.
Proof.
  intros Hnm ((a & Ha & Hl) & Hrest). split; [|exact Hrest]. exists a. split; [exact Ha|lia].
Qed.

Lemma onlyAppends_same (req : PanelRequest) (w w' : World) :
  wire w' = wire w -> clock w' = clock w -> (ticks w <= ticks w')%nat ->
  forall b : bool, onlyAppends 0 req w (if b then setAuthImpl true req else req) w'.
Proof.
  intros Hw Hc Ht b. destruct b; repeat split; auto; exists []; by rewrite app_nil_r.
Qed.

Lemma onlyAppends_one (req : PanelRequest) (w : World) (a : RRAction) (w' : World) (b : bool) :
  wire w' = wire w -> clock w' = clock w -> (ticks w <= ticks w')%nat ->
  onlyAppends 1 req w
    (setRRActions (RRActions req ++ [a]) (if b then setAuthImpl true req else req)) w'.
Proof.
  intros Hw Hc Ht. destruct b; repeat split; auto; exists [a]; split; simpl; auto.
Qed.

Lemma runCall_onlyAppends (c : RequestCall) (req : PanelRequest) (w : World) :
  onlyAppends 1 req w (runCall c req w).1.2 (runCall c req w).2.
Proof.
  pose proof (onlyAppends_weaken 0 1 req w req w (Nat.le_0_l 1) (onlyAppends_refl req w)) as Hsame.
  destruct c as [path data|html|fileName|path|selector eventType data| |pw| ]; simpl;
    unfold forget, SetData, SetHtml, SetHtmlFromFile, InvalidateData, sendEvent, NoAuth,
      PasswordAuth, DashborgAuth, appendPanelAuthRRAction, appendPanelAuthChallenge,
      bind, getReq, ret, dashutil_Ts, appendRR; simpl.
  - destruct (IsDone req); [exact Hsame|]. destruct (marshalJson data); [|exact Hsame].
    simpl. apply (onlyAppends_one req w _ _ false); simpl; auto.
  - apply (onlyAppends_one req w _ _ false); simpl; auto.
  - destruct (openFile fileName) as [fd|err]; [|exact Hsame].
    destruct (dashcloud.ReadAll fd); [|exact Hsame].
    simpl. apply (onlyAppends_one req w _ _ false); simpl; auto.
  - destruct (IsDone req); [exact Hsame|]. simpl. apply (onlyAppends_one req w _ _ false); simpl; auto.
  - destruct (IsDone req); [exact Hsame|]. destruct (marshalJson data); [|exact Hsame].
    simpl. apply (onlyAppends_one req w _ _ false); simpl; auto.
  - replace (isAuthenticated (setAuthImpl true req)) with (isAuthenticated req) by reflexivity.
    destruct (isAuthenticated req); simpl.
    + apply (onlyAppends_weaken 0 1); [lia|]. apply (onlyAppends_same req w w eq_refl eq_refl (le_n _) true).
    + apply (onlyAppends_one req w _ _ true); simpl; auto.
  - replace (isAuthenticated (setAuthImpl true req)) with (isAuthenticated req) by reflexivity.
    destruct (isAuthenticated req); simpl.
    + apply (onlyAppends_weaken 0 1); [lia|]. apply (onlyAppends_same req w w eq_refl eq_refl (le_n _) true).
    + replace (challengeDataOf (setAuthImpl true req)) with (challengeDataOf req) by reflexivity.
      destruct (challengeDataOf req) as [decoded cd].
      destruct (decoded && bool_decide (default "" (cd !! "password") = pw)); simpl;
        apply (onlyAppends_one req w _ _ true); simpl; auto.
  - replace (isAuthenticated (setAuthImpl true req)) with (isAuthenticated req) by reflexivity.
    destruct (isAuthenticated req); simpl.
    + apply (onlyAppends_weaken 0 1); [lia|]. apply (onlyAppends_same req w w eq_refl eq_refl (le_n _) true).
    + apply (onlyAppends_one req w _ _ true); simpl; auto.
Qed.

(** X6. Whatever a handler calls on its request before [Done], the
    actions accumulated so far stay where they are, in their order: every
    call adds at most one action at the end, sends nothing, and leaves
    [IsDone] and the identity of the request alone. *)
Theorem calls_only_append (cs : list RequestCall) (req : PanelRequest) (w : World) :
  onlyAppends (length cs) req w (runCalls cs req w).1.2 (runCalls cs req w).2.
Proof.
  revert req w. induction cs as [|c cs IH]; intros req w; simpl.
  - apply onlyAppends_refl.
  - unfold bind. pose proof (runCall_onlyAppends c req w) as Hc.
    destruct (runCall c req w) as [[[] req1] w1]. simpl in Hc.
    apply (onlyAppends_trans 1 (length cs) req w req1 w1); [exact Hc|apply IH].
Qed.

(** Data that cannot be encoded as JSON is refused by [SetData] and
    [sendEvent] with an error, and refused whole: no action is appended and
    the clock is not read. *)
Theorem unencodable_data_appends_nothing (path selector eventType : string) (data : Value)
    (err : GoError) (req : PanelRequest) (w : World) :
  marshalJson data = inr err ->
  (exists e, SetData path data req w = (Some e, req, w)) /\
  (exists e, sendEvent selector eventType data req w = (Some e, req, w)).
Proof.
  intros Hm. unfold SetData, sendEvent, bind, getReq, ret. rewrite Hm.
  destruct (IsDone req); split; eexists; reflexivity.
Qed.

(** The error text [PasswordAuth] puts in its challenge. *)
Lemma challenge_error_text (cd : gmap string string) (chErr : string) :
  chErr = (if bool_decide (default "" (cd !! "submitted") = "1")
           then if bool_decide (default "" (cd !! "password") = "")
                then "Password cannot be blank" else "Invalid password"
           else "") ->
  (chErr <> "" <-> default "" (cd !! "submitted") = "1") /\
  (default "" (cd !! "submitted") = "1" ->
     chErr = if bool_decide (default "" (cd !! "password") = "")
             then "Password cannot be blank" else "Invalid password").
Proof.
  intros ->. destruct (decide (default "" (cd !! "submitted") = "1")) as [Hsub|Hsub].
  - rewrite (bool_decide_eq_true_2 _ Hsub). split; [|intros _; reflexivity].
    split; [intros _; exact Hsub|]. intros _.
    destruct (bool_decide (default "" (cd !! "password") = "")); discriminate.
  - rewrite (bool_decide_eq_false_2 _ Hsub).
    split; [split; [contradiction|intros; contradiction]|intros; contradiction].
Qed.

(** X7. [PasswordAuth] lets a request through exactly when it arrives
    authenticated or its challenge data decodes without error and holds the
    password. It returns an error exactly when it does not let it through,
    and it always marks the request as having an auth method. An
    authenticated request gets no action; any other gets exactly one, a
    [panelauth] atom of type [password] when let through and a
    [panelauthchallenge] that allows challenge and dashborg auth when not.
    The error text of the challenge is read from the map the decoding left
    behind, whether or not the decoding failed: it is non-empty exactly when
    that map has [submitted] at "1", and then says that the password is
    blank or that it is invalid. *)
Theorem PasswordAuth_grants_iff (pw : string) (req : PanelRequest) (w : World) :
  let res := PasswordAuth pw req w in
  let ok := res.1.1.1 in
  let req' := res.1.2 in
  let cd := (decodeChallengeData (Data req)).1 in
  let decodeErr := (decodeChallengeData (Data req)).2 in
  (ok = true <->
     isAuthenticated req = true \/
     (decodeErr = None /\ default "" (cd !! "password") = pw)) /\
  (res.1.1.2 = None <-> ok = true) /\
  AuthImpl req' = true /\
  (isAuthenticated req = true -> RRActions req' = RRActions req /\ res.2 = w) /\
  (isAuthenticated req = false ->
     exists a, RRActions req' = RRActions req ++ [a] /\
       if ok then
         ActionType a = "panelauth" /\
         JsonData a = jsonMarshalAuthAtom
                        (mkAuthAtom "" "password" true (wrap64 (tsAt w 0 + 24 * 60 * 60 * 1000))
                           "" "user" None)
       else
         ActionType a = "panelauthchallenge" /\
         exists ch, JsonData a = jsonMarshalChallenge ch /\
           AllowedAuth ch = "challenge,dashborg" /\
           ChallengeFields ch = [mkChallengeField "Panel Password" "password" "password"] /\
           (ChallengeError ch <> "" <-> default "" (cd !! "submitted") = "1") /\
           (default "" (cd !! "submitted") = "1" ->
              ChallengeError ch
              = if bool_decide (default "" (cd !! "password") = "")
                then "Password cannot be blank" else "Invalid password")).
Proof.
  simpl. unfold PasswordAuth, bind, getReq, ret. simpl.
  replace (isAuthenticated (setAuthImpl true req)) with (isAuthenticated req) by reflexivity.
  replace (challengeDataOf (setAuthImpl true req)) with (challengeDataOf req) by reflexivity.
  destruct (isAuthenticated req) eqn:Hauth; simpl.
  { repeat split; auto; discriminate. }
  unfold challengeDataOf.
  destruct (decodeChallengeData (Data req)) as [cd [e|]] eqn:Hdec; simpl.
  - split.
    { split; [discriminate|]. intros [Hc|[Hc _]]; discriminate. }
    split; [split; discriminate|]. split; [reflexivity|]. split; [discriminate|].
    intros _. eexists. split; [reflexivity|]. simpl. split; [reflexivity|].
    eexists. split; [reflexivity|]. simpl. split; [reflexivity|]. split; [reflexivity|].
    apply challenge_error_text. reflexivity.
  - destruct (decide (default "" (cd !! "password") = pw)) as [Hpw|Hpw];
      [rewrite (bool_decide_eq_true_2 _ Hpw)|rewrite (bool_decide_eq_false_2 _ Hpw)]; simpl.
    + unfold appendPanelAuthRRAction, bind, dashutil_Ts, appendRR. simpl.
      split; [split; [intros _; right; split; [reflexivity|exact Hpw]|reflexivity]|].
      split; [split; reflexivity|]. split; [reflexivity|]. split; [discriminate|].
      intros _. eexists. split; [reflexivity|]. simpl. rewrite tsAt_0. split; reflexivity.
    + split.
      { split; [discriminate|]. intros [Hc|[_ Hc]]; [discriminate|contradiction]. }
      split; [split; discriminate|]. split; [reflexivity|]. split; [discriminate|].
      intros _. eexists. split; [reflexivity|]. simpl. split; [reflexivity|].
      eexists. split; [reflexivity|]. simpl. split; [reflexivity|]. split; [reflexivity|].
      apply challenge_error_text. reflexivity.
Qed.

(** [DashborgAuth] lets a request through exactly when it arrives
    authenticated, and returns an error exactly when it does not. It always
    marks the request as having an auth method; a request it refuses gets
    exactly one action, a [panelauthchallenge] that allows dashborg auth. *)
Theorem DashborgAuth_grants_iff (req : PanelRequest) (w : World) :
  let res := DashborgAuth req w in
  res.1.1.1 = isAuthenticated req /\
  (res.1.1.2 = None <-> isAuthenticated req = true) /\
  AuthImpl res.1.2 = true /\
  RRActions res.1.2
  = (if isAuthenticated req then RRActions req
     else RRActions req ++ [mkRRAction (tsAt w 0) "panelauthchallenge" "" ""
                              (jsonMarshalChallenge (mkAuthChallenge "dashborg" "" "" [])) ""]) /\
  wire res.2 = wire w.
Proof.
  simpl. unfold DashborgAuth, bind, getReq, ret. simpl.
  replace (isAuthenticated (setAuthImpl true req)) with (isAuthenticated req) by reflexivity.
  destruct (isAuthenticated req) eqn:Hauth; simpl.
  - repeat split; auto.
  - rewrite tsAt_0. repeat split; auto; discriminate.
Qed.

End RequestFacts.

(** *** The facts at work *)

(** Handler values that are either a challenge form or something JSON
    cannot encode and [mapstructure] cannot decode (a channel, say). *)
Definition formExternals : Externals := {|
  Value := option (gmap string string);
  marshalJson := fun v =>
    match v with
    | Some _ => inl "{}"
    | None => inr (Errorf "json: unsupported type: chan int")
    end;
  jsonMarshalAuthAtom := demoAtomJson;
  jsonMarshalChallenge := fun ch => "{" +:+ jsonField "allowedauth" (jsonString (AllowedAuth ch)) +:+ "}";
  decodeChallengeData := fun v =>
    match v with
    | Some cd => (cd, None)
    | None => (∅, Some (Errorf "'ChallengeData' expected a map, got 'chan'"))
    end;
  replySendResponse := fun _ => None
|}.

Definition formRequest (data : option (gmap string string)) : PanelRequest (H := formExternals) :=
  mkPanelRequest (H := formExternals) "a" "r1" "handler" "fe1" "/" data [] [] None false false.

Lemma unencodable_data_appends_nothing_witness :
  (exists e, SetData (H := formExternals) "$.x" None (formRequest None) demoWorld
             = (Some e, formRequest None, demoWorld)) /\
  (exists e, sendEvent (H := formExternals) "#b" "click" None (formRequest None) demoWorld
             = (Some e, formRequest None, demoWorld)).
Proof.
  apply (unencodable_data_appends_nothing (H := formExternals) "$.x" "#b" "click" None
           (Errorf "json: unsupported type: chan int") (formRequest None) demoWorld).
  reflexivity.
Defined.

Lemma guarded_appends_refused_witness :
  (exists e, SetData (H := demoExternals) "$.x" "42" (demoRequest [] [setdataX] true) demoWorld
             = (Some e, demoRequest [] [setdataX] true, demoWorld)) /\
  (exists e, InvalidateData "$.x" (demoRequest [] [setdataX] true) demoWorld
             = (Some e, demoRequest [] [setdataX] true, demoWorld)) /\
  (exists e, sendEvent (H := demoExternals) "#b" "click" "42" (demoRequest [] [setdataX] true) demoWorld
             = (Some e, demoRequest [] [setdataX] true, demoWorld)) /\
  (exists e, flush (demoRequest [] [setdataX] true) demoWorld
             = (Some e, demoRequest [] [setdataX] true, demoWorld)).
Proof.
  apply (guarded_appends_refused (H := demoExternals) (demoRequest [] [setdataX] true) demoWorld
           "$.x" "42" "#b" "click").
  reflexivity.
Defined.

(** A password check against the empty password lets through every request
    whose data decodes and holds no password. *)
Example PasswordAuth_empty_password :
  (PasswordAuth (H := formExternals) "" (formRequest (Some ∅)) demoWorld).1.1 = (true, None) /\
  (PasswordAuth (H := formExternals) "secret"
     (formRequest (Some {[ "password" := "guess"; "submitted" := "1" ]})) demoWorld).1.1.1 = false.
Proof. split; vm_compute; reflexivity. Qed.

(** Handler data as [mapstructure] meets a form: the entries that are
    strings, and whether some other entry is not a string; such an entry
    makes the decoding return an error after the string entries are set. *)
Definition looseFormExternals : Externals := {|
  Value := gmap string string * bool;
  marshalJson := fun _ => inl "{}";
  jsonMarshalAuthAtom := demoAtomJson;
  jsonMarshalChallenge := fun ch =>
    "{" +:+ jsonField "challengeerror" (jsonString (ChallengeError ch)) +:+ "}";
  decodeChallengeData := fun v =>
    (v.1, if v.2 then Some (Errorf "1 error(s) decoding") else None);
  replySendResponse := fun _ => None
|}.

(** A submitted form that holds the right password beside an entry that is
    not a string is refused, and its challenge says that the password is
    invalid. *)
Example PasswordAuth_failed_decode :
  let req := mkPanelRequest (H := looseFormExternals) "a" "r1" "handler" "fe1" "/"
               ({[ "password" := "secret"; "submitted" := "1" ]}, true) [] [] None false false in
  let res := PasswordAuth (H := looseFormExternals) "secret" req demoWorld in
  res.1.1.1 = false /\
  map JsonData (RRActions res.1.2)
  = ["{" +:+ jsonField "challengeerror" (jsonString "Invalid password") +:+ "}"].
Proof. vm_compute. split; reflexivity. Qed.

End dash_facts.


(** * More of [dbclient.go]: the guard, the connection and the request stream *)

Module dashcloud_facts.
Import dashcloud.

(** The [dashborg-connid] metadata a call went out with. *)
Definition callConnId (c : RpcCall) : string :=
  match c with
  | CallConnectClient connId => connId
  | CallRequestStream connId => connId
  | CallSendResponse connId _ => connId
  | CallSetBlob connId => connId
  | CallRemoveApp connId _ => connId
  | CallBackendPush connId _ _ => connId
  | CallStartStream connId _ => connId
  end.

Definition withClient (c : DashCloudClient) (w : World) : World :=
  mkWorld c (nowMs w) (rpcs w) (dispatched w).

(** [pc.ConnId.Store(connId)]. *)
Definition storeConnId (connId : string) (c : DashCloudClient) : DashCloudClient :=
  mkClient (ConfigSet c) (ConnSet c) connId (AppMap c) (DoneChClosed c) (PermErr c)
           (ExitErr c) (AccInfo c).

Definition setPermErr (b : bool) (c : DashCloudClient) : DashCloudClient :=
  mkClient (ConfigSet c) (ConnSet c) (ConnId c) (AppMap c) (DoneChClosed c) b
           (ExitErr c) (AccInfo c).

Definition setAccInfo (acc : option AccInfoT) (c : DashCloudClient) : DashCloudClient :=
  mkClient (ConfigSet c) (ConnSet c) (ConnId c) (AppMap c) (DoneChClosed c) (PermErr c)
           (ExitErr c) acc.

Definition setAppMap (apps : gmap string AppStruct) (c : DashCloudClient) : DashCloudClient :=
  mkClient (ConfigSet c) (ConnSet c) (ConnId c) apps (DoneChClosed c) (PermErr c)
           (ExitErr c) (AccInfo c).

(** A client as [startClient] leaves it for the code below: with its
    configuration and its gRPC connection. The methods of this section read
    both without a check, and are modelled on such clients. *)
Definition initialised (c : DashCloudClient) : Prop :=
  ConfigSet c = true /\ ConnSet c = true.

(** [externalShutdown], run when [ShutdownCh] is closed. What [Conn.Close]
    does shows in the connectivity state the stream loop reads. *)
Definition externalShutdown (c : DashCloudClient) : DashCloudClient :=
  if negb (ConnSet c) then c
  else setExitError (Some (Errorf "ShutdownCh channel closed")) c.

(** *** Connecting *)

(** The [ConnectClientResponse], with the fields the client reads. *)
Record ConnectClientResponse : Type := mkConnectClientResponse {
  respConnId : string;
  respAccInfo : option AccInfoT;
  ReconnectErrs : list string
}.

(** How a request stream goes: the frames [Recv] returns, and what it ends
    with, [io.EOF] or another error. *)
Inductive RecvEnd : Type :=
| RecvEOF
| RecvErr (err : GoError).

Record RequestStreamClient : Type := mkRequestStreamClient {
  frames : list RequestMessage;
  recvEnd : RecvEnd
}.

(** [connectivity.State]. *)
Inductive ConnectivityState : Type :=
| Idle
| Connecting
| Ready
| TransientFailure
| Shutdown.

(** The [WriteAppMessage]. *)
Record WriteAppMessage : Type := mkWriteAppMessage {
  waTs : Z;
  waAppName : string;
  AppConfigJson : string;
  waConnectApp : bool
}.

(** The fields of [pc.Config] that the app links are made from. *)
Record Config : Type := mkConfig {
  AccId : string;
  ZoneName : string;
  Env : string;
  NoShowJWT : bool;
  JWTDuration : Z;
  JWTUserId : string;
  JWTRole : string
}.

(** The further collaborators of the connection: the server's answers to
    [ConnectClient] and [RequestStream], which may depend on the calls made
    so far, and to [WriteApp]; [dasherr.CanRetry], [dasherr.GetErrCode] and
    [dasherr.JsonMarshalErr]; [dashutil.MarshalJson] on an app
    configuration and [dashutil.MakeAppPath]; [Config.MakeAccountJWT]; and
    [dashutil.ExpoWait] with its [Wait], its [Reset] and the setting of its
    [ForceWait]. *)
Class Connection : Type := {
  connCollaborators : Collaborators;
  replyConnectClient : list RpcCall -> list string -> RpcReply ConnectClientResponse;
  openRequestStream : list RpcCall -> RequestStreamClient + GoError;
  replyWriteApp : string -> WriteAppMessage -> RpcReply unit;
  CanRetry : GoError -> bool;
  GetErrCode : GoError -> ErrCode;
  JsonMarshalErr : string -> GoError -> GoError;
  MarshalJsonAppConfig : AppConfig -> string + GoError;
  MakeAppPath : string -> string -> string;
  MakeAccountJWT : Config -> Z -> string -> string -> string + GoError;
  ExpoWait : Type;
  zeroExpoWait : ExpoWait;
  Wait : ExpoWait -> bool * ExpoWait;
  Reset : ExpoWait -> ExpoWait;
  setForceWait : ExpoWait -> ExpoWait
}.
#[local] Existing Instance connCollaborators.

Section ConnectionManager.
Context `{Connection}.

(** The names of the connected apps, sent as [ReconnectAppRuntimes]; apps
    are stored under their names. *)
Definition reconnectApps (c : DashCloudClient) : list string :=
  (map_to_list (AppMap c)).*1.

Definition sendConnectClientMessage (isReconnect : bool) (w : World) : outcome error * World :=
  let reconApps := reconnectApps (pc w) in
  let reply := replyConnectClient (rpcs w) reconApps in
  let w1 := logRpc (CallConnectClient (ConnId (pc w))) w in
  match handleStatusErrors "ConnectClient" reply with
  | Some dashErr =>
      let c1 := storeConnId "" (pc w1) in
      let c2 := if negb (CanRetry dashErr) then setPermErr true c1 else c1 in
      (Returned (Some dashErr), withClient c2 w1)
  | None =>
      match reply with
      | RpcFailed _ => (Panicked "invalid memory address or nil pointer dereference", w1)
      | RpcReplied _ resp =>
          let c1 := setAccInfo (respAccInfo resp) (storeConnId (respConnId resp) (pc w1)) in
          let w2 := withClient c1 w1 in
          if negb isReconnect && negb (bool_decide (is_Some (respAccInfo resp))) then
            (Panicked "invalid memory address or nil pointer dereference", w2)
          else (Returned None, w2)
      end
  end.

(** *** The request stream *)

(** The error a frame's status stands for, if any. *)
Definition frameError (reqMsg : RequestMessage) : error :=
  match Status reqMsg with
  | Some st => FromRtnStatus "RequestStream" (Some st)
  | None => None
  end.

(** The receive loop of [runRequestStream]: the requests it starts a
    goroutine for, in the order it starts them, and the code it ends with. *)
Fixpoint recvLoop (frs : list RequestMessage) (e : RecvEnd) : list RequestMessage * ErrCode :=
  match frs with
  | [] =>
      ([], match e with
           | RecvEOF => ErrCodeEof
           | RecvErr _ => ErrCodeRpc
           end)
  | reqMsg :: rest =>
      match frameError reqMsg with
      | Some dashErr => ([], GetErrCode dashErr)
      | None => let '(started, code) := recvLoop rest e in (reqMsg :: started, code)
      end
  end.

(** [runRequestStream] on a stream that ends; [ranLong] is the outcome of
    [elapsed >= 5*time.Second]. Besides its two results it gives the
    requests it started goroutines for. *)
Definition runRequestStream (ranLong : bool) (w : World)
  : (bool * ErrCode) * list RequestMessage * World :=
  let w1 := logRpc (CallRequestStream (ConnId (pc w))) w in
  match openRequestStream (rpcs w) with
  | inr err => ((false, ErrCodeRpc), [], w1)
  | inl stream =>
      let '(started, code) := recvLoop (frames stream) (recvEnd stream) in
      ((ranLong, code), started, w1)
  end.

(** The goroutines of started requests, run one after the other. *)
Definition runGoroutines (reqs : list RequestMessage) (w : World) : World :=
  foldl (fun w reqMsg => requestGoroutine reqMsg w) w reqs.

(** *** The stream loop *)

Record LoopState : Type := mkLoopState {
  world : World;
  waiter : ExpoWait;
  started : list RequestMessage
}.

Inductive LoopStep : Type :=
| LoopContinue
| LoopBreak
| LoopPanic (msg : string).

(** One turn of the [for] of [runRequestStreamLoop]; [state] is what
    [pc.Conn.GetState()] returns in it. *)
Definition loopIteration (state : ConnectivityState) (ranLong : bool) (s : LoopState)
  : LoopStep * LoopState :=
  match state with
  | Shutdown =>
      (LoopBreak,
       mkLoopState (withClient (setExitError (Some (Errorf "gRPC Connection Shutdown"))
                                  (pc (world s))) (world s))
                   (waiter s) (started s))
  | Connecting | TransientFailure =>
      (LoopContinue, mkLoopState (world s) (Reset (waiter s)) (started s))
  | Idle | Ready =>
      let '(okWait, wt) := Wait (waiter s) in
      if negb okWait then (LoopContinue, mkLoopState (world s) wt (started s))
      else
        let '(connected, w1) :=
          if bool_decide (ConnId (pc (world s)) = "") then sendConnectClientMessage true (world s)
          else (Returned None, world s) in
        match connected with
        | Panicked msg => (LoopPanic msg, mkLoopState w1 wt (started s))
        | Returned (Some err) =>
            if negb (CanRetry err) then
              (LoopBreak,
               mkLoopState (withClient (setExitError (Some err) (pc w1)) w1) wt (started s))
            else (LoopContinue, mkLoopState w1 wt (started s))
        | Returned None =>
            let '((ranOk, errCode), reqs, w2) := runRequestStream ranLong w1 in
            let wt1 := if ranOk then Reset wt else wt in
            match errCode with
            | ErrCodeBadConnId =>
                (LoopContinue,
                 mkLoopState (withClient (storeConnId "" (pc w2)) w2) wt1 (started s ++ reqs))
            | _ => (LoopContinue, mkLoopState w2 (setForceWait wt1) (started s ++ reqs))
            end
        end
  end.

Inductive LoopStatus : Type :=
| LoopRunning
| LoopExited
| LoopPanicked (msg : string).

Definition closeLoop (s : LoopState) : LoopState :=
  mkLoopState (withClient (closeDoneCh (pc (world s))) (world s)) (waiter s) (started s).

(** [runRequestStreamLoop] through the turns whose connectivity states and
    stream durations are [turns]; [close(pc.DoneCh)] is deferred, so it runs
    when the loop breaks and when it panics. *)
Fixpoint runRequestStreamLoopFrom (turns : list (ConnectivityState * bool)) (s : LoopState)
  : LoopStatus * LoopState :=
  match turns with
  | [] => (LoopRunning, s)
  | (state, ranLong) :: rest =>
      match loopIteration state ranLong s with
      | (LoopContinue, s') => runRequestStreamLoopFrom rest s'
      | (LoopBreak, s') => (LoopExited, closeLoop s')
      | (LoopPanic msg, s') => (LoopPanicked msg, closeLoop s')
      end
  end.

Definition runRequestStreamLoop (turns : list (ConnectivityState * bool)) (w : World)
  : LoopStatus * LoopState :=
  runRequestStreamLoopFrom turns (mkLoopState w zeroExpoWait []).

(** What a call guarded by [IsConnected] may do to the world [w]: make at
    most one call on the transport, and that one under the connection
    identity of the client, which is then not empty. *)
Definition sendsUnderConnId (w w' : World) : Prop :=
  exists added, rpcs w' = rpcs w ++ added /\ (length added <= 1)%nat /\
    Forall (fun c => callConnId c = ConnId (pc w) /\ callConnId c <> "") added /\
    pc w' = pc w /\ dispatched w' = dispatched w.

(** *** Facts about the guard *)

Lemma IsConnected_true (c : DashCloudClient) :
  IsConnected (Some c) = true <->
  ConfigSet c = true /\ ExitErr c = None /\ ConnSet c = true /\ ConnId c <> "".
Proof.
  unfold IsConnected. destruct (ConfigSet c), (ConnSet c); simpl;
    repeat case_bool_decide; split; try discriminate; try tauto;
    try (intros (? & ? & ? & ?); discriminate || contradiction).
Qed.

Lemma sendsUnderConnId_none (w : World) : sendsUnderConnId w w.
Proof. exists []. rewrite app_nil_r. repeat split; auto. Qed.

Lemma sendsUnderConnId_one (w : World) (c : RpcCall) :
  IsConnected (Some (pc w)) = true -> callConnId c = ConnId (pc w) ->
  sendsUnderConnId w (logRpc c w).
Proof.
  intros Hconn Hid. apply IsConnected_true in Hconn as (_ & _ & _ & Hne).
  exists [c]. repeat split; auto. constructor; [|constructor]. split; [exact Hid|congruence].
Qed.

(** A client that is not connected, for whatever reason (no
    connection identity, a recorded exit error, no connection object, no
    configuration), refuses every guarded call with [NotConnectedErr] and
    reaches no transport. *)
Theorem disconnected_calls_refused (w : World) (appName panelName path : string)
    (ssm : StartStreamMessage) (srm : SendResponseMessage) (acfg : AppConfig) (blob : BlobData)
    (r : Reader) :
  IsConnected (Some (pc w)) = false ->
  RemoveApp appName w = (Some NotConnectedErr, w) /\
  BackendPush panelName path w = (Some NotConnectedErr, w) /\
  StartStreamProtoRpc ssm w = (("", Some NotConnectedErr), w) /\
  SendResponseProtoRpc srm w = ((0, Some NotConnectedErr), w) /\
  SetBlobData acfg blob r w = (Returned (Some NotConnectedErr), w).
Proof.
  intros Hc. unfold RemoveApp, BackendPush, StartStreamProtoRpc, SendResponseProtoRpc, SetBlobData.
  rewrite Hc. simpl. repeat split.
Qed.

(** X8. Whether it is connected or not, a guarded call makes at most one
    call on the transport, never one without a connection identity, and
    leaves the client as it was. *)
Theorem guarded_calls_carry_connid (w : World) (appName panelName path : string)
    (ssm : StartStreamMessage) (srm : SendResponseMessage) (acfg : AppConfig) (blob : BlobData)
    (r : Reader) :
  sendsUnderConnId w (RemoveApp appName w).2 /\
  sendsUnderConnId w (BackendPush panelName path w).2 /\
  sendsUnderConnId w (StartStreamProtoRpc ssm w).2 /\
  sendsUnderConnId w (SendResponseProtoRpc srm w).2 /\
  sendsUnderConnId w (SetBlobData acfg blob r w).2.
Proof.
  unfold RemoveApp, BackendPush, StartStreamProtoRpc, SendResponseProtoRpc, SetBlobData.
  destruct (IsConnected (Some (pc w))) eqn:Hconn; simpl;
    [|repeat split; apply sendsUnderConnId_none].
  split; [by apply sendsUnderConnId_one|]. split; [by apply sendsUnderConnId_one|].
  split.
  { destruct (handleStatusErrors "StartStream" _); simpl; [by apply sendsUnderConnId_one|].
    destruct (_ && _); simpl; by apply sendsUnderConnId_one. }
  split.
  { destruct (handleStatusErrors "SendResponse" _); simpl; by apply sendsUnderConnId_one. }
  destruct (MarshalJsonBlob blob); simpl; [|apply sendsUnderConnId_none].
  destruct (ReadAll r); simpl; [|apply sendsUnderConnId_none].
  destruct (AccInfo (pc w)); simpl; [|apply sendsUnderConnId_none].
  destruct (exceedsBlobLimit _ _); simpl; [apply sendsUnderConnId_none|].
  destruct (openSetBlob _); simpl; [by apply sendsUnderConnId_one|].
  destruct (sendSetBlob _); simpl; by apply sendsUnderConnId_one.
Qed.

(** X9. [SetBlobData] never starts an upload it should not: if the
    [SetBlob] call was made, the client was connected, the blob description
    was encoded, the reader was read to its end without error, and the
    bytes were not above the account's limit. *)
Theorem upload_attempt_implies_valid (acfg : AppConfig) (blob : BlobData) (r : Reader)
    (w : World) :
  setBlobAttempted w (SetBlobData acfg blob r w).2 ->
  IsConnected (Some (pc w)) = true /\
  exists blobJson barr acc,
    MarshalJsonBlob blob = inl blobJson /\ ReadAll r = inl barr /\
    AccInfo (pc w) = Some acc /\ exceedsBlobLimit (length barr) acc = false.
Proof.
  unfold setBlobAttempted, SetBlobData.
  assert (Hno : rpcs w <> rpcs w ++ [CallSetBlob (ConnId (pc w))]) by apply app_one_neq.
  destruct (IsConnected (Some (pc w))); simpl; [|intros; contradiction].
  destruct (MarshalJsonBlob blob) as [blobJson|]; simpl; [|intros; contradiction].
  destruct (ReadAll r) as [barr|]; simpl; [|intros; contradiction].
  destruct (AccInfo (pc w)) as [acc|]; simpl; [|intros; contradiction].
  destruct (exceedsBlobLimit (length barr) acc) eqn:Hlim; simpl; [intros; contradiction|].
  intros _. split; [reflexivity|]. by exists blobJson, barr, acc.
Qed.

(** A stream that is started for an existing request id must come
    back under that id: on a connected client whose [StartStream] call
    succeeds, [StartStreamProtoRpc] returns the server's request id, unless
    the message named another one, in which case it returns an error. *)
Theorem StartStream_checks_request_id (ssm : StartStreamMessage) (w : World)
    (status : option RtnStatus) (reqId : string) :
  IsConnected (Some (pc w)) = true ->
  replyStartStream (ConnId (pc w)) ssm = RpcReplied status reqId ->
  FromRtnStatus "StartStream" status = None ->
  let res := (StartStreamProtoRpc ssm w).1 in
  (res.2 = None <-> ExistingReqId ssm = "" \/ ExistingReqId ssm = reqId) /\
  (res.2 = None -> res.1 = reqId) /\
  (res.2 <> None -> res.1 = "").
Proof.
  intros Hconn Hreply Hok. unfold StartStreamProtoRpc. rewrite Hconn. simpl.
  rewrite Hreply. simpl. rewrite Hok.
  repeat case_bool_decide; simpl; repeat split; auto; try discriminate; try tauto.
Qed.

(** X10. [externalShutdown] on a client with a connection object records the
    shutdown as the exit error unless an error is recorded already, and from
    then on the client is not connected, whatever is recorded later; on a
    client without a connection object it does nothing. The client has its
    configuration. *)
Theorem externalShutdown_disconnects (c : DashCloudClient) (errs : list error) :
  ConfigSet c = true ->
  if ConnSet c then
    GetExitError (externalShutdown c)
      = Some (default (Errorf "ShutdownCh channel closed") (ExitErr c)) /\
    IsConnected (Some (setExitErrors errs (externalShutdown c))) = false /\
    GetExitError (setExitErrors errs (externalShutdown c)) = GetExitError (externalShutdown c)
  else externalShutdown c = c.
Proof.
  intros _. unfold externalShutdown. destruct (ConnSet c) eqn:Hconn; simpl; [|reflexivity].
  assert (Hset : exists e, ExitErr (setExitError (Some (Errorf "ShutdownCh channel closed")) c) = Some e
                           /\ e = default (Errorf "ShutdownCh channel closed") (ExitErr c)).
  { unfold setExitError. destruct (ExitErr c) as [e0|] eqn:He; simpl; eauto. }
  destruct Hset as (e & He & Hdef). unfold GetExitError.
  rewrite (setExitErrors_latched errs _ e He), He, Hdef. split; [reflexivity|]. split; [|reflexivity].
  destruct (negb _); [reflexivity|]. rewrite bool_decide_eq_true_2 by discriminate. reflexivity.
Qed.

(** *** Facts about connecting *)

(** X11. On an initialised client, a [ConnectClient] that fails, in the
    transport or in its status, leaves the client without a connection
    identity, so not connected; the error is returned, [PermErr] is set when
    the error cannot be retried and is never cleared, and exactly one call
    was made, under the identity the client had. *)
Theorem connect_failure_disconnects (isReconnect : bool) (w : World) (dashErr : GoError) :
  initialised (pc w) ->
  handleStatusErrors "ConnectClient" (replyConnectClient (rpcs w) (reconnectApps (pc w)))
    = Some dashErr ->
  let res := sendConnectClientMessage isReconnect w in
  res.1 = Returned (Some dashErr) /\
  ConnId (pc res.2) = "" /\
  IsConnected (Some (pc res.2)) = false /\
  PermErr (pc res.2) = PermErr (pc w) || negb (CanRetry dashErr) /\
  rpcs res.2 = rpcs w ++ [CallConnectClient (ConnId (pc w))] /\
  (AccInfo (pc res.2), ExitErr (pc res.2), AppMap (pc res.2), DoneChClosed (pc res.2))
  = (AccInfo (pc w), ExitErr (pc w), AppMap (pc w), DoneChClosed (pc w)).
Proof.
  intros _ Herr. unfold sendConnectClientMessage. cbv zeta. rewrite Herr. cbn [fst snd].
  split; [reflexivity|]. split; [by destruct (CanRetry dashErr)|].
  split; [apply IsConnected_empty_connId; by destruct (CanRetry dashErr)|].
  split; [destruct (CanRetry dashErr); simpl; destruct (PermErr (pc w)); reflexivity|].
  split; by destruct (CanRetry dashErr).
Qed.

(** X12. On an initialised client, a [ConnectClient] that succeeds stores
    the connection identity and the account information of the response,
    whatever they are, after exactly one call. The client is connected
    afterwards exactly when the identity it was given is not empty and it
    has a configuration, a connection object and no exit error. On a first
    connect a response without account information makes the client panic. *)
Theorem connect_success_stores_identity (isReconnect : bool) (w : World)
    (status : option RtnStatus) (resp : ConnectClientResponse) :
  initialised (pc w) ->
  replyConnectClient (rpcs w) (reconnectApps (pc w)) = RpcReplied status resp ->
  FromRtnStatus "ConnectClient" status = None ->
  let res := sendConnectClientMessage isReconnect w in
  ConnId (pc res.2) = respConnId resp /\
  AccInfo (pc res.2) = respAccInfo resp /\
  PermErr (pc res.2) = PermErr (pc w) /\
  rpcs res.2 = rpcs w ++ [CallConnectClient (ConnId (pc w))] /\
  (IsConnected (Some (pc res.2)) = true <->
     respConnId resp <> "" /\ ConfigSet (pc w) = true /\ ConnSet (pc w) = true /\
     ExitErr (pc w) = None) /\
  (isReconnect = true \/ is_Some (respAccInfo resp) -> res.1 = Returned None) /\
  (isReconnect = false -> respAccInfo resp = None -> exists msg, res.1 = Panicked msg).
Proof.
  intros _ Hreply Hok. unfold sendConnectClientMessage. cbv zeta. rewrite Hreply.
  cbn [handleStatusErrors]. rewrite Hok.
  set (w2 := withClient _ _).
  assert (Hconn : IsConnected (Some (pc w2)) = true <->
                  respConnId resp <> "" /\ ConfigSet (pc w) = true /\ ConnSet (pc w) = true /\
                  ExitErr (pc w) = None).
  { rewrite IsConnected_true. subst w2. simpl. tauto. }
  destruct (negb isReconnect && negb (bool_decide (is_Some (respAccInfo resp)))) eqn:Hpanic;
    cbn [fst snd].
  - apply andb_true_iff in Hpanic as [Hre Hacc].
    apply negb_true_iff in Hre. apply negb_true_iff, bool_decide_eq_false in Hacc.
    do 4 (split; [reflexivity|]). split; [exact Hconn|].
    split; [|eauto]. intros [Hc|Hc]; [congruence|contradiction].
  - do 4 (split; [reflexivity|]). split; [exact Hconn|].
    split; [reflexivity|]. intros -> Hnone. rewrite Hnone in Hpanic. simpl in Hpanic.
    discriminate.
Qed.

(** *** Facts about the request stream *)

Lemma recvLoop_prefix (good rest : list RequestMessage) (e : RecvEnd) :
  Forall (fun m => frameError m = None) good ->
  recvLoop (good ++ rest) e = (good ++ (recvLoop rest e).1, (recvLoop rest e).2).
Proof.
  induction 1 as [|m good Hm Hgood IH]; simpl.
  - by destruct (recvLoop rest e).
  - rewrite Hm, IH. reflexivity.
Qed.

(** X13. On an initialised client, [runRequestStream] starts a goroutine for
    every frame up to the first one whose status is an error, in their
    order, and for none from that one on. It ends with the code of that
    error, or, when no frame has one, with [Eof] or [Rpc] as the stream
    ended. It makes exactly one call, [RequestStream]. *)
Theorem request_stream_starts_prefix (ranLong : bool) (w : World) (stream : RequestStreamClient)
    (good rest : list RequestMessage) :
  initialised (pc w) ->
  openRequestStream (rpcs w) = inl stream ->
  frames stream = good ++ rest ->
  Forall (fun m => frameError m = None) good ->
  match rest with
  | [] => True
  | m :: _ => frameError m <> None
  end ->
  runRequestStream ranLong w
  = ((ranLong,
      match rest with
      | [] => match recvEnd stream with
              | RecvEOF => ErrCodeEof
              | RecvErr _ => ErrCodeRpc
              end
      | m :: _ => match frameError m with
                  | Some dashErr => GetErrCode dashErr
                  | None => ErrCodeNone
                  end
      end),
     good, logRpc (CallRequestStream (ConnId (pc w))) w).
Proof.
  intros _ Hopen Hframes Hgood Hrest. unfold runRequestStream. rewrite Hopen, Hframes.
  rewrite (recvLoop_prefix good rest _ Hgood). destruct rest as [|m rest']; simpl.
  - by rewrite app_nil_r.
  - destruct (frameError m); [|contradiction]. simpl. by rewrite app_nil_r.
Qed.

(** The requests of a stream whose apps are not connected each get
    exactly one [SendResponse], "No App Found", in the order their
    goroutines run, and none of them is dispatched. *)
Theorem unknown_apps_answered_once (reqs : list RequestMessage) (w : World) :
  Forall (fun reqMsg => AppMap (pc w) !! PanelName reqMsg = None) reqs ->
  rpcs (runGoroutines reqs w)
  = rpcs w ++ map (fun reqMsg => CallSendResponse (ConnId (pc w)) (noAppResponse (nowMs w) reqMsg))
                  reqs /\
  dispatched (runGoroutines reqs w) = dispatched w /\
  pc (runGoroutines reqs w) = pc w.
Proof.
  unfold runGoroutines. revert w. induction reqs as [|reqMsg reqs IH]; intros w Hall; simpl.
  - by rewrite app_nil_r.
  - apply Forall_cons in Hall as [Hm Hrest].
    assert (Hstep : requestGoroutine reqMsg w = sendNoAppResponse reqMsg w).
    { unfold requestGoroutine. by rewrite Hm. }
    rewrite Hstep. destruct (IH (sendNoAppResponse reqMsg w)) as (Hr & Hd & Hp); [exact Hrest|].
    rewrite Hr, Hd, Hp. simpl. rewrite <- app_assoc. repeat split.
Qed.

(** *** Facts about the stream loop *)

(** A [RequestStream] call went out under a connection identity. *)
Definition streamUnderConnId (c : RpcCall) : Prop :=
  match c with
  | CallRequestStream connId => connId <> ""
  | _ => True
  end.

(** The server gives every client it accepts a connection identity. *)
Definition serverGivesConnIds : Prop :=
  forall history apps status resp,
    replyConnectClient history apps = RpcReplied status resp ->
    FromRtnStatus "ConnectClient" status = None ->
    respConnId resp <> "".

(** Between [w] and [w'] [DoneCh] was not closed, and the calls made were
    in order as far as streams go. *)
Definition quiet (w w' : World) : Prop :=
  DoneChClosed (pc w') = DoneChClosed (pc w) /\
  exists added, rpcs w' = rpcs w ++ added /\
                (serverGivesConnIds -> Forall streamUnderConnId added).

Lemma quiet_same (w w' : World) :
  DoneChClosed (pc w') = DoneChClosed (pc w) -> rpcs w' = rpcs w -> quiet w w'.
Proof. intros Hd Hr. split; [exact Hd|]. exists []. rewrite app_nil_r. by split. Qed.

Lemma quiet_trans (w1 w2 w3 : World) : quiet w1 w2 -> quiet w2 w3 -> quiet w1 w3.
Proof.
  intros (Hd1 & a1 & Hr1 & Hs1) (Hd2 & a2 & Hr2 & Hs2). split; [congruence|].
  exists (a1 ++ a2). split; [by rewrite Hr2, Hr1, app_assoc|].
  intros Hserver. apply Forall_app. split; auto.
Qed.

Lemma setExitError_recorded (e : GoError) (c : DashCloudClient) :
  ExitErr (setExitError (Some e) c) <> None /\
  DoneChClosed (setExitError (Some e) c) = DoneChClosed c.
Proof. unfold setExitError. destruct (ExitErr c) eqn:He; simpl; rewrite ?He; split; done. Qed.

Lemma sendConnectClientMessage_effect (isReconnect : bool) (w : World) :
  let res := sendConnectClientMessage isReconnect w in
  quiet w res.2 /\
  ExitErr (pc res.2) = ExitErr (pc w) /\
  (serverGivesConnIds -> res.1 = Returned None -> ConnId (pc res.2) <> "").
Proof.
  assert (Hq : forall w' : World, DoneChClosed (pc w') = DoneChClosed (pc w) ->
                 rpcs w' = rpcs w ++ [CallConnectClient (ConnId (pc w))] -> quiet w w').
  { intros w' Hd Hr. split; [exact Hd|]. eexists. split; [exact Hr|].
    intros _. repeat constructor. }
  unfold sendConnectClientMessage. cbv zeta.
  destruct (replyConnectClient (rpcs w) (reconnectApps (pc w))) as [respErr|status resp] eqn:Hreply;
    cbn [handleStatusErrors].
  - cbn [fst snd]. split; [apply Hq; by destruct (CanRetry _)|].
    split; [by destruct (CanRetry _)|]. intros _ [=].
  - destruct (FromRtnStatus "ConnectClient" status) as [dashErr|] eqn:Hok.
    + cbn [fst snd]. split; [apply Hq; by destruct (CanRetry _)|].
      split; [by destruct (CanRetry _)|]. intros _ [=].
    + destruct (negb isReconnect && _); cbn [fst snd]; (split; [by apply Hq|]);
        (split; [reflexivity|]); intros Hserver Hres; [discriminate|].
      simpl. exact (Hserver _ _ _ _ Hreply Hok).
Qed.

Lemma runRequestStream_effect (ranLong : bool) (w : World) :
  (runRequestStream ranLong w).2 = logRpc (CallRequestStream (ConnId (pc w))) w.
Proof.
  unfold runRequestStream. destruct (openRequestStream (rpcs w)) as [stream|err]; [|reflexivity].
  by destruct (recvLoop (frames stream) (recvEnd stream)).
Qed.

Lemma runRequestStream_quiet (ranLong : bool) (w : World) :
  (serverGivesConnIds -> ConnId (pc w) <> "") -> quiet w (runRequestStream ranLong w).2.
Proof.
  intros Hid. rewrite runRequestStream_effect. split; [reflexivity|].
  eexists. split; [reflexivity|]. intros Hserver. repeat constructor. simpl. auto.
Qed.

(** The reconnect at the head of a turn. *)
Lemma reconnect_effect (w : World) :
  let res := if bool_decide (ConnId (pc w) = "") then sendConnectClientMessage true w
             else (Returned None, w) in
  quiet w res.2 /\
  ExitErr (pc res.2) = ExitErr (pc w) /\
  (serverGivesConnIds -> res.1 = Returned None -> ConnId (pc res.2) <> "").
Proof.
  cbv zeta. case_bool_decide as Hid; [apply sendConnectClientMessage_effect|].
  split; [by apply quiet_same|]. split; [reflexivity|]. intros _ _. exact Hid.
Qed.

Lemma loopIteration_effect (state : ConnectivityState) (ranLong : bool) (s : LoopState) :
  let res := loopIteration state ranLong s in
  quiet (world s) (world res.2) /\
  (res.1 = LoopBreak -> ExitErr (pc (world res.2)) <> None) /\
  (res.1 = LoopContinue -> ExitErr (pc (world res.2)) = ExitErr (pc (world s))).
Proof.
  assert (Hsame : quiet (world s) (world s)) by (by apply quiet_same).
  assert (Hturn :
    let res :=
      let '(okWait, wt) := Wait (waiter s) in
      if negb okWait then (LoopContinue, mkLoopState (world s) wt (started s))
      else
        let '(connected, w1) :=
          if bool_decide (ConnId (pc (world s)) = "") then sendConnectClientMessage true (world s)
          else (Returned None, world s) in
        match connected with
        | Panicked msg => (LoopPanic msg, mkLoopState w1 wt (started s))
        | Returned (Some err) =>
            if negb (CanRetry err) then
              (LoopBreak,
               mkLoopState (withClient (setExitError (Some err) (pc w1)) w1) wt (started s))
            else (LoopContinue, mkLoopState w1 wt (started s))
        | Returned None =>
            let '((ranOk, errCode), reqs, w2) := runRequestStream ranLong w1 in
            let wt1 := if ranOk then Reset wt else wt in
            match errCode with
            | ErrCodeBadConnId =>
                (LoopContinue,
                 mkLoopState (withClient (storeConnId "" (pc w2)) w2) wt1 (started s ++ reqs))
            | _ => (LoopContinue, mkLoopState w2 (setForceWait wt1) (started s ++ reqs))
            end
        end in
    quiet (world s) (world res.2) /\
    (res.1 = LoopBreak -> ExitErr (pc (world res.2)) <> None) /\
    (res.1 = LoopContinue -> ExitErr (pc (world res.2)) = ExitErr (pc (world s)))).
  { cbv zeta. destruct (Wait (waiter s)) as [okWait wt]. destruct okWait; cbn [negb];
      [|by (split; [|split])].
    pose proof (reconnect_effect (world s)) as (Hq & He & Hid). cbv zeta in Hq, He, Hid.
    destruct (if bool_decide (ConnId (pc (world s)) = "")
              then sendConnectClientMessage true (world s)
              else (Returned None, world s)) as [[[err|]|msg] w1]; cbn [fst snd] in Hq, He, Hid.
    - destruct (CanRetry err); cbn [negb fst snd world].
      + by (split; [|split]).
      + pose proof (setExitError_recorded err (pc w1)) as [Hrec Hdone]. split; [|split].
        * apply (quiet_trans _ w1); [exact Hq|]. by apply quiet_same.
        * intros _. exact Hrec.
        * discriminate.
    - pose proof (runRequestStream_quiet ranLong w1 (fun Hs => Hid Hs eq_refl)) as Hrq.
      pose proof (runRequestStream_effect ranLong w1) as Hrun.
      destruct (runRequestStream ranLong w1) as [[[ranOk errCode] reqs] w2].
      cbn [snd] in Hrq, Hrun.
      assert (Hq2 : quiet (world s) w2) by (apply (quiet_trans _ w1); assumption).
      assert (He2 : ExitErr (pc w2) = ExitErr (pc (world s))) by (subst w2; exact He).
      destruct errCode; cbn [fst snd world]; (split; [|split; [discriminate|]]);
        try exact Hq2; intros _; exact He2.
    - cbn [fst snd world]. by (split; [|split]). }
  unfold loopIteration. destruct state; try exact Hturn; cbn [fst snd world].
  - by (split; [|split]).
  - by (split; [|split]).
  - pose proof (setExitError_recorded (Errorf "gRPC Connection Shutdown") (pc (world s)))
      as [Hrec Hdone].
    split; [by apply quiet_same|]. split; [intros _; exact Hrec|discriminate].
Qed.

Lemma runRequestStreamLoopFrom_quiet (turns : list (ConnectivityState * bool)) (s : LoopState) :
  let res := runRequestStreamLoopFrom turns s in
  (exists added, rpcs (world res.2) = rpcs (world s) ++ added /\
                 (serverGivesConnIds -> Forall streamUnderConnId added)) /\
  match res.1 with
  | LoopRunning =>
      DoneChClosed (pc (world res.2)) = DoneChClosed (pc (world s)) /\
      ExitErr (pc (world res.2)) = ExitErr (pc (world s))
  | LoopExited => DoneChClosed (pc (world res.2)) = true /\ ExitErr (pc (world res.2)) <> None
  | LoopPanicked _ => DoneChClosed (pc (world res.2)) = true
  end.
Proof.
  cbv zeta. revert s. induction turns as [|[state ranLong] turns IH]; intros s; simpl.
  - split; [|by split]. exists []. by rewrite app_nil_r.
  - pose proof (loopIteration_effect state ranLong s) as ((Hd & Hadded) & Hbreak & Hcont).
    destruct (loopIteration state ranLong s) as [[| |msg] s1];
      cbn [fst snd] in Hd, Hadded, Hbreak, Hcont.
    + specialize (IH s1). destruct IH as [(a2 & Hr2 & Hs2) Hstatus].
      destruct Hadded as (a1 & Hr1 & Hs1). split.
      * exists (a1 ++ a2). split; [by rewrite Hr2, Hr1, app_assoc|].
        intros Hserver. apply Forall_app. split; auto.
      * destruct (runRequestStreamLoopFrom turns s1) as [[| |msg] s']; cbn [fst snd] in *;
          try exact Hstatus.
        destruct Hstatus as [Hd' He']. split; [congruence|]. rewrite He'. by apply Hcont.
    + cbn [fst snd]. split; [exact Hadded|]. split; [reflexivity|]. simpl. by apply Hbreak.
    + cbn [fst snd]. split; [exact Hadded|]. reflexivity.
Qed.

(** X14. On an initialised client: when [runRequestStreamLoop] ends,
    [DoneCh] is closed and an exit error is recorded, so that
    [WaitForShutdown] returns a non-nil error; as long as the loop runs it
    neither closes [DoneCh] nor records an exit error. *)
Theorem stream_loop_exit_has_error (turns : list (ConnectivityState * bool)) (w : World) :
  initialised (pc w) ->
  let res := runRequestStreamLoop turns w in
  match res.1 with
  | LoopExited => exists e, WaitForShutdown (pc (world res.2)) = Some (Some e)
  | LoopPanicked _ => DoneChClosed (pc (world res.2)) = true
  | LoopRunning =>
      WaitForShutdown (pc (world res.2)) = WaitForShutdown (pc w) /\
      GetExitError (pc (world res.2)) = GetExitError (pc w)
  end.
Proof.
  intros _. cbv zeta. unfold runRequestStreamLoop.
  pose proof (runRequestStreamLoopFrom_quiet turns (mkLoopState w zeroExpoWait [])) as [_ Hstatus].
  cbv zeta in Hstatus.
  destruct (runRequestStreamLoopFrom turns _) as [[| |msg] s']; cbn [fst snd world] in *.
  - destruct Hstatus as [Hd He]. unfold WaitForShutdown, GetExitError. by rewrite Hd, He.
  - destruct Hstatus as [Hd He]. unfold WaitForShutdown, GetExitError. rewrite Hd.
    destruct (ExitErr (pc (world s'))) as [e|]; [eauto|contradiction].
  - exact Hstatus.
Qed.

(** X15. On an initialised client, the loop never opens a request stream
    without a connection identity, as long as the server gives one to every
    client it accepts: whenever the identity is empty, the loop connects
    first. *)
Theorem stream_loop_connects_first (turns : list (ConnectivityState * bool)) (w : World) :
  initialised (pc w) ->
  serverGivesConnIds ->
  exists added, rpcs (world (runRequestStreamLoop turns w).2) = rpcs w ++ added /\
                Forall streamUnderConnId added.
Proof.
  intros _ Hserver. unfold runRequestStreamLoop.
  pose proof (runRequestStreamLoopFrom_quiet turns (mkLoopState w zeroExpoWait []))
    as [(added & Hr & Hs) _].
  exists added. split; [exact Hr|auto].
Qed.

(** A stream that ends with the code [BadConnId] makes the loop drop
    the connection identity and go on without a forced wait; after any
    other end the identity is kept and the next wait is forced. The wait is
    reset when the stream ran for five seconds. *)
Theorem bad_conn_id_drops_identity (state : ConnectivityState) (ranLong : bool) (s : LoopState)
    (wt : ExpoWait) (stream : RequestStreamClient) :
  initialised (pc (world s)) ->
  state = Ready \/ state = Idle ->
  Wait (waiter s) = (true, wt) ->
  ConnId (pc (world s)) <> "" ->
  openRequestStream (rpcs (world s)) = inl stream ->
  let code := (recvLoop (frames stream) (recvEnd stream)).2 in
  let res := loopIteration state ranLong s in
  res.1 = LoopContinue /\
  ConnId (pc (world res.2))
  = match code with
    | ErrCodeBadConnId => ""
    | _ => ConnId (pc (world s))
    end /\
  waiter res.2
  = match code with
    | ErrCodeBadConnId => if ranLong then Reset wt else wt
    | _ => setForceWait (if ranLong then Reset wt else wt)
    end /\
  rpcs (world res.2) = rpcs (world s) ++ [CallRequestStream (ConnId (pc (world s)))] /\
  started res.2 = started s ++ (recvLoop (frames stream) (recvEnd stream)).1.
Proof.
  intros _ Hstate Hwait Hid Hopen. cbv zeta.
  assert (Hiter : loopIteration state ranLong s = loopIteration Ready ranLong s)
    by (destruct Hstate as [->| ->]; reflexivity).
  rewrite Hiter. unfold loopIteration. rewrite Hwait. cbn [negb].
  rewrite bool_decide_eq_false_2 by exact Hid. unfold runRequestStream. rewrite Hopen.
  destruct (recvLoop (frames stream) (recvEnd stream)) as [reqs code].
  destruct code; simpl; repeat split; reflexivity.
Qed.

End ConnectionManager.

(** *** Writing and connecting apps *)

Section Apps.
Context `{Connection}.

(** The configuration [pc.Config] points to, and the two fields of
    [pc.AccInfo] that the client record does not carry, [AccJWTEnabled] and
    [AccCName]. *)
Variable config : Config.
Variable AccJWTEnabled : bool.
Variable AccCName : string.

Definition consoleHostProd : string := "console.dashborg.net".
Definition consoleHostDev : string := "console.dashborg-dev.com:8080".

(** [24 * time.Hour], in nanoseconds. *)
Definition day : Z := 24 * 3600 * 1000000000.

Definition getAccHost (c : DashCloudClient) : outcome string :=
  if negb (IsConnected (Some c)) then Panicked "DashCloudClient is not connected"
  else if bool_decide (is_Some (AccInfo c)) && negb (bool_decide (AccCName = "")) then
    if negb (bool_decide (Env config = "prod")) then Returned ("https://" +:+ AccCName +:+ ":8080")
    else Returned ("https://" +:+ AccCName)
  else if negb (bool_decide (Env config = "prod")) then
    Returned ("https://acc-" +:+ AccId config +:+ "." +:+ consoleHostDev)
  else Returned ("https://acc-" +:+ AccId config +:+ "." +:+ consoleHostProd).

Definition appLink (appName : string) (c : DashCloudClient) : outcome string :=
  match getAccHost c with
  | Panicked msg => Panicked msg
  | Returned accHost => Returned (accHost +:+ MakeAppPath (ZoneName config) appName)
  end.

Definition MakeJWTAppLink (appName : string) (validTime : Z) (userId roleName : string)
    (c : DashCloudClient) : outcome (string * error) :=
  let validTime := if validTime =? 0 then day else validTime in
  let roleName := if bool_decide (roleName = "") then "user" else roleName in
  let userId := if bool_decide (userId = "") then "jwt-user" else userId in
  match MakeAccountJWT config validTime userId roleName with
  | inr err => Returned ("", Some err)
  | inl jwtToken =>
      match appLink appName c with
      | Panicked msg => Panicked msg
      | Returned link => Returned (link +:+ "?jwt=" +:+ jwtToken, None)
      end
  end.

(** [showAppLink] writes to the log; what is left of it here is whether it
    returns. *)
Definition showAppLink (appName : string) (c : DashCloudClient) : outcome unit :=
  match AccInfo c with
  | None => Returned tt
  | Some _ =>
      if NoShowJWT config || negb AccJWTEnabled then
        match appLink appName c with
        | Panicked msg => Panicked msg
        | Returned _ => Returned tt
        end
      else
        match MakeJWTAppLink appName (JWTDuration config) (JWTUserId config) (JWTRole config) c with
        | Panicked msg => Panicked msg
        | Returned _ => Returned tt
        end
  end.

(** [baseWriteApp] returns its error and the [WriteApp] messages it sent. *)
Definition baseWriteApp (appName : string) (shouldConnect : bool) (acfg : option AppConfig)
    (writeAppFnStr : string) (w : World) : error * list WriteAppMessage :=
  if negb (IsConnected (Some (pc w))) then (Some NotConnectedErr, [])
  else
    match (match acfg with
           | Some cfg => MarshalJsonAppConfig cfg
           | None => inl ""
           end) with
    | inr err => (Some (JsonMarshalErr "AppConfig" err), [])
    | inl jsonVal =>
        let m := mkWriteAppMessage (nowMs w) appName jsonVal shouldConnect in
        (handleStatusErrors writeAppFnStr (replyWriteApp (ConnId (pc w)) m), [m])
    end.

(** An error that ends the attempt: one that cannot be retried. *)
Definition permanent (dashErr : error) : bool :=
  match dashErr with
  | Some e => negb (CanRetry e)
  | None => false
  end.

(** The tail [ConnectApp] and [ConnectAppRuntime] share: with the error of
    [baseWriteApp], give up if it cannot be retried, else put the app into
    [AppMap], show its link and return the error. *)
Definition connectWith (appName : string) (app : AppStruct)
    (written : error * list WriteAppMessage) (w : World)
  : outcome error * list WriteAppMessage * World :=
  let '(dashErr, sent) := written in
  if permanent dashErr then (Returned dashErr, sent, w)
  else
    let w1 := withClient (setAppMap (<[appName := app]> (AppMap (pc w))) (pc w)) w in
    match showAppLink appName (pc w1) with
    | Panicked msg => (Panicked msg, sent, w1)
    | Returned _ => (Returned dashErr, sent, w1)
    end.

(** [ConnectApp]; [appName] and [appConfig] are what [app.GetAppName()] and
    [app.GetAppConfig()] return, [app] is the [AppStruct] made for it. *)
Definition ConnectApp (appName : string) (appConfig : AppConfig) (app : AppStruct) (w : World)
  : outcome error * list WriteAppMessage * World :=
  if negb (IsConnected (Some (pc w))) then (Returned (Some NotConnectedErr), [], w)
  else
    connectWith appName app
      (baseWriteApp appName true (Some appConfig) ("ConnectApp(" +:+ appName +:+ ")") w) w.

Definition ConnectAppRuntime (appName : string) (app : AppStruct) (w : World)
  : outcome error * list WriteAppMessage * World :=
  if negb (IsConnected (Some (pc w))) then (Returned (Some NotConnectedErr), [], w)
  else
    connectWith appName app
      (baseWriteApp appName true None ("ConnectAppRuntime(" +:+ appName +:+ ")") w) w.

Definition WriteApp (acfg : AppConfig) (w : World) : outcome error * list WriteAppMessage :=
  let '(dashErr, sent) :=
    baseWriteApp (AppName acfg) false (Some acfg) ("WriteApp(" +:+ AppName acfg +:+ ")") w in
  match showAppLink (AppName acfg) (pc w) with
  | Panicked msg => (Panicked msg, sent)
  | Returned _ => (Returned dashErr, sent)
  end.

Lemma showAppLink_connected (appName : string) (c : DashCloudClient) :
  IsConnected (Some c) = true -> showAppLink appName c = Returned tt.
Proof.
  intros Hconn. unfold showAppLink, MakeJWTAppLink, appLink, getAccHost. rewrite Hconn. simpl.
  destruct (AccInfo c); [|reflexivity].
  destruct (NoShowJWT config || negb AccJWTEnabled).
  - destruct (_ && _); destruct (negb _); reflexivity.
  - destruct (MakeAccountJWT _ _ _ _); [|reflexivity].
    destruct (_ && _); destruct (negb _); reflexivity.
Qed.

Lemma IsConnected_setAppMap (apps : gmap string AppStruct) (c : DashCloudClient) :
  IsConnected (Some (setAppMap apps c)) = IsConnected (Some c).
Proof. reflexivity. Qed.

Lemma ConnectApp_connected (appName : string) (appConfig : AppConfig) (app : AppStruct)
    (w : World) :
  IsConnected (Some (pc w)) = true ->
  ConnectApp appName appConfig app w
  = (Returned (baseWriteApp appName true (Some appConfig) ("ConnectApp(" +:+ appName +:+ ")") w).1,
     (baseWriteApp appName true (Some appConfig) ("ConnectApp(" +:+ appName +:+ ")") w).2,
     if permanent (baseWriteApp appName true (Some appConfig)
                     ("ConnectApp(" +:+ appName +:+ ")") w).1
     then w
     else withClient (setAppMap (<[appName := app]> (AppMap (pc w))) (pc w)) w).
Proof.
  intros Hconn. unfold ConnectApp. rewrite Hconn. cbn [negb]. unfold connectWith.
  destruct (baseWriteApp _ _ _ _ _) as [dashErr sent]. cbn [fst snd].
  destruct (permanent dashErr); [reflexivity|].
  rewrite showAppLink_connected; [reflexivity|]. exact Hconn.
Qed.

(** X16. [ConnectApp] on a connected client sends one [WriteApp] message
    for the app, asking to connect it, unless the configuration cannot be
    encoded. It puts the app into [AppMap] under its name unless that
    attempt ended with an error that cannot be retried; with an error that
    can be retried the app is put there and the error is returned all the
    same. It does not panic. Not connected, it returns [NotConnectedErr]
    and does nothing. *)
Theorem ConnectApp_registers_unless_permanent (appName : string) (appConfig : AppConfig)
    (app : AppStruct) (w : World) :
  let written := baseWriteApp appName true (Some appConfig) ("ConnectApp(" +:+ appName +:+ ")") w in
  if IsConnected (Some (pc w)) then
    ConnectApp appName appConfig app w
    = (Returned written.1, written.2,
       if permanent written.1 then w
       else withClient (setAppMap (<[appName := app]> (AppMap (pc w))) (pc w)) w) /\
    (length written.2 <= 1)%nat /\
    Forall (fun m => waAppName m = appName /\ waConnectApp m = true) written.2
  else ConnectApp appName appConfig app w = (Returned (Some NotConnectedErr), [], w).
Proof.
  cbv zeta. unfold ConnectApp. destruct (IsConnected (Some (pc w))) eqn:Hconn; [|reflexivity].
  cbn [negb]. split.
  - rewrite <- (ConnectApp_connected appName appConfig app w Hconn). unfold ConnectApp.
    by rewrite Hconn.
  - unfold baseWriteApp. rewrite Hconn. cbn [negb].
    destruct (MarshalJsonAppConfig appConfig); cbn [fst snd length]; split;
      repeat constructor; lia.
Qed.

(** X17. Once [ConnectApp] has put an app into [AppMap], a request for its
    name is handed to that app, under the clamped timeout, and the app is
    among those named when the client reconnects; requests for other names
    are served as before. *)
Theorem connected_app_gets_requests (appName : string) (appConfig : AppConfig) (app : AppStruct)
    (w : World) (reqMsg : RequestMessage) :
  IsConnected (Some (pc w)) = true ->
  permanent (baseWriteApp appName true (Some appConfig) ("ConnectApp(" +:+ appName +:+ ")") w).1
    = false ->
  let w' := (ConnectApp appName appConfig app w).2 in
  (PanelName reqMsg = appName ->
     requestGoroutine reqMsg w'
     = DispatchRequest app (requestTimeout (TimeoutMs reqMsg)) reqMsg
         (logDispatch appName (requestTimeout (TimeoutMs reqMsg)) reqMsg w')) /\
  (PanelName reqMsg <> appName ->
     AppMap (pc w') !! PanelName reqMsg = AppMap (pc w) !! PanelName reqMsg) /\
  appName ∈ reconnectApps (pc w') /\
  IsConnected (Some (pc w')) = true.
Proof.
  intros Hconn Hperm. cbv zeta.
  rewrite (ConnectApp_connected appName appConfig app w Hconn), Hperm. cbn [snd].
  split; [|split; [|split]].
  - intros Hname. unfold requestGoroutine. simpl. rewrite Hname, lookup_insert_eq. reflexivity.
  - intros Hname. simpl. rewrite lookup_insert_ne by congruence. reflexivity.
  - unfold reconnectApps. simpl. apply list_elem_of_fmap. exists (appName, app).
    split; [reflexivity|]. apply elem_of_map_to_list. apply lookup_insert_eq.
  - exact Hconn.
Qed.

(** X18. [WriteApp] on a client that has its configuration and is not
    connected returns [NotConnectedErr] only if it has no account
    information or the link of the app is to carry a token that cannot be
    made; in every other case it panics in [getAccHost], having sent
    nothing. *)
Theorem WriteApp_disconnected_panics (acfg : AppConfig) (w : World) :
  ConfigSet (pc w) = true ->
  IsConnected (Some (pc w)) = false ->
  let token :=
    MakeAccountJWT config (if JWTDuration config =? 0 then day else JWTDuration config)
      (if bool_decide (JWTUserId config = "") then "jwt-user" else JWTUserId config)
      (if bool_decide (JWTRole config = "") then "user" else JWTRole config) in
  WriteApp acfg w
  = (match AccInfo (pc w), NoShowJWT config || negb AccJWTEnabled, token with
     | None, _, _ => Returned (Some NotConnectedErr)
     | Some _, false, inr _ => Returned (Some NotConnectedErr)
     | Some _, _, _ => Panicked "DashCloudClient is not connected"
     end, []).
Proof.
  intros _ Hconn. cbv zeta. unfold WriteApp, baseWriteApp, showAppLink, MakeJWTAppLink, appLink,
    getAccHost. rewrite Hconn. cbn [negb].
  destruct (AccInfo (pc w)); [|reflexivity].
  destruct (NoShowJWT config || negb AccJWTEnabled); [reflexivity|].
  destruct (MakeAccountJWT _ _ _ _); reflexivity.
Qed.

End Apps.

(** *** The facts at work *)

Definition demoAcc : AccInfoT := mkAccInfo "anon" 1%float.

(** The frame a server sends when it does not know the connection. *)
Definition badConnIdFrame : RequestMessage :=
  mkRequestMessage (Some (mkRtnStatus false "bad connid" ErrCodeBadConnId)) "" "" "" "" "" 0.

Definition retriable (e : GoError) : bool :=
  match errCode e with
  | ErrCodeRpc | ErrCodeEof | ErrCodeNotConnected | ErrCodeBadConnId => true
  | _ => false
  end.

(** A server that refuses the first [ConnectClient] in the transport and
    accepts every later one as "conn-2", and whose request stream carries
    two requests, the bad-connection frame and one more request. *)
Definition demoConnection : Connection := {|
  connCollaborators := demoCollaborators;
  replyConnectClient := fun history _ =>
    match history with
    | [] => RpcFailed (Errorf "connection refused")
    | _ => RpcReplied okStatus (mkConnectClientResponse "conn-2" (Some demoAcc) [])
    end;
  openRequestStream := fun _ =>
    inl (mkRequestStreamClient
           [demoRequest "zzz"; demoRequest "yyy"; badConnIdFrame; demoRequest "late"] RecvEOF);
  replyWriteApp := fun _ _ => RpcReplied okStatus tt;
  CanRetry := retriable;
  GetErrCode := errCode;
  JsonMarshalErr := fun what err => mkErr ErrCodeJsonMarshal (what +:+ ": " +:+ errMsg err);
  MarshalJsonAppConfig := fun cfg => inl (AppName cfg);
  MakeAppPath := fun zone appName => "/zone/" +:+ zone +:+ "/" +:+ appName;
  MakeAccountJWT := fun _ _ _ _ => inl "token";
  ExpoWait := nat;
  zeroExpoWait := 0%nat;
  Wait := fun n => (true, n);
  Reset := fun _ => 0%nat;
  setForceWait := S
|}.

Definition demoConfigLinks : Config := mkConfig "acc-1" "default" "prod" false 0 "" "".

(** A world in which the calls [history] have been made. *)
Definition worldAfter (connId : string) (history : list RpcCall) : World :=
  mkWorld (demoClient connId ∅) 1700000000000 history [].

(** A client that has lost its connection after an exit error. *)
Definition stoppedWorld : World :=
  withClient (setExitError (Some (Errorf "gRPC Connection Shutdown")) (demoClient "conn-1" ∅))
    (demoWorld "conn-1" ∅).

Lemma disconnected_calls_refused_witness :
  RemoveApp (H := demoCollaborators) "a" stoppedWorld = (Some NotConnectedErr, stoppedWorld).
Proof.
  apply (disconnected_calls_refused (H := demoConnection) stoppedWorld "a" "a" "/"
           (mkStartStreamMessage "a" "") (noAppResponse 0 (demoRequest "a")) demoConfig demoBlob
           (demoReader 3)).
  reflexivity.
Defined.

(** A shutdown from outside, where the loop had seen the connection go
    first: the first error stays. *)
Lemma externalShutdown_disconnects_witness :
  GetExitError (externalShutdown (pc stoppedWorld))
  = Some (Errorf "gRPC Connection Shutdown").
Proof.
  apply (externalShutdown_disconnects (pc stoppedWorld) []).
  reflexivity.
Defined.

Lemma upload_attempt_implies_valid_witness :
  IsConnected (Some (pc (demoWorld "conn-1" ∅))) = true.
Proof.
  apply (upload_attempt_implies_valid (H := demoConnection) demoConfig demoBlob (demoReader 3)
           (demoWorld "conn-1" ∅)).
  reflexivity.
Defined.

Lemma StartStream_checks_request_id_witness :
  (StartStreamProtoRpc (H := demoCollaborators) (mkStartStreamMessage "a" "r7")
     (demoWorld "conn-1" ∅)).1.1 = "r7".
Proof.
  apply (StartStream_checks_request_id (H := demoConnection) (mkStartStreamMessage "a" "r7")
           (demoWorld "conn-1" ∅) okStatus "r7" eq_refl eq_refl eq_refl).
  reflexivity.
Defined.

Lemma connect_failure_disconnects_witness :
  IsConnected
    (Some (pc (sendConnectClientMessage (H := demoConnection) true (worldAfter "conn-1" [])).2))
  = false.
Proof.
  apply (connect_failure_disconnects (H := demoConnection) true (worldAfter "conn-1" [])
           (mkErr ErrCodeRpc "ConnectClient: connection refused")).
  - split; reflexivity.
  - reflexivity.
Defined.

Lemma connect_success_stores_identity_witness :
  ConnId (pc (sendConnectClientMessage (H := demoConnection) true
                (worldAfter "" [CallConnectClient ""])).2) = "conn-2".
Proof.
  apply (connect_success_stores_identity (H := demoConnection) true
           (worldAfter "" [CallConnectClient ""]) okStatus
           (mkConnectClientResponse "conn-2" (Some demoAcc) []) (conj eq_refl eq_refl)
           eq_refl eq_refl).
Defined.

(** The two requests before the bad-connection frame are started, the one
    after it is not, and the stream ends with [BadConnId]. *)
Lemma request_stream_starts_prefix_witness :
  runRequestStream (H := demoConnection) false (demoWorld "conn-1" ∅)
  = ((false, ErrCodeBadConnId), [demoRequest "zzz"; demoRequest "yyy"],
     logRpc (CallRequestStream "conn-1") (demoWorld "conn-1" ∅)).
Proof.
  apply (request_stream_starts_prefix (H := demoConnection) false (demoWorld "conn-1" ∅)
           (mkRequestStreamClient
              [demoRequest "zzz"; demoRequest "yyy"; badConnIdFrame; demoRequest "late"] RecvEOF)
           [demoRequest "zzz"; demoRequest "yyy"] [badConnIdFrame; demoRequest "late"]
           (conj eq_refl eq_refl) eq_refl eq_refl).
  - repeat constructor.
  - discriminate.
Defined.

Lemma unknown_apps_answered_once_witness :
  rpcs (runGoroutines (H := demoConnection) [demoRequest "zzz"; demoRequest "yyy"]
          (demoWorld "conn-1" ∅))
  = [] ++ map (fun reqMsg => CallSendResponse "conn-1" (noAppResponse 1700000000000 reqMsg))
              [demoRequest "zzz"; demoRequest "yyy"].
Proof.
  apply (unknown_apps_answered_once (H := demoConnection) [demoRequest "zzz"; demoRequest "yyy"]
           (demoWorld "conn-1" ∅)).
  repeat constructor.
Defined.

Lemma demoConnection_gives_conn_ids : serverGivesConnIds (H := demoConnection).
Proof.
  intros history apps status resp Hreply _. simpl in Hreply.
  destruct history; [discriminate|]. injection Hreply as <- <-. discriminate.
Qed.

(** Scenario S4 of the specification: the stream ends with [BadConnId], the
    loop reconnects and opens the next stream as "conn-2". *)
Lemma stream_loop_connects_first_witness :
  exists added,
    rpcs (world (runRequestStreamLoop (H := demoConnection) [(Ready, false); (Ready, false)]
                   (worldAfter "conn-1" [CallConnectClient ""])).2)
    = [CallConnectClient ""] ++ added /\
    Forall (streamUnderConnId) added.
Proof.
  apply (stream_loop_connects_first (H := demoConnection) [(Ready, false); (Ready, false)]
           (worldAfter "conn-1" [CallConnectClient ""])).
  - split; reflexivity.
  - exact demoConnection_gives_conn_ids.
Defined.

(** The connection is shut down in the second turn: the loop ends and
    [WaitForShutdown] returns the reason. *)
Lemma stream_loop_exit_has_error_witness :
  exists e,
    WaitForShutdown
      (pc (world (runRequestStreamLoop (H := demoConnection) [(Ready, false); (Shutdown, false)]
                    (worldAfter "conn-1" [CallConnectClient ""])).2))
    = Some (Some e).
Proof.
  apply (stream_loop_exit_has_error (H := demoConnection) [(Ready, false); (Shutdown, false)]
           (worldAfter "conn-1" [CallConnectClient ""])).
  split; reflexivity.
Defined.

Example stream_loop_S4 :
  rpcs (world (runRequestStreamLoop (H := demoConnection) [(Ready, false); (Ready, false)]
                 (worldAfter "conn-1" [CallConnectClient ""])).2)
  = [CallConnectClient ""; CallRequestStream "conn-1"; CallConnectClient "";
     CallRequestStream "conn-2"].
Proof. vm_compute. reflexivity. Qed.

Lemma bad_conn_id_drops_identity_witness :
  ConnId (pc (world (loopIteration (H := demoConnection) Ready false
                       (mkLoopState (H := demoConnection) (demoWorld "conn-1" ∅) 0%nat [])).2))
  = "".
Proof.
  apply (bad_conn_id_drops_identity (H := demoConnection) Ready false
           (mkLoopState (H := demoConnection) (demoWorld "conn-1" ∅) 0%nat []) 0%nat
           (mkRequestStreamClient
              [demoRequest "zzz"; demoRequest "yyy"; badConnIdFrame; demoRequest "late"] RecvEOF)).
  - split; reflexivity.
  - left. reflexivity.
  - reflexivity.
  - discriminate.
  - reflexivity.
Defined.

Lemma connected_app_gets_requests_witness :
  dispatched (requestGoroutine (H := demoCollaborators) (demoRequest "a")
                (ConnectApp (H := demoConnection) demoConfigLinks false "" "a" demoConfig
                   (mkAppStruct 1) (demoWorld "conn-1" ∅)).2)
  = [("a", 500 * Millisecond, demoRequest "a")].
Proof.
  destruct (connected_app_gets_requests (H := demoConnection) demoConfigLinks false "" "a"
              demoConfig (mkAppStruct 1) (demoWorld "conn-1" ∅) (demoRequest "a")
              eq_refl eq_refl) as (Hrun & _).
  exact (eq_trans (f_equal dispatched (Hrun eq_refl)) eq_refl).
Defined.

(** A client that was connected once, so that it has account information,
    and has lost its connection identity: [WriteApp] panics. *)
Lemma WriteApp_disconnected_panics_witness :
  WriteApp (H := demoConnection) demoConfigLinks false "" demoConfig (demoWorld "" ∅)
  = (Panicked "DashCloudClient is not connected", []).
Proof.
  apply (WriteApp_disconnected_panics (H := demoConnection) demoConfigLinks false "" demoConfig
           (demoWorld "" ∅)); reflexivity.
Defined.

End dashcloud_facts.


(** * More of [dashapp.go]: the app, its options, its handlers and its blobs *)

Module dashapp_facts.
Import dashapp.

Definition OptionInitHandler : string := "inithandler".
Definition OptionHtml : string := "html".
Definition OptionAuth : string := "auth".
Definition OptionOfflineMode : string := "offlinemode".
Definition OptionTitle : string := "title".
Definition OptionAppVisibility : string := "visibility".
Definition AuthTypeZone : string := "zone".
Definition HtmlTypeStatic : string := "static".
Definition rootHtmlKey : string := "html:root".
Definition htmlMimeType : string := "text/html".

Record GenericAppOption : Type := mkOption {
  OptType : string;
  OptPath : string;
  AllowedRoles : list string;
  Enabled : bool;
  AppTitle : string;
  Order : float
}.

(** [GenericAppOption{Type: ty}]. *)
Definition typeOption (ty : string) : GenericAppOption := mkOption ty "" [] false "" 0%float.

(** [AppConfig], without the fields the container sets. [Options] is a Go
    map: [None] is the [nil] map, which can be read and deleted from but not
    assigned to. Static data are kept as their JSON. *)
Record AppConfig : Type := mkAppConfig {
  AppName : string;
  AppVersion : string;
  Options : option (gmap string GenericAppOption);
  StaticData : list (string * string);
  ClearExistingData : bool;
  ClearExistingBlobs : bool
}.

(** The [info] of a [Request], as far as [RunHandler] reads it. *)
Record Request : Type := mkRequest {
  RequestType : string;
  Path : string;
  ReqAppName : string
}.

(** [handlerKey]. *)
Definition handlerKey : Type := string * string.

Definition mkHandlerKey (HandlerType path : string) : handlerKey := (HandlerType, path).

(** [funcValueType], with the value its [ValueFn] returns. *)
Record valueType : Type := mkValue {
  Dyn : bool;
  ValueFn : string + GoError
}.

Section App.
Context {U : Type} `{Hashing}.

Definition Run (A : Type) : Type := U -> outcome A * U.

Definition Reply : Type := option string * error.

(** A [handlerType]: the method value [rtn.htmlHandler], which reads the
    runtime's [html] when it is called, or a function of the user. *)
Inductive handlerType : Type :=
| HtmlHandlerFn
| UserHandlerFn (HandlerFn : Request -> Run Reply).

Record appRuntimeImpl : Type := mkAppRuntimeImpl {
  html : option valueType;
  handlers : gmap handlerKey handlerType
}.

Record App : Type := mkApp {
  appConfig : AppConfig;
  appRuntime : appRuntimeImpl;
  isNewApp : bool
}.

(** What lies outside: the [Container] the app uploads its blobs to,
    [dashutil.ConvertToString], [RequestEx.SetHtml] as it changes the state
    of the request, and [os.Open]. *)
Variable containerSetBlobData : AppConfig -> BlobData -> ReadSeeker -> error.
Variable ConvertToString : string -> string + GoError.
Variable RequestEx_SetHtml : Request -> string -> U -> U.
Variable openFile : string -> ReadSeeker + GoError.

Definition withOptions (opts : option (gmap string GenericAppOption)) (app : App) : App :=
  mkApp (mkAppConfig (AppName (appConfig app)) (AppVersion (appConfig app)) opts
           (StaticData (appConfig app)) (ClearExistingData (appConfig app))
           (ClearExistingBlobs (appConfig app)))
        (appRuntime app) (isNewApp app).

Definition withRuntime (rt : appRuntimeImpl) (app : App) : App :=
  mkApp (appConfig app) rt (isNewApp app).

Definition defaultAuthOpt : GenericAppOption :=
  mkOption AuthTypeZone "" ["user"] false "" 0%float.

Definition makeAppRuntime : appRuntimeImpl :=
  mkAppRuntimeImpl None {[ mkHandlerKey "html" "" := HtmlHandlerFn ]}.

(** [MakeApp]; [version] is the new [uuid]. *)
Definition MakeApp (appName version : string) : App :=
  mkApp (mkAppConfig appName version
           (Some (<[OptionOfflineMode := typeOption "allow"]>
                    (<[OptionAuth := defaultAuthOpt]> ∅)))
           [] false false)
        makeAppRuntime true.

Definition MakeAppFromConfig (cfg : AppConfig) (version : string) : App :=
  mkApp (mkAppConfig (AppName cfg) version (Options cfg) (StaticData cfg)
           (ClearExistingData cfg) (ClearExistingBlobs cfg))
        makeAppRuntime false.

(** [app.AppConfig.Options[optName] = opt]. *)
Definition SetOption (optName : string) (opt : GenericAppOption) (app : App) : outcome App :=
  match Options (appConfig app) with
  | None => Panicked "assignment to entry in nil map"
  | Some opts => Returned (withOptions (Some (<[optName := opt]> opts)) app)
  end.

(** [delete(app.AppConfig.Options, optName)]. *)
Definition RemoveOption (optName : string) (app : App) : App :=
  withOptions (delete optName <$> Options (appConfig app)) app.

Definition lookupOption (optName : string) (app : App) : option GenericAppOption :=
  Options (appConfig app) ≫= (fun opts => opts !! optName).

Definition SetOfflineMode (allow : bool) (app : App) : outcome App :=
  if allow then SetOption OptionOfflineMode (typeOption "allow") app
  else Returned (RemoveOption OptionOfflineMode app).

Definition getAuthOpt (app : App) : GenericAppOption :=
  match lookupOption OptionAuth app with
  | None => defaultAuthOpt
  | Some authOpt => authOpt
  end.

(** [authOpt.Type = authType] and [authOpt.AllowedRoles = roles]. *)
Definition setOptType (authType : string) (o : GenericAppOption) : GenericAppOption :=
  mkOption authType (OptPath o) (AllowedRoles o) (Enabled o) (AppTitle o) (Order o).

Definition setOptRoles (roles : list string) (o : GenericAppOption) : GenericAppOption :=
  mkOption (OptType o) (OptPath o) roles (Enabled o) (AppTitle o) (Order o).

Definition SetAuthType (authType : string) (app : App) : outcome App :=
  let authOpt := getAuthOpt app in
  SetOption OptionAuth (setOptType authType authOpt) app.

Definition SetAllowedRoles (roles : list string) (app : App) : outcome App :=
  let authOpt := getAuthOpt app in
  SetOption OptionAuth (setOptRoles roles authOpt) app.

Definition SetAppVisibility (visType : string) (displayOrder : float) (app : App) : outcome App :=
  SetOption OptionAppVisibility (mkOption visType "" [] false "" displayOrder) app.

Definition SetAppTitle (title : string) (app : App) : outcome App :=
  if bool_decide (title = "") then Returned (RemoveOption OptionTitle app)
  else SetOption OptionTitle (mkOption "" "" [] false title 0%float) app.

Definition SetStaticData (path data : string) (app : App) : App :=
  mkApp (mkAppConfig (AppName (appConfig app)) (AppVersion (appConfig app))
           (Options (appConfig app)) (StaticData (appConfig app) ++ [(path, data)])
           (ClearExistingData (appConfig app)) (ClearExistingBlobs (appConfig app)))
        (appRuntime app) (isNewApp app).

(** *** Handlers *)

Definition SetHandler (hkey : handlerKey) (handler : handlerType) (rt : appRuntimeImpl)
  : appRuntimeImpl :=
  mkAppRuntimeImpl (html rt) (<[hkey := handler]> (handlers rt)).

Definition htmlHandler (rt : appRuntimeImpl) (req : Request) : Run Reply :=
  fun u =>
    match html rt with
    | None => (Returned (None, None), u)
    | Some v =>
        match ValueFn v with
        | inr err => (Returned (None, Some err), u)
        | inl htmlValue =>
            match ConvertToString htmlValue with
            | inr err => (Returned (None, Some err), u)
            | inl htmlStr => (Returned (None, None), RequestEx_SetHtml req htmlStr u)
            end
        end
    end.

Definition RunHandler (rt : appRuntimeImpl) (req : Request) : Run Reply :=
  fun u =>
    match handlers rt !! mkHandlerKey (RequestType req) (Path req) with
    | None =>
        (Returned (None, Some (Errorf ("No handler found for " +:+ ReqAppName req +:+ ":"
                                       +:+ Path req))), u)
    | Some hval =>
        match (match hval with
               | HtmlHandlerFn => htmlHandler rt req u
               | UserHandlerFn fn => fn req u
               end) with
        | (Returned (_, Some err), u') => (Returned (None, Some err), u')
        | res => res
        end
    end.

(** [wrapHandler]. *)
Definition wrapHandler (handlerFn : Request -> Run error) : Request -> Run Reply :=
  fun req u =>
    match handlerFn req u with
    | (Returned err, u') => (Returned (None, err), u')
    | (Panicked msg, u') => (Panicked msg, u')
    end.

Definition SetInitHandler (handlerFn : Request -> Run error) (app : App) : outcome App :=
  match SetOption OptionInitHandler (typeOption "handler") app with
  | Panicked msg => Panicked msg
  | Returned app1 =>
      Returned (withRuntime (SetHandler (mkHandlerKey "init" "")
                               (UserHandlerFn (wrapHandler handlerFn)) (appRuntime app1)) app1)
  end.

Definition Handler (path : string) (handlerFn : Request -> Run error) (app : App) : App :=
  withRuntime (SetHandler (mkHandlerKey "handler" path) (UserHandlerFn (wrapHandler handlerFn))
                 (appRuntime app)) app.

Definition DataHandler (path : string) (handlerFn : Request -> Run Reply) (app : App) : App :=
  withRuntime (SetHandler (mkHandlerKey "data" path) (UserHandlerFn handlerFn) (appRuntime app))
    app.

(** *** Blobs *)

(** An upload handed to the container. *)
Definition Upload : Type := AppConfig * BlobData * ReadSeeker.

(** [SetRawBlobData] returns its error and the upload it handed over. *)
Definition SetRawBlobData (blobData : BlobData) (reader : ReadSeeker) (app : App)
  : error * list Upload :=
  (containerSetBlobData (appConfig app) blobData reader, [(appConfig app, blobData, reader)]).

(** [bytes.NewReader(barr)]. *)
Definition bytesReader (barr : list Byte.byte) : ReadSeeker := mkReadSeeker barr 0 [] None.

Definition SetHtml (htmlStr : string) (app : App) : outcome (error * App) * list Upload :=
  let r := bytesReader (String.list_byte_of_string htmlStr) in
  match BlobDataFromReadSeeker rootHtmlKey htmlMimeType r with
  | ((_, Some err), _) => (Returned (Some err, app), [])
  | ((blobData, None), r1) =>
      match SetRawBlobData blobData r1 app with
      | (Some err, sent) => (Returned (Some err, app), sent)
      | (None, sent) =>
          match SetOption OptionHtml (typeOption HtmlTypeStatic) app with
          | Panicked msg => (Panicked msg, sent)
          | Returned app1 => (Returned (None, app1), sent)
          end
      end
  end.

(** [BlobDataFromReader]; the reader it returns is [None] when it is [nil]. *)
Definition BlobDataFromReader (key mimeType : string) (r : dashcloud.Reader)
  : BlobData * option ReadSeeker * error :=
  match dashcloud.ReadAll r with
  | inr err => (zeroBlobData, None, Some err)
  | inl barr =>
      match BlobDataFromReadSeeker key mimeType (bytesReader barr) with
      | ((_, Some err), _) => (zeroBlobData, None, Some err)
      | ((blobData, None), breader) => (blobData, Some breader, None)
      end
  end.

Definition withMetadata (metadata : option string) (b : BlobData) : BlobData :=
  mkBlobData (BlobKey b) (MimeType b) (Size b) (Sha256 b) (UpdateTs b) metadata (Removed b).

Definition SetBlobDataFromFile (key mimeType fileName : string) (metadata : option string)
    (app : App) : error * list Upload :=
  match openFile fileName with
  | inr err => (Some err, [])
  | inl fd =>
      match BlobDataFromReadSeeker key mimeType fd with
      | ((_, Some err), _) => (Some err, [])
      | ((blobData, None), fd1) => SetRawBlobData (withMetadata metadata blobData) fd1 app
      end
  end.

(** Setting handlers, one call after the other. *)
Inductive HandlerCall : Type :=
| CallHandler (path : string) (handlerFn : Request -> Run error)
| CallDataHandler (path : string) (handlerFn : Request -> Run Reply).

Definition applyHandlerCall (app : App) (c : HandlerCall) : App :=
  match c with
  | CallHandler path handlerFn => Handler path handlerFn app
  | CallDataHandler path handlerFn => DataHandler path handlerFn app
  end.

Definition applyHandlerCalls (calls : list HandlerCall) (app : App) : App :=
  foldl applyHandlerCall app calls.

(** One call after another, the second only if the first returned. *)
Definition andThen {A B} (o : outcome A) (f : A -> outcome B) : outcome B :=
  match o with
  | Returned a => f a
  | Panicked msg => Panicked msg
  end.

(** Both seeks of the hashing helpers succeed on [r]. *)
Definition seeksSucceed (r : ReadSeeker) : bool :=
  match seekErrs r with
  | Some _ :: _ => false
  | None :: Some _ :: _ => false
  | _ => true
  end.

(** *** Facts about the options *)

Lemma SetOption_lookup (optName : string) (opt : GenericAppOption) (app : App)
    (opts : gmap string GenericAppOption) :
  Options (appConfig app) = Some opts ->
  SetOption optName opt app = Returned (withOptions (Some (<[optName := opt]> opts)) app).
Proof. intros Ho. unfold SetOption. by rewrite Ho. Qed.

Lemma SetOption_twice (optName : string) (opt1 opt2 : GenericAppOption) (app : App)
    (opts : gmap string GenericAppOption) :
  SetOption optName opt2 (withOptions (Some (<[optName := opt1]> opts)) app)
  = Returned (withOptions (Some (<[optName := opt2]> opts)) app).
Proof.
  unfold SetOption, withOptions. cbn [appConfig Options AppName AppVersion StaticData
    ClearExistingData ClearExistingBlobs appRuntime isNewApp].
  by rewrite insert_insert_eq.
Qed.

Lemma lookupOption_set (optName optName' : string) (opt : GenericAppOption) (app : App)
    (opts : gmap string GenericAppOption) :
  lookupOption optName' (withOptions (Some (<[optName := opt]> opts)) app)
  = if bool_decide (optName = optName') then Some opt else opts !! optName'.
Proof.
  unfold lookupOption, withOptions. cbn [appConfig Options mbind option_bind].
  case_bool_decide as Hn; [subst; apply lookup_insert_eq|by apply lookup_insert_ne].
Qed.

Lemma getAuthOpt_set (opt : GenericAppOption) (app : App) (opts : gmap string GenericAppOption) :
  getAuthOpt (withOptions (Some (<[OptionAuth := opt]> opts)) app) = opt.
Proof.
  unfold getAuthOpt. rewrite lookupOption_set. by rewrite bool_decide_eq_true_2.
Qed.

(** X19. The auth type and the allowed roles are set independently of each
    other: on an app whose options map exists, [SetAuthType] keeps the
    roles, [SetAllowedRoles] keeps the type, the two can be called in either
    order with the same result, no other option is touched, and where the
    auth option is missing they start from the default, type [zone] and
    role [user]. *)
Theorem auth_settings_independent (authType : string) (roles : list string) (app : App)
    (opts : gmap string GenericAppOption) :
  Options (appConfig app) = Some opts ->
  exists app1 app2 app12,
    SetAuthType authType app = Returned app1 /\
    SetAllowedRoles roles app = Returned app2 /\
    andThen (SetAuthType authType app) (SetAllowedRoles roles) = Returned app12 /\
    andThen (SetAllowedRoles roles app) (SetAuthType authType) = Returned app12 /\
    (OptType (getAuthOpt app1), AllowedRoles (getAuthOpt app1))
    = (authType, AllowedRoles (getAuthOpt app)) /\
    (OptType (getAuthOpt app2), AllowedRoles (getAuthOpt app2))
    = (OptType (getAuthOpt app), roles) /\
    (OptType (getAuthOpt app12), AllowedRoles (getAuthOpt app12)) = (authType, roles) /\
    (forall optName, optName <> OptionAuth ->
       lookupOption optName app12 = lookupOption optName app) /\
    (opts !! OptionAuth = None ->
       getAuthOpt app1 = mkOption authType "" ["user"] false "" 0%float /\
       getAuthOpt app2 = mkOption AuthTypeZone "" roles false "" 0%float).
Proof.
  intros Ho.
  assert (Hget0 : getAuthOpt app = default defaultAuthOpt (opts !! OptionAuth)).
  { unfold getAuthOpt, lookupOption. rewrite Ho. cbn [mbind option_bind].
    by destruct (opts !! OptionAuth). }
  exists (withOptions (Some (<[OptionAuth := setOptType authType (getAuthOpt app)]> opts)) app),
         (withOptions (Some (<[OptionAuth := setOptRoles roles (getAuthOpt app)]> opts)) app),
         (withOptions
            (Some (<[OptionAuth := setOptRoles roles (setOptType authType (getAuthOpt app))]> opts))
            app).
  unfold SetAuthType, SetAllowedRoles. cbv zeta.
  rewrite !(SetOption_lookup _ _ app opts Ho). cbn [andThen]. rewrite !getAuthOpt_set.
  rewrite !SetOption_twice.
  split; [reflexivity|]. split; [reflexivity|]. split; [reflexivity|]. split; [reflexivity|].
  split; [reflexivity|]. split; [reflexivity|]. split; [reflexivity|]. split.
  - intros optName Hne. rewrite lookupOption_set. rewrite bool_decide_eq_false_2 by congruence.
    unfold lookupOption. by rewrite Ho.
  - intros Hnone. rewrite Hget0, Hnone. split; reflexivity.
Qed.

(** X20. An app made from a configuration without an options map (one
    decoded from JSON that has none) panics in every call that sets an
    option, and goes through the calls that only delete one unchanged;
    an app made by [MakeApp] has the map. *)
Theorem nil_options_map_panics (cfg : AppConfig) (version appName : string)
    (opt : GenericAppOption) (optName authType visType title : string) (roles : list string)
    (order : float) (handlerFn : Request -> Run error) :
  Options cfg = None ->
  let app := MakeAppFromConfig cfg version in
  let panic := Panicked "assignment to entry in nil map" in
  SetOption optName opt app = panic /\
  SetAuthType authType app = panic /\
  SetAllowedRoles roles app = panic /\
  SetAppVisibility visType order app = panic /\
  SetOfflineMode true app = panic /\
  (title <> "" -> SetAppTitle title app = panic) /\
  SetInitHandler handlerFn app = panic /\
  RemoveOption optName app = app /\
  SetOfflineMode false app = Returned app /\
  SetAppTitle "" app = Returned app /\
  is_Some (Options (appConfig (MakeApp appName version))).
Proof.
  intros Hnil. cbv zeta.
  unfold SetAuthType, SetAllowedRoles, SetAppVisibility, SetOfflineMode, SetAppTitle,
    SetInitHandler, SetOption, RemoveOption, MakeAppFromConfig, withOptions. simpl.
  rewrite Hnil. simpl. repeat split; eauto.
  intros Ht. by rewrite bool_decide_eq_false_2.
Qed.

(** *** Facts about the handlers *)

(** X21. Handlers are kept by kind and path: a handler and a data handler
    set for the same path are both reached, each by the requests of its
    kind; the value of a handler set with [Handler] is dropped, and so is
    that of a data handler that returns an error; every other request is
    served as before. *)
Theorem handler_kinds_coexist (path : string) (f : Request -> Run error)
    (g : Request -> Run Reply) (app : App) (req : Request) (u : U) :
  let rt := appRuntime (DataHandler path g (Handler path f app)) in
  (RequestType req = "handler" -> Path req = path ->
     RunHandler rt req u
     = match f req u with
       | (Returned err, u') => (Returned (None, err), u')
       | (Panicked msg, u') => (Panicked msg, u')
       end) /\
  (RequestType req = "data" -> Path req = path ->
     RunHandler rt req u
     = match g req u with
       | (Returned (_, Some err), u') => (Returned (None, Some err), u')
       | res => res
       end) /\
  (Path req <> path \/ (RequestType req <> "handler" /\ RequestType req <> "data") ->
     handlers rt !! mkHandlerKey (RequestType req) (Path req)
     = handlers (appRuntime app) !! mkHandlerKey (RequestType req) (Path req)).
Proof.
  cbv zeta. unfold RunHandler, DataHandler, Handler, SetHandler, mkHandlerKey. simpl.
  split; [|split].
  - intros -> ->. rewrite lookup_insert_ne by (intros [=]). rewrite lookup_insert_eq.
    unfold wrapHandler. destruct (f req u) as [[[err|]|msg] u']; reflexivity.
  - intros -> ->. rewrite lookup_insert_eq. reflexivity.
  - intros Hother. rewrite !lookup_insert_ne; [reflexivity| |];
      intros [= Hty Hpath]; destruct Hother as [Hp|[Hh Hd]]; congruence.
Qed.

(** The html handler cannot be lost: whatever handlers and data
    handlers are set on an app, a request of type html with the empty path
    is served by [htmlHandler], never answered with "No handler found"; on
    an app whose html was not set from a file it returns [nil, nil] and
    does nothing. *)
Theorem html_handler_stays (calls : list HandlerCall) (app : App) (req : Request) (u : U) :
  handlers (appRuntime app) !! mkHandlerKey "html" "" = Some HtmlHandlerFn ->
  RequestType req = "html" -> Path req = "" ->
  let app' := applyHandlerCalls calls app in
  html (appRuntime app') = html (appRuntime app) /\
  RunHandler (appRuntime app') req u = htmlHandler (appRuntime app') req u /\
  (html (appRuntime app) = None -> RunHandler (appRuntime app') req u = (Returned (None, None), u)).
Proof.
  intros Hhtml Hty Hpath. cbv zeta.
  assert (Hkeep : forall a,
            handlers (appRuntime a) !! mkHandlerKey "html" "" = Some HtmlHandlerFn ->
            handlers (appRuntime (applyHandlerCalls calls a)) !! mkHandlerKey "html" ""
              = Some HtmlHandlerFn /\
            html (appRuntime (applyHandlerCalls calls a)) = html (appRuntime a)).
  { unfold applyHandlerCalls.
    induction calls as [|[p f|p g] calls IH]; intros a Ha; simpl; [by split| |].
    - destruct (IH (Handler p f a)) as [Hk Hh]; [|by split].
      unfold Handler, SetHandler, mkHandlerKey. simpl. by rewrite lookup_insert_ne.
    - destruct (IH (DataHandler p g a)) as [Hk Hh]; [|by split].
      unfold DataHandler, SetHandler, mkHandlerKey. simpl. by rewrite lookup_insert_ne. }
  destruct (Hkeep app Hhtml) as [Hk Hh]. split; [exact Hh|].
  assert (Hrun : RunHandler (appRuntime (applyHandlerCalls calls app)) req u
                 = htmlHandler (appRuntime (applyHandlerCalls calls app)) req u).
  { unfold RunHandler. rewrite Hty, Hpath, Hk. unfold htmlHandler.
    destruct (html _) as [v|]; [|reflexivity]. destruct (ValueFn v); [|reflexivity].
    destruct (ConvertToString _); reflexivity. }
  split; [exact Hrun|]. intros Hnone. rewrite Hrun. unfold htmlHandler. by rewrite Hh, Hnone.
Qed.

(** *** Facts about the blobs *)

(** X22. [SetHtml] hands the bytes of the string to the container once,
    under the key html:root, with their number and their hash, and sets the
    html option to static only when the container accepted them; a refusal
    is returned and leaves the app as it was. *)
Theorem SetHtml_uploads_then_sets_option (htmlStr : string) (app : App) :
  let barr := String.list_byte_of_string htmlStr in
  let blob := mkBlobData rootHtmlKey htmlMimeType (Z.of_nat (length barr))
                (base64Encode (sha256Sum barr)) 0 None false in
  let sent := [(appConfig app, blob, bytesReader barr)] in
  SetHtml htmlStr app
  = match containerSetBlobData (appConfig app) blob (bytesReader barr) with
    | Some err => (Returned (Some err, app), sent)
    | None =>
        match Options (appConfig app) with
        | Some opts =>
            (Returned (None,
                       withOptions (Some (<[OptionHtml := typeOption HtmlTypeStatic]> opts)) app),
             sent)
        | None => (Panicked "assignment to entry in nil map", sent)
        end
    end.
Proof.
  cbv zeta. unfold SetHtml.
  rewrite (BlobDataFromReadSeeker_ok rootHtmlKey htmlMimeType (bytesReader _) eq_refl eq_refl).
  unfold SetRawBlobData, bytesReader. simpl.
  destruct (containerSetBlobData _ _ _); [reflexivity|].
  unfold SetOption. destruct (Options (appConfig app)); reflexivity.
Qed.

(** [BlobDataFromReader] describes exactly the bytes it read: their
    number and their hash, with a reader over them at the beginning; a read
    error is returned with no reader. *)
Theorem BlobDataFromReader_describes_bytes (key mimeType : string) (r : dashcloud.Reader) :
  BlobDataFromReader key mimeType r
  = match dashcloud.rdErr r with
    | Some err => (zeroBlobData, None, Some err)
    | None =>
        (mkBlobData key mimeType (Z.of_nat (length (dashcloud.rdBytes r)))
           (base64Encode (sha256Sum (dashcloud.rdBytes r))) 0 None false,
         Some (bytesReader (dashcloud.rdBytes r)), None)
    end.
Proof.
  unfold BlobDataFromReader, dashcloud.ReadAll. destruct (dashcloud.rdErr r); [reflexivity|].
  by rewrite (BlobDataFromReadSeeker_ok key mimeType (bytesReader _) eq_refl eq_refl).
Qed.

(** X23. Because [BlobDataFromReadSeeker] swallows the error of its first
    seek, [SetBlobDataFromFile] on a file whose first seek fails does not
    fail: it hands the container a blob with an empty key and size zero,
    carrying only the metadata. *)
Theorem SetBlobDataFromFile_uploads_empty_blob (key mimeType fileName : string)
    (metadata : option string) (app : App) (fd : ReadSeeker) (err : GoError)
    (rest : list error) :
  openFile fileName = inl fd ->
  seekErrs fd = Some err :: rest ->
  let fd1 := mkReadSeeker (content fd) (offset fd) rest (readErr fd) in
  let blob := mkBlobData "" "" 0 "" 0 metadata false in
  SetBlobDataFromFile key mimeType fileName metadata app
  = (containerSetBlobData (appConfig app) blob fd1, [(appConfig app, blob, fd1)]).
Proof.
  intros Hopen Hseek. cbv zeta. unfold SetBlobDataFromFile, BlobDataFromReadSeeker, Seek0.
  rewrite Hopen, Hseek. reflexivity.
Qed.

(** X24. When the seeks and the reading succeed, the two hashing helpers
    agree: both describe all the bytes behind the reader, wherever it
    stood, by their number and their hash, and both leave the reader at the
    beginning; [UpdateFileOptsFromReadSeeker] keeps the mime type and makes
    the file static. *)
Theorem hashing_helpers_agree (key mimeType : string) (r : ReadSeeker) (opts : FileOpts) :
  seeksSucceed r = true -> readErr r = None ->
  let blob := (BlobDataFromReadSeeker key mimeType r).1 in
  let file := (UpdateFileOptsFromReadSeeker r (Some opts)).1 in
  blob = (mkBlobData key mimeType (Z.of_nat (length (content r)))
            (base64Encode (sha256Sum (content r))) 0 None false, None) /\
  file = (None, Some (mkFileOpts FileTypeStatic (base64Encode (sha256Sum (content r)))
                        (Z.of_nat (length (content r))) (foMimeType opts))) /\
  offset (BlobDataFromReadSeeker key mimeType r).2 = 0%nat /\
  (BlobDataFromReadSeeker key mimeType r).2 = (UpdateFileOptsFromReadSeeker r (Some opts)).2.
Proof.
  intros Hseek Hread. cbv zeta.
  unfold BlobDataFromReadSeeker, UpdateFileOptsFromReadSeeker, seeksSucceed, Seek0, ioCopy in *.
  destruct (seekErrs r) as [|[e1|] [|[e2|] rest]]; try discriminate; simpl;
    rewrite Hread; simpl; rewrite ?drop_0; repeat split; reflexivity.
Qed.

End App.

(** *** The facts at work *)

(** A handler that writes its name to the log, and a data handler that
    returns a value. *)
Definition logging (name : string) : Request -> Run (U := list string) error :=
  fun req u => (Returned None, u ++ [name]).

Definition answering (value : string) : Request -> Run (U := list string) Reply :=
  fun req u => (Returned (Some value, None), u).

Definition newApp : App (U := list string) := MakeApp "a" "v1".

(** An app opened from a stored configuration that has no options. *)
Definition bareConfig : AppConfig := mkAppConfig "a" "v0" None [] false false.

Lemma auth_settings_independent_witness :
  exists app12,
    andThen (SetAuthType "none" newApp) (SetAllowedRoles ["admin"]) = Returned app12 /\
    andThen (SetAllowedRoles ["admin"] newApp) (SetAuthType "none") = Returned app12.
Proof.
  destruct (auth_settings_independent (U := list string) "none" ["admin"] newApp _ eq_refl)
    as (app1 & app2 & app12 & _ & _ & H1 & H2 & _).
  exists app12. split; assumption.
Defined.

Lemma nil_options_map_panics_witness :
  SetAuthType (U := list string) "none" (MakeAppFromConfig bareConfig "v1")
  = Panicked "assignment to entry in nil map".
Proof.
  apply (nil_options_map_panics (U := list string) bareConfig "v1" "a" (typeOption "x") "x"
           "none" "hidden" "t" ["admin"] 0%float (logging "init") eq_refl).
Defined.

Lemma handler_kinds_coexist_witness :
  RunHandler (fun s => inl s) (fun _ _ u => u)
    (appRuntime (DataHandler "/save" (answering "42") (Handler "/save" (logging "save") newApp)))
    (mkRequest "handler" "/save" "a") []
  = (Returned (None, None), ["save"]).
Proof.
  apply (handler_kinds_coexist (U := list string) (fun s => inl s) (fun _ _ u => u) "/save"
           (logging "save") (answering "42") newApp (mkRequest "handler" "/save" "a") []);
    reflexivity.
Defined.

Lemma html_handler_stays_witness :
  RunHandler (fun s => inl s) (fun _ _ u => u)
    (appRuntime (applyHandlerCalls [CallHandler "" (logging "root")] newApp))
    (mkRequest "html" "" "a") []
  = (Returned (None, None), []).
Proof.
  apply (html_handler_stays (U := list string) (fun s => inl s) (fun _ _ u => u)
           [CallHandler "" (logging "root")] newApp (mkRequest "html" "" "a") []);
    reflexivity.
Defined.

Lemma SetBlobDataFromFile_uploads_empty_blob_witness :
  SetBlobDataFromFile (U := list string) (H := demoHashing) (fun _ _ _ => None)
    (fun _ => inl brokenReader) "logo" "image/png" "logo.png" None newApp
  = (None, [(appConfig newApp, mkBlobData "" "" 0 "" 0 None false,
             mkReadSeeker [Byte.x61; Byte.x62; Byte.x63] 0 [] None)]).
Proof.
  apply (SetBlobDataFromFile_uploads_empty_blob (U := list string) (H := demoHashing)
           (fun _ _ _ => None) (fun _ => inl brokenReader) "logo" "image/png" "logo.png" None
           newApp brokenReader seekFails [] eq_refl eq_refl).
Defined.

Lemma hashing_helpers_agree_witness :
  (BlobDataFromReadSeeker (H := demoHashing) "k" "text/plain"
     (mkReadSeeker [Byte.x61; Byte.x62; Byte.x63] 2 [] None)).1
  = (mkBlobData "k" "text/plain" 3 "abc" 0 None false, None).
Proof.
  apply (hashing_helpers_agree (H := demoHashing) "k" "text/plain"
           (mkReadSeeker [Byte.x61; Byte.x62; Byte.x63] 2 [] None)
           (mkFileOpts "" "" 0 "text/plain") eq_refl eq_refl).
Defined.

End dashapp_facts.


(** * [dashfs.go] and [dashappclient.go]: paths, files and links *)

Module dashfs.
Import dashapp.

Definition MimeTypeJson : string := "application/json".
Definition FileTypeRuntimeLink : string := "rt-link".
Definition FileTypeAppRuntimeLink : string := "rt-app-link".
Definition AppRuntimeSubPath : string := "/_runtime".
Definition AppHtmlSubPath : string := "/_html".

(** [FileOpts{}]. *)
Definition zeroFileOpts : FileOpts := mkFileOpts "" "" 0 "".

Definition setFileType (fileType : string) (opts : FileOpts) : FileOpts :=
  mkFileOpts fileType (foSha256 opts) (foSize opts) (foMimeType opts).

Definition setMimeType (mimeType : string) (opts : FileOpts) : FileOpts :=
  mkFileOpts (FileType opts) (foSha256 opts) (foSize opts) mimeType.

Definition IsLinkType (opts : FileOpts) : bool :=
  bool_decide (FileType opts = FileTypeRuntimeLink)
  || bool_decide (FileType opts = FileTypeAppRuntimeLink).

(** [path == "" || path[0] != '/'], negated. *)
Definition beginsWithSlash (path : string) : bool :=
  bool_decide (String.substring 0 1 path = "/").

(** A [LinkRuntime]: [Some err] is a runtime with an [Err] method that
    returns [err], [None] one without that method. A [nil] runtime is the
    [None] of [option Runtime]. *)
Record Runtime : Type := mkRuntime { hasErr : option error }.

(** A call on the cloud client behind the file system. *)
Inductive ClientCall : Type :=
| CallSetRawPath (fullPath : string) (r : option ReadSeeker) (fileOpts : option FileOpts)
    (rt : option Runtime)
| CallRemovePath (fullPath : string)
| CallFileInfo (fullPath : string) (withDirOpts : bool).

(** The cloud client's [setRawPath], [removePath] and [fileInfo], the JSON
    encoder, [dasherr.JsonMarshalErr], [dashutil.IsAppNameValid] and
    [os.Open]. [FileInfo] is the type of the entries [fileInfo] returns. *)
Class FsClient : Type := {
  Data : Type;
  FileInfoT : Type;
  setRawPath : string -> option ReadSeeker -> option FileOpts -> option Runtime -> error;
  removePath : string -> error;
  fileInfo : string -> bool -> list FileInfoT * error;
  jsonEncode : Data -> list Byte.byte + GoError;
  JsonMarshalErr : string -> GoError -> GoError;
  IsAppNameValid : string -> bool;
  openFile : string -> ReadSeeker + GoError
}.

Section DashFS.
Context `{Hashing} `{FsClient}.

(** [fs.rootPath]. *)
Variable rootPath : string.

(** Every method returns what the Go method returns, and the calls it made
    on the client. *)
Definition SetRawPath (path : string) (r : option ReadSeeker) (fileOpts : option FileOpts)
    (rt : option Runtime) : error * list ClientCall :=
  if negb (beginsWithSlash path) then
    (Some (mkErr ErrCodeValidate "Path must begin with '/'"), [])
  else
    (setRawPath (rootPath +:+ path) r fileOpts rt,
     [CallSetRawPath (rootPath +:+ path) r fileOpts rt]).

(** [bytes.NewReader(barr)]. *)
Definition bytesReader (barr : list Byte.byte) : ReadSeeker := mkReadSeeker barr 0 [] None.

Definition SetJsonPath (path : string) (data : Data) (fileOpts : option FileOpts)
  : error * list ClientCall :=
  match jsonEncode data with
  | inr err => (Some (JsonMarshalErr "JsonData" err), [])
  | inl jsonBuf =>
      let reader := bytesReader jsonBuf in
      let fileOpts := Some (default zeroFileOpts fileOpts) in
      match UpdateFileOptsFromReadSeeker reader fileOpts with
      | ((Some err, _), _) => (Some err, [])
      | ((None, fileOpts1), reader1) =>
          let fileOpts2 :=
            (fun opts => if bool_decide (foMimeType opts = "") then setMimeType MimeTypeJson opts
                         else opts) <$> fileOpts1 in
          SetRawPath path (Some reader1) fileOpts2 None
      end
  end.

Definition SetPathFromFile (path fileName : string) (fileOpts : option FileOpts)
  : error * list ClientCall :=
  match openFile fileName with
  | inr err => (Some err, [])
  | inl fd =>
      match UpdateFileOptsFromReadSeeker fd fileOpts with
      | ((Some err, _), _) => (Some err, [])
      | ((None, fileOpts1), fd1) => SetRawPath path (Some fd1) fileOpts1 None
      end
  end.

Definition SetStaticPath (path : string) (r : ReadSeeker) (fileOpts : option FileOpts)
  : error * list ClientCall :=
  let fileOpts := Some (setFileType FileTypeStatic (default zeroFileOpts fileOpts)) in
  match UpdateFileOptsFromReadSeeker r fileOpts with
  | ((Some err, _), _) => (Some err, [])
  | ((None, fileOpts1), r1) => SetRawPath path (Some r1) fileOpts1 None
  end.

Definition RemovePath (path : string) : error * list ClientCall :=
  if negb (beginsWithSlash path) then (Some (Errorf "Path must begin with '/'"), [])
  else (removePath (rootPath +:+ path), [CallRemovePath (rootPath +:+ path)]).

(** [FileInfo] returns [(info, err)]; [None] is the [nil] pointer. *)
Definition FileInfo (path : string) : (option FileInfoT * error) * list ClientCall :=
  if negb (beginsWithSlash path) then ((None, Some (Errorf "Path must begin with '/'")), [])
  else
    let '(rtn, err) := fileInfo (rootPath +:+ path) false in
    (match err with
     | Some e => (None, Some e)
     | None => (head rtn, None)
     end, [CallFileInfo (rootPath +:+ path) false]).

Definition DirInfo (path : string) : (list FileInfoT * error) * list ClientCall :=
  if negb (beginsWithSlash path) then (([], Some (Errorf "Path must begin with '/'")), [])
  else (fileInfo (rootPath +:+ path) true, [CallFileInfo (rootPath +:+ path) true]).

(** The error a runtime reports through [HasErr]. *)
Definition runtimeErr (rt : option Runtime) : error :=
  match rt with
  | Some (mkRuntime (Some err)) => err
  | _ => None
  end.

(** [LinkRuntime] and [LinkAppRuntime], which differ in the file type. *)
Definition linkAs (fileType path : string) (rt : option Runtime) (fileOpts : option FileOpts)
  : error * list ClientCall :=
  match runtimeErr rt with
  | Some err => (Some err, [])
  | None =>
      let fileOpts := Some (setFileType fileType (default zeroFileOpts fileOpts)) in
      if negb (beginsWithSlash path) then (Some (Errorf "Path must begin with '/'"), [])
      else
        (setRawPath (rootPath +:+ path) None fileOpts rt,
         [CallSetRawPath (rootPath +:+ path) None fileOpts rt])
  end.

Definition LinkRuntime (path : string) (rt : option Runtime) (fileOpts : option FileOpts)
  : error * list ClientCall :=
  linkAs FileTypeRuntimeLink path rt fileOpts.

Definition LinkAppRuntime (path : string) (apprt : option Runtime) (fileOpts : option FileOpts)
  : error * list ClientCall :=
  linkAs FileTypeAppRuntimeLink path apprt fileOpts.

(** *** [dashappclient.go] *)

Definition AppPathFromName (appName : string) : string := "/@app/" +:+ appName.

(** [DashAppClient.RemoveApp], on the client itself. *)
Definition RemoveApp (appName : string) : error * list ClientCall :=
  if negb (IsAppNameValid appName) then (Some (mkErr ErrCodeValidate "Invalid App Name"), [])
  else
    let appPath := AppPathFromName appName in
    match removePath appPath with
    | Some err => (Some err, [CallRemovePath appPath])
    | None =>
        match removePath (appPath +:+ AppRuntimeSubPath) with
        | Some err =>
            (Some err, [CallRemovePath appPath; CallRemovePath (appPath +:+ AppRuntimeSubPath)])
        | None =>
            (removePath (appPath +:+ AppHtmlSubPath),
             [CallRemovePath appPath; CallRemovePath (appPath +:+ AppRuntimeSubPath);
              CallRemovePath (appPath +:+ AppHtmlSubPath)])
        end
    end.

(** *** Facts *)

(** X25. A path that does not begin with a slash, the empty path among
    them, is refused by every method of the file system before the client
    is called; [SetRawPath] refuses it with a [Validate] error, the others
    with a plain error, and the methods that hash their content first
    return an error of one kind or the other. *)
Theorem relative_paths_rejected (path : string) (r : ReadSeeker) (ro : option ReadSeeker)
    (fileOpts : option FileOpts) (rt : option Runtime) (data : Data) (fileName : string) :
  beginsWithSlash path = false ->
  SetRawPath path ro fileOpts rt = (Some (mkErr ErrCodeValidate "Path must begin with '/'"), []) /\
  RemovePath path = (Some (Errorf "Path must begin with '/'"), []) /\
  FileInfo path = ((None, Some (Errorf "Path must begin with '/'")), []) /\
  DirInfo path = (([], Some (Errorf "Path must begin with '/'")), []) /\
  (runtimeErr rt = None ->
     LinkRuntime path rt fileOpts = (Some (Errorf "Path must begin with '/'"), []) /\
     LinkAppRuntime path rt fileOpts = (Some (Errorf "Path must begin with '/'"), [])) /\
  (is_Some (SetStaticPath path r fileOpts).1 /\ (SetStaticPath path r fileOpts).2 = []) /\
  (is_Some (SetJsonPath path data fileOpts).1 /\ (SetJsonPath path data fileOpts).2 = []) /\
  (is_Some (SetPathFromFile path fileName fileOpts).1 /\
   (SetPathFromFile path fileName fileOpts).2 = []).
Proof.
  intros Hpath.
  assert (Hraw : forall ro' opts' rt',
            SetRawPath path ro' opts' rt'
            = (Some (mkErr ErrCodeValidate "Path must begin with '/'"), [])).
  { intros. unfold SetRawPath. by rewrite Hpath. }
  unfold RemovePath, FileInfo, DirInfo, LinkRuntime, LinkAppRuntime, linkAs, SetStaticPath,
    SetJsonPath, SetPathFromFile. rewrite Hpath. cbn [negb].
  split; [apply Hraw|]. do 3 (split; [reflexivity|]).
  split; [intros ->; split; reflexivity|].
  split; [|split].
  - destruct (UpdateFileOptsFromReadSeeker r _) as [[[err|] opts1] r1]; [by eauto|].
    rewrite Hraw. by eauto.
  - destruct (jsonEncode data); [|by eauto].
    destruct (UpdateFileOptsFromReadSeeker _ _) as [[[err|] opts1] r1]; [by eauto|].
    rewrite Hraw. by eauto.
  - destruct (openFile fileName) as [fd|]; [|by eauto].
    destruct (UpdateFileOptsFromReadSeeker fd _) as [[[err|] opts1] r1]; [by eauto|].
    rewrite Hraw. by eauto.
Qed.

(** X26. [SetJsonPath] under a path that begins with a slash makes one
    [setRawPath] call: for the path under the root, with a reader over the
    encoded bytes at their beginning, and with options that describe them
    as a static file by size and hash, under the mime type given or, if
    none is given, application/json. Data that cannot be encoded are
    refused before any call. *)
Theorem SetJsonPath_describes_json (path : string) (data : Data) (fileOpts : option FileOpts) :
  beginsWithSlash path = true ->
  SetJsonPath path data fileOpts
  = match jsonEncode data with
    | inr err => (Some (JsonMarshalErr "JsonData" err), [])
    | inl jsonBuf =>
        let mimeType := foMimeType (default zeroFileOpts fileOpts) in
        let opts := mkFileOpts FileTypeStatic (base64Encode (sha256Sum jsonBuf))
                      (Z.of_nat (length jsonBuf))
                      (if bool_decide (mimeType = "") then MimeTypeJson else mimeType) in
        (setRawPath (rootPath +:+ path) (Some (bytesReader jsonBuf)) (Some opts) None,
         [CallSetRawPath (rootPath +:+ path) (Some (bytesReader jsonBuf)) (Some opts) None])
    end.
Proof.
  intros Hpath. unfold SetJsonPath. destruct (jsonEncode data) as [jsonBuf|err]; [|reflexivity].
  cbv zeta. unfold UpdateFileOptsFromReadSeeker, Seek0, ioCopy, bytesReader, SetRawPath.
  rewrite Hpath. simpl. rewrite drop_0. case_bool_decide; reflexivity.
Qed.

(** A runtime is linked under the file type of a link whatever file
    type the options had, with no content: [LinkRuntime] makes one
    [setRawPath] call with type rt-link, [LinkAppRuntime] with type
    rt-app-link, and [IsLinkType] holds of both. A runtime that reports an
    error is not linked, and the error is returned. *)
Theorem link_runtime_marks_link (path : string) (rt : option Runtime)
    (fileOpts : option FileOpts) :
  beginsWithSlash path = true ->
  let linked fileType := Some (setFileType fileType (default zeroFileOpts fileOpts)) in
  match runtimeErr rt with
  | Some err =>
      LinkRuntime path rt fileOpts = (Some err, []) /\
      LinkAppRuntime path rt fileOpts = (Some err, [])
  | None =>
      LinkRuntime path rt fileOpts
      = (setRawPath (rootPath +:+ path) None (linked FileTypeRuntimeLink) rt,
         [CallSetRawPath (rootPath +:+ path) None (linked FileTypeRuntimeLink) rt]) /\
      LinkAppRuntime path rt fileOpts
      = (setRawPath (rootPath +:+ path) None (linked FileTypeAppRuntimeLink) rt,
         [CallSetRawPath (rootPath +:+ path) None (linked FileTypeAppRuntimeLink) rt]) /\
      IsLinkType (setFileType FileTypeRuntimeLink (default zeroFileOpts fileOpts)) = true /\
      IsLinkType (setFileType FileTypeAppRuntimeLink (default zeroFileOpts fileOpts)) = true
  end.
Proof.
  intros Hpath. cbv zeta. unfold LinkRuntime, LinkAppRuntime, linkAs.
  destruct (runtimeErr rt); [by split|]. rewrite Hpath. cbn [negb]. repeat split.
Qed.

(** X27. [RemoveApp] of the app client removes the path of the app, then
    its runtime path, then its html path, and stops at the first removal
    that fails, returning that error; an invalid app name is refused with
    a [Validate] error before anything is removed. *)
Theorem RemoveApp_stops_at_first_error (appName : string) :
  let appPath := "/@app/" +:+ appName in
  let paths := [appPath; appPath +:+ "/_runtime"; appPath +:+ "/_html"] in
  let failed := list_find (fun p => is_Some (removePath p)) paths in
  RemoveApp appName
  = if IsAppNameValid appName then
      match failed with
      | Some (i, p) => (removePath p, CallRemovePath <$> take (S i) paths)
      | None => (None, CallRemovePath <$> paths)
      end
    else (Some (mkErr ErrCodeValidate "Invalid App Name"), []).
Proof.
  cbv zeta. unfold RemoveApp, AppPathFromName, AppRuntimeSubPath, AppHtmlSubPath.
  destruct (IsAppNameValid appName); [|reflexivity]. cbn [negb list_find].
  assert (Hno : ~ is_Some (@None GoError)) by (intros [x Hx]; discriminate).
  destruct (removePath ("/@app/" +:+ appName)) as [e1|] eqn:H1.
  { rewrite decide_True by eauto. simpl. by rewrite H1. }
  rewrite decide_False by exact Hno.
  destruct (removePath (("/@app/" +:+ appName) +:+ "/_runtime")) as [e2|] eqn:H2.
  { rewrite decide_True by eauto. simpl. by rewrite H2. }
  rewrite decide_False by exact Hno.
  destruct (removePath (("/@app/" +:+ appName) +:+ "/_html")) as [e3|] eqn:H3.
  { rewrite decide_True by eauto. simpl. by rewrite H3. }
  rewrite decide_False by exact Hno. reflexivity.
Qed.

End DashFS.

(** *** The facts at work *)

(** A client that accepts everything, over data that are JSON already. *)
Definition demoFsClient : FsClient := {|
  Data := string;
  FileInfoT := string;
  setRawPath := fun _ _ _ _ => None;
  removePath := fun _ => None;
  fileInfo := fun _ _ => ([], None);
  jsonEncode := fun s => inl (String.list_byte_of_string s);
  JsonMarshalErr := fun what err => mkErr ErrCodeJsonMarshal (what +:+ ": " +:+ errMsg err);
  IsAppNameValid := fun s => negb (bool_decide (s = ""));
  openFile := fun _ => inr (Errorf "open: no such file or directory")
|}.

Lemma relative_paths_rejected_witness :
  RemovePath (H0 := demoFsClient) "/zone" "data/x.json"
  = (Some (Errorf "Path must begin with '/'"), []).
Proof.
  destruct (relative_paths_rejected (H := demoHashing) (H0 := demoFsClient) "/zone"
              "data/x.json" brokenReader None None None "{}" "x.json" eq_refl) as (_ & Hrm & _).
  exact Hrm.
Defined.

Lemma SetJsonPath_describes_json_witness :
  SetJsonPath (H := demoHashing) (H0 := demoFsClient) "/zone" "/data/x.json" "{}" None
  = (None,
     [CallSetRawPath "/zone/data/x.json" (Some (bytesReader [Byte.x7b; Byte.x7d]))
        (Some (mkFileOpts "static" "{}" 2 "application/json")) None]).
Proof.
  apply (SetJsonPath_describes_json (H := demoHashing) (H0 := demoFsClient) "/zone"
           "/data/x.json" "{}" None).
  reflexivity.
Defined.

Lemma link_runtime_marks_link_witness :
  LinkRuntime (H0 := demoFsClient) "/zone" "/rt/main" (Some (mkRuntime (Some None)))
    (Some (mkFileOpts "static" "" 0 ""))
  = (None,
     [CallSetRawPath "/zone/rt/main" None (Some (mkFileOpts "rt-link" "" 0 ""))
        (Some (mkRuntime (Some None)))]).
Proof.
  apply (link_runtime_marks_link (H0 := demoFsClient) "/zone" "/rt/main"
           (Some (mkRuntime (Some None))) (Some (mkFileOpts "static" "" 0 ""))).
  reflexivity.
Defined.

End dashfs.


(** * [dashlocal.go]: the CSRF token and the actions sent to the page *)

Module dashlocal.

Definition csrfCookie : string := "dashcsrf".
Definition csrfTokenHeader : string := "X-Csrf-Token".

(** An [http.Request], as [r.Header.Get] and [r.Cookie] show it; a cookie
    that is not there is [None] ([http.ErrNoCookie]). *)
Record HttpRequest : Type := mkHttpRequest {
  Header : string -> string;
  Cookie : string -> option string
}.

(** The [http.Cookie] set on a response. *)
Record SetCookie : Type := mkSetCookie {
  CookieName : string;
  CookieValue : string;
  CookiePath : string;
  Secure : bool;
  HttpOnly : bool;
  MaxAge : Z
}.

(** The [dashproto.RRAction] of the local server. *)
Record RRAction : Type := mkRRAction {
  Ts : Z;
  ActionType : string;
  Selector : string;
  OpType : string;
  JsonData : string;
  Err : string;
  Html : string;
  BlobBytes : list Byte.byte;
  BlobMimeType : string
}.

(** What lies outside: [dashutil.IsUUIDValid], [json.Unmarshal] into an
    [interface{}] and [base64.RawStdEncoding]. *)
Class LocalExternals : Type := {
  JsonValue : Type;
  IsUUIDValid : string -> bool;
  jsonUnmarshal : string -> JsonValue + GoError;
  base64RawEncode : list Byte.byte -> string
}.

Section LocalServer.
Context `{LocalExternals}.

(** A value of the [map[string]interface{}] built for an action. *)
Inductive FieldValue : Type :=
| FInt64 (z : Z)
| FString (s : string)
| FData (v : JsonValue).

(** [setCsrfToken]; [fresh] is the [uuid.New().String()] it would draw. It
    returns the token and the cookie it sets. *)
Definition setCsrfToken (fresh : string) (r : HttpRequest) : string * SetCookie :=
  let csrfToken :=
    match Cookie r csrfCookie with
    | Some csrfCookieVal => if IsUUIDValid csrfCookieVal then csrfCookieVal else ""
    | None => ""
    end in
  let csrfToken := if bool_decide (csrfToken = "") then fresh else csrfToken in
  (csrfToken, mkSetCookie csrfCookie csrfToken "/" false true (24 * 60 * 60)).

Definition checkCsrf (r : HttpRequest) : error :=
  match Cookie r csrfCookie with
  | None => Some (Errorf "Bad Request: No CSRF Cookie Found")
  | Some csrfCookieVal =>
      if negb (IsUUIDValid csrfCookieVal) then
        Some (Errorf "Bad Request: Malformed CSRF Cookie")
      else
        let csrfHeaderVal := Header r csrfTokenHeader in
        if negb (IsUUIDValid csrfHeaderVal) then
          Some (Errorf "Bad Request: No CSRF Header Set")
        else if negb (bool_decide (csrfHeaderVal = csrfCookieVal)) then
          Some (Errorf "Bad Request: CSRF Token Does Not Match")
        else None
  end.

Definition setIf (cond : bool) (key : string) (v : FieldValue) (m : gmap string FieldValue)
  : gmap string FieldValue :=
  if cond then <[key := v]> m else m.

Definition convertRR (rr : RRAction) (reqId : string) : gmap string FieldValue :=
  let rtn := <["ts" := FInt64 (Ts rr)]> ∅ in
  let rtn := setIf (negb (bool_decide (reqId = ""))) "reqid" (FString reqId) rtn in
  let rtn := <["type" := FString (ActionType rr)]> rtn in
  let rtn := setIf (negb (bool_decide (Selector rr = ""))) "selector" (FString (Selector rr)) rtn in
  let rtn := setIf (negb (bool_decide (OpType rr = ""))) "optype" (FString (OpType rr)) rtn in
  let rtn :=
    if negb (bool_decide (JsonData rr = "")) then
      match jsonUnmarshal (JsonData rr) with
      | inr err => <["err" := FString (errMsg err)]> rtn
      | inl dataI => <["data" := FData dataI]> rtn
      end
    else rtn in
  let rtn :=
    setIf (bool_decide (rtn !! "err" = None) && negb (bool_decide (Err rr = ""))) "err"
      (FString (Err rr)) rtn in
  let rtn := setIf (negb (bool_decide (Html rr = ""))) "html" (FString (Html rr)) rtn in
  let rtn :=
    setIf (bool_decide (0 < length (BlobBytes rr))%nat) "blobbase64"
      (FString (base64RawEncode (BlobBytes rr))) rtn in
  setIf (negb (bool_decide (BlobMimeType rr = ""))) "blobmimetype" (FString (BlobMimeType rr)) rtn.

Fixpoint convertRRArrFrom (rtn : list (gmap string FieldValue)) (rrArr : list RRAction)
    (reqId : string) : list (gmap string FieldValue) :=
  match rrArr with
  | [] => rtn
  | rr :: rest =>
      if bool_decide (ActionType rr = "panelauth")
         || bool_decide (ActionType rr = "panelauthchallenge")
      then convertRRArrFrom rtn rest reqId
      else convertRRArrFrom (rtn ++ [convertRR rr reqId]) rest reqId
  end.

Definition convertRRArr (rrArr : list RRAction) (reqId : string)
  : list (gmap string FieldValue) :=
  convertRRArrFrom [] rrArr reqId.

(** An action that carries authentication. *)
Definition isAuthAction (rr : RRAction) : Prop :=
  ActionType rr = "panelauth" \/ ActionType rr = "panelauthchallenge".

#[local] Instance isAuthAction_dec rr : Decision (isAuthAction rr).
Proof. unfold isAuthAction. apply _. Defined.

(** *** Facts *)

Lemma checkCsrf_None (r : HttpRequest) :
  checkCsrf r = None <->
  exists token, Cookie r csrfCookie = Some token /\ IsUUIDValid token = true /\
                Header r csrfTokenHeader = token.
Proof.
  unfold checkCsrf. destruct (Cookie r csrfCookie) as [v|].
  - destruct (IsUUIDValid v) eqn:Hv; simpl.
    + destruct (IsUUIDValid (Header r csrfTokenHeader)) eqn:Hh; simpl.
      * case_bool_decide as Heq; simpl.
        -- split; [intros _; by exists v|reflexivity].
        -- split; [discriminate|]. intros (t & [= <-] & _ & Ht). contradiction.
      * split; [discriminate|]. intros (t & [= <-] & _ & Ht). congruence.
    + split; [discriminate|]. intros (t & [= <-] & Ht & _). congruence.
  - split; [discriminate|]. intros (t & [=] & _).
Qed.

(** X28. [checkCsrf] lets a request through exactly when it carries the
    CSRF cookie, the cookie is a valid UUID, and the CSRF header repeats
    it. *)
Theorem checkCsrf_accepts_iff (r : HttpRequest) :
  checkCsrf r = None <->
  exists token, Cookie r csrfCookie = Some token /\ IsUUIDValid token = true /\
                Header r csrfTokenHeader = token.
Proof. apply checkCsrf_None. Qed.

(** X29. The token [setCsrfToken] returns is the one it puts into the
    cookie, and it is a valid UUID when a fresh UUID is; a valid cookie the
    request already carries is kept. A later request that returns the
    cookie passes [checkCsrf] exactly when its header holds that token. *)
Theorem csrf_token_round_trip (fresh : string) (r r2 : HttpRequest) :
  IsUUIDValid fresh = true ->
  let res := setCsrfToken fresh r in
  IsUUIDValid res.1 = true /\
  CookieName res.2 = csrfCookie /\
  CookieValue res.2 = res.1 /\
  (forall v, Cookie r csrfCookie = Some v -> IsUUIDValid v = true -> v <> "" -> res.1 = v) /\
  (Cookie r2 csrfCookie = Some (CookieValue res.2) ->
     (checkCsrf r2 = None <-> Header r2 csrfTokenHeader = res.1)).
Proof.
  intros Hfresh. cbv zeta.
  assert (Hvalid : IsUUIDValid (setCsrfToken fresh r).1 = true).
  { unfold setCsrfToken. simpl. destruct (Cookie r csrfCookie) as [v|]; simpl; [|exact Hfresh].
    destruct (IsUUIDValid v) eqn:Hv; simpl; [|exact Hfresh].
    case_bool_decide; [exact Hfresh|exact Hv]. }
  split; [exact Hvalid|]. split; [reflexivity|]. split; [reflexivity|]. split.
  - intros v Hc Hv Hne. unfold setCsrfToken. simpl. rewrite Hc, Hv.
    by rewrite bool_decide_eq_false_2.
  - intros Hc2. rewrite checkCsrf_None. split.
    + intros (t & Ht & _ & Hh). rewrite Hc2 in Ht. injection Ht as <-. exact Hh.
    + intros Hh. exists (setCsrfToken fresh r).1. split; [exact Hc2|]. split; [exact Hvalid|exact Hh].
Qed.

Lemma lookup_setIf_ne (cond : bool) (key key' : string) (v : FieldValue)
    (m : gmap string FieldValue) :
  key <> key' -> setIf cond key v m !! key' = m !! key'.
Proof. intros Hne. unfold setIf. destruct cond; [by apply lookup_insert_ne|reflexivity]. Qed.

Lemma convertRR_type (rr : RRAction) (reqId : string) :
  convertRR rr reqId !! "type" = Some (FString (ActionType rr)) /\
  convertRR rr reqId !! "ts" = Some (FInt64 (Ts rr)).
Proof.
  unfold convertRR. cbv zeta.
  rewrite !lookup_setIf_ne by discriminate.
  destruct (negb (bool_decide (JsonData rr = ""))).
  - destruct (jsonUnmarshal (JsonData rr)).
    + rewrite !(lookup_insert_ne _ "data") by discriminate.
      rewrite !lookup_setIf_ne by discriminate. rewrite lookup_insert_eq.
      rewrite lookup_insert_ne by discriminate. rewrite lookup_setIf_ne by discriminate.
      by rewrite lookup_insert_eq.
    + rewrite !(lookup_insert_ne _ "err") by discriminate.
      rewrite !lookup_setIf_ne by discriminate. rewrite lookup_insert_eq.
      rewrite lookup_insert_ne by discriminate. rewrite lookup_setIf_ne by discriminate.
      by rewrite lookup_insert_eq.
  - rewrite !lookup_setIf_ne by discriminate. rewrite lookup_insert_eq.
    rewrite lookup_insert_ne by discriminate. rewrite lookup_setIf_ne by discriminate.
    by rewrite lookup_insert_eq.
Qed.

Lemma convertRRArrFrom_filter (rtn : list (gmap string FieldValue)) (rrArr : list RRAction)
    (reqId : string) :
  convertRRArrFrom rtn rrArr reqId
  = rtn ++ ((fun rr => convertRR rr reqId) <$> filter (fun rr => ~ isAuthAction rr) rrArr).
Proof.
  revert rtn. induction rrArr as [|rr rest IH]; intros rtn; simpl.
  - by rewrite app_nil_r.
  - rewrite filter_cons. destruct (decide (~ isAuthAction rr)) as [Hn|Hy].
    + assert (Hb : bool_decide (ActionType rr = "panelauth")
                   || bool_decide (ActionType rr = "panelauthchallenge") = false).
      { apply orb_false_iff. split; apply bool_decide_eq_false; intros Hc; apply Hn;
          [by left|by right]. }
      rewrite Hb, IH, <- app_assoc. reflexivity.
    + assert (Hb : bool_decide (ActionType rr = "panelauth")
                   || bool_decide (ActionType rr = "panelauthchallenge") = true).
      { apply dec_stable in Hy. apply orb_true_iff.
        destruct Hy as [Hy|Hy]; [left|right]; by apply bool_decide_eq_true. }
      rewrite Hb. apply IH.
Qed.

(** X30. The page never sees an authentication action: [convertRRArr]
    converts the actions that are neither [panelauth] nor
    [panelauthchallenge], in their order, and leaves those two kinds out;
    every entry it returns has its timestamp and its type. *)
Theorem convertRRArr_drops_auth (rrArr : list RRAction) (reqId : string) :
  convertRRArr rrArr reqId
  = (fun rr => convertRR rr reqId) <$> filter (fun rr => ~ isAuthAction rr) rrArr /\
  Forall (fun m => exists ty ts, m !! "type" = Some (FString ty) /\ m !! "ts" = Some (FInt64 ts) /\
                                 ty <> "panelauth" /\ ty <> "panelauthchallenge")
         (convertRRArr rrArr reqId).
Proof.
  unfold convertRRArr. rewrite convertRRArrFrom_filter. simpl. split; [reflexivity|].
  apply Forall_fmap, Forall_forall. intros rr Hin. apply list_elem_of_filter in Hin as [Hn _].
  destruct (convertRR_type rr reqId) as [Hty Hts]. simpl.
  exists (ActionType rr), (Ts rr). split; [exact Hty|]. split; [exact Hts|].
  split; intros Hc; apply Hn; [by left|by right].
Qed.

(** In the entry of an action, [data] is there exactly when the
    action has JSON that parses; when the JSON does not parse, [err] is the
    parse error and hides the error of the action itself, which is [err]
    in every other case where it is not empty. *)
Theorem convertRR_data_or_error (rr : RRAction) (reqId : string) :
  let parsed := if bool_decide (JsonData rr = "") then None else Some (jsonUnmarshal (JsonData rr)) in
  convertRR rr reqId !! "data"
  = match parsed with
    | Some (inl dataI) => Some (FData dataI)
    | _ => None
    end /\
  convertRR rr reqId !! "err"
  = match parsed with
    | Some (inr err) => Some (FString (errMsg err))
    | _ => if bool_decide (Err rr = "") then None else Some (FString (Err rr))
    end.
Proof.
  cbv zeta. unfold convertRR. cbv zeta.
  rewrite !(lookup_setIf_ne _ "blobmimetype"), !(lookup_setIf_ne _ "blobbase64"),
    !(lookup_setIf_ne _ "html") by discriminate.
  assert (Hbase : forall key, key = "data" \/ key = "err" ->
            setIf (negb (bool_decide (OpType rr = ""))) "optype" (FString (OpType rr))
              (setIf (negb (bool_decide (Selector rr = ""))) "selector" (FString (Selector rr))
                 (<["type" := FString (ActionType rr)]>
                    (setIf (negb (bool_decide (reqId = ""))) "reqid" (FString reqId)
                       (<["ts" := FInt64 (Ts rr)]> ∅)))) !! key = None).
  { intros key [-> | ->]; rewrite !lookup_setIf_ne by discriminate;
      rewrite lookup_insert_ne by discriminate; rewrite lookup_setIf_ne by discriminate;
      rewrite lookup_insert_ne by discriminate; apply lookup_empty. }
  set (base := setIf (negb (bool_decide (OpType rr = ""))) _ _ _) in *.
  destruct (decide (JsonData rr = "")) as [Hj|Hj];
    [rewrite !(bool_decide_eq_true_2 _ Hj)|rewrite !(bool_decide_eq_false_2 _ Hj)]; cbn [negb].
  - rewrite lookup_setIf_ne by discriminate. rewrite (Hbase "data") by auto.
    split; [reflexivity|]. unfold setIf at 1. rewrite (Hbase "err") by auto.
    rewrite bool_decide_eq_true_2 by reflexivity. cbn [andb].
    destruct (bool_decide (Err rr = "")); cbn [negb]; [by apply Hbase; auto|apply lookup_insert_eq].
  - destruct (jsonUnmarshal (JsonData rr)) as [dataI|err].
    + rewrite lookup_setIf_ne by discriminate. rewrite lookup_insert_eq. split; [reflexivity|].
      unfold setIf at 1. rewrite lookup_insert_ne by discriminate. rewrite (Hbase "err") by auto.
      rewrite bool_decide_eq_true_2 by reflexivity. cbn [andb].
      destruct (bool_decide (Err rr = "")); cbn [negb].
      * rewrite lookup_insert_ne by discriminate. by apply Hbase; auto.
      * apply lookup_insert_eq.
    + rewrite lookup_setIf_ne by discriminate. rewrite lookup_insert_ne by discriminate.
      rewrite (Hbase "data") by auto. split; [reflexivity|].
      unfold setIf at 1. rewrite lookup_insert_eq.
      rewrite bool_decide_eq_false_2 by discriminate. cbn [andb]. apply lookup_insert_eq.
Qed.

End LocalServer.

(** *** The facts at work *)

(** UUIDs are told by their length, JSON that parses by its first byte. *)
Definition demoLocal : LocalExternals := {|
  JsonValue := string;
  IsUUIDValid := fun s => bool_decide (String.length s = 36%nat);
  jsonUnmarshal := fun s =>
    if bool_decide (String.substring 0 1 s = "{") then inl s
    else inr (Errorf "invalid character");
  base64RawEncode := fun bs => String.string_of_list_byte bs
|}.

Definition demoToken : string := "123e4567-e89b-12d3-a456-426614174000".

Definition firstVisit : HttpRequest := mkHttpRequest (fun _ => "") (fun _ => None).

(** The request a page makes after [firstVisit] was answered with
    [demoToken]. *)
Definition secondVisit : HttpRequest :=
  mkHttpRequest (fun name => if bool_decide (name = "X-Csrf-Token") then demoToken else "")
                (fun name => if bool_decide (name = "dashcsrf") then Some demoToken else None).

Lemma csrf_token_round_trip_witness :
  checkCsrf (H := demoLocal) secondVisit = None <-> Header secondVisit csrfTokenHeader = demoToken.
Proof.
  destruct (csrf_token_round_trip (H := demoLocal) demoToken firstVisit secondVisit eq_refl)
    as (_ & _ & _ & _ & Hcheck).
  exact (Hcheck eq_refl).
Defined.

End dashlocal.
